(** * HSICOS: flux-footprint / hyperspectral matching (fmch/hsicos.py)

    A shallow embedding of the control flow of the [HSICOS] pipeline that the
    specification talks about: the temporal matcher ([nearest], [_fnv]), the
    canopy-height / sensor-height resolution of [_load_icos_subset], the
    geometry builder [_model_geoms], the band handling of
    [_crop_hsi_2_geoms], the band-length gate of [crs_and_cropping] and the
    prologue of [hsi_geom_crop] / [load_cropped_db].  Besides these: the
    station table [_build_icos_meta] with [_crs_calc] and the range check of
    [icos_cds_get], the header checks [_ppfd_check] and [var_check], the
    band import of [prisma_crop], the CRS bookkeeping of [crs_and_cropping],
    the status table of [hsi_qc], the ERA5 lookup [_icos_era5_pblh] and the
    covariates file of [hsi_add_spei_ppi] / [load_spei_ppi_db].  What these
    functions get from rasters, files and remote services is an input of
    the model.

    Conventions of the embedding
    - Python floats are exact rationals ([Q]); NaN only occurs as a pixel
      value and is [None] in [option Q].  The sentinel tests of the source
      ([== -9999], [isin([-9999])]) are [Qeq_bool] against [-9999].
    - Calendar dates are day ordinals and timestamps are minutes, both [Z].
    - A pandas [Series] with named entries is a [gmap string Q]; a data frame
      is the list of its rows in index order.
    - A raised exception is [Raise e]; logging is not part of the state. *)

From Stdlib Require Import ZArith QArith Qabs Qround Ascii String List Sorted Lia Lqa.
From stdpp Require Import base list strings gmap pretty.

(** ** Python runtime: exceptions, [min] with a key, slices *)

Inductive exn : Type :=
| ValueError (msg : string)
| KeyError (msg : string)
| IndexError
| TypeError
| AttributeError (attr : string)
| FileNotFound (path : string)
| UnboundLocalError (var : string).

Inductive result (A : Type) : Type :=
| Ok (a : A)
| Raise (e : exn).
Arguments Ok {A} a.
Arguments Raise {A} e.

#[global] Instance result_ret : MRet result := fun _ a => Ok a.
#[global] Instance result_bind : MBind result := fun _ _ k m =>
  match m with
  | Ok a => k a
  | Raise e => Raise e
  end.

Definition is_ok {A : Type} (m : result A) : Prop := exists a, m = Ok a.

Definition of_option {A : Type} (e : exn) (o : option A) : result A :=
  match o with
  | Some a => Ok a
  | None => Raise e
  end.

(** [py_min ltb key xs] is [min(xs, key=key)]: the running best is replaced
    only when the new key is strictly smaller, an empty argument raises. *)
Section PyMin.
Context {A K : Type} (ltb : K -> K -> bool) (key : A -> K).

Fixpoint min_from (best : A) (xs : list A) : A :=
  match xs with
  | [] => best
  | x :: xs' => min_from (if ltb (key x) (key best) then x else best) xs'
  end.

Definition py_min (xs : list A) : result A :=
  match xs with
  | [] => Raise (ValueError "min() arg is an empty sequence")
  | x :: xs' => Ok (min_from x xs')
  end.
End PyMin.

(** [l[a:b]] for indices [0 <= a], [0 <= b]. *)
Definition py_slice {A : Type} (l : list A) (a b : nat) : list A :=
  take (b - a) (drop a l).

Definition Qltb (a b : Q) : bool := negb (Qle_bool b a).

Definition sentinel : Q := (-9999)%Q.
Definition is_sentinel (v : Q) : bool := Qeq_bool v sentinel.

(** ** Temporal matcher *)

(** [abs(x - target)] for the values the matcher is used with: day ordinals
    and timestamps ([Z]) and numbers ([Q]). *)
Class Distance (A : Type) : Type := distance : A -> A -> Q.

#[global] Instance Z_distance : Distance Z := fun x target => inject_Z (Z.abs (x - target)).
#[global] Instance Q_distance : Distance Q := fun x target => Qabs (x - target).

(** [nearest(items, target)]. *)
Definition nearest {A : Type} `{Distance A} (items : list A) (target : A) : result A :=
  py_min Qltb (fun x => distance x target) items.

(** [_fnv(values, target)], the [list] branch: [max(values)] and
    [min(values)] of the two warnings raise on an empty list before the
    index is searched. *)
Definition _fnv (values : list Q) (target : Q) : result nat :=
  match values with
  | [] => Raise (ValueError "max() arg is an empty sequence")
  | _ => py_min Qltb (fun i => Qabs (nth i values 0%Q - target))
           (seq 0 (length values))
  end.

(** ** ICOS level-2 tables, as [_load_icos_subset] sees them *)

(** One row of a pivoted canopy-height group ([flx_anc_w], index GROUP_ID).
    [HEIGHTC] is the value [astype(float)] yields, [HEIGHTC_DATE] the day of
    [HEIGHTC_DATE_START] or, failing that column, of [HEIGHTC_DATE]; a NaN
    cell of a text column is [None]. *)
Record heightc_row : Type := {
  HEIGHTC : Q;
  HEIGHTC_STATISTIC : option string;
  HEIGHTC_SPP : option string;
  HEIGHTC_DATE : Z
}.

(** The ANCILLARY file: the pivots of its two canopy-height groups, each a
    list of (GROUP_ID, row); an absent group is the empty list. *)
Record ancillary : Type := {
  GRP_TREE_HEIGHT : list (Z * heightc_row);
  GRP_HEIGHTC : list (Z * heightc_row)
}.

(** One row of the pivoted GRP_INSTOM group of the INST file. *)
Record inst_row : Type := {
  INSTOM_MODEL : string;
  INSTOM_TYPE : string;
  INSTOM_DATE : Z;
  INSTOM_HEIGHT : Q
}.

Definition str_contains (pat s : string) : bool :=
  match String.index 0 pat s with
  | Some _ => true
  | None => false
  end.

Definition stat_is (names : list string) (r : heightc_row) : bool :=
  match HEIGHTC_STATISTIC r with
  | Some s => bool_decide (s ∈ names)
  | None => false
  end.

Definition spp_isnull (r : heightc_row) : bool :=
  match HEIGHTC_SPP r with
  | Some _ => false
  | None => true
  end.

(** [flx_anc.VARIABLE.isin(['HEIGHTC_SPP']).any()]: some record of the file
    carries a species entry. *)
Definition anc_has_spp (anc : ancillary) : bool :=
  existsb (fun r => negb (spp_isnull r.2)) (GRP_TREE_HEIGHT anc ++ GRP_HEIGHTC anc).

(** [flx_anc_w.HEIGHTC_SPP]: the pivot has the column only when one of its
    own rows has a species entry. *)
Definition spp_column (w : list (Z * heightc_row)) : result (list (Z * heightc_row)) :=
  if existsb (fun r => negb (spp_isnull r.2)) w then Ok w
  else Raise (AttributeError "HEIGHTC_SPP").

(** [flx_anc_w.HEIGHTC_STATISTIC]: likewise; the pivot of an absent group has
    no columns at all. *)
Definition stat_column (w : list (Z * heightc_row)) : result (list (Z * heightc_row)) :=
  if existsb (fun r => bool_decide (is_Some (HEIGHTC_STATISTIC r.2))) w then Ok w
  else Raise (AttributeError "HEIGHTC_STATISTIC").

Definition P75 : list string := ["75th Percentile"].
Definition MeanSingle : list string := ["Mean"; "Single observation"].

(** What the class-dependent branch of [_load_icos_subset] leaves behind for
    the per-image loop: the pivot, the candidate dates [D_hdates] (GROUP_ID
    and date), the flags [D_avg], [D_default] and [D] where it is already
    assigned.  For a class no branch covers nothing is bound. *)
Record height_src : Type := {
  flx_anc_w : list (Z * heightc_row);
  D_hdates : option (list (Z * Z));
  D_avg : bool;
  D_default : bool;
  D_init : option Q
}.

Definition hdates_of (sel : list (Z * heightc_row)) : list (Z * Z) :=
  map (fun r => (r.1, HEIGHTC_DATE r.2)) sel.

(** [_icos_height_aux(flx_anc, icos_site)]; the selection [D_gid0] is kept
    as the selected rows. *)
Definition _icos_height_aux (anc : ancillary)
  : result (list (Z * heightc_row) * list (Z * Z) * bool) :=
  w ← stat_column (GRP_HEIGHTC anc);
  let has75 := existsb (fun r => stat_is P75 r.2) w in
  let hasmean := existsb (fun r => stat_is MeanSingle r.2) w in
  let spp := anc_has_spp anc in
  '(D_gid0, avg) ←
    (if has75 && negb spp then
       Ok (filter (fun r => stat_is P75 r.2) w, false)
     else if has75 && spp then
       w' ← spp_column w;
       if existsb (fun r => spp_isnull r.2) w' then
         Ok (filter (fun r => stat_is P75 r.2 && spp_isnull r.2) w, false)
       else Raise (UnboundLocalError "D_gid0")
     else if hasmean && negb spp then
       Ok (filter (fun r => stat_is MeanSingle r.2) w, false)
     else if hasmean && spp then
       w' ← spp_column w;
       if existsb (fun r => spp_isnull r.2) w' then
         Ok (filter (fun r => stat_is MeanSingle r.2 && spp_isnull r.2) w, false)
       else
         Ok (filter (fun r => stat_is ["Mean"] r.2 && negb (spp_isnull r.2)) w, true)
     else Ok ([], false));
  match D_gid0 with
  | [] => Raise (KeyError "No usable mean or P75 values for D found in ICOS data.")
  | _ => Ok (w, hdates_of D_gid0, avg)
  end.

Definition Qsum (l : list Q) : Q := foldr Qplus 0%Q l.

(** [Series.mean()]. *)
Definition Qmean (l : list Q) : Q := (Qsum l / inject_Z (Z.of_nat (length l)))%Q.

Definition forest_classes : list string := ["DBF"; "ENF"; "EBF"; "MF"].
Definition low_classes : list string := ["CRO"; "GRA"; "OSH"; "CSH"; "SAV"; "WSA"].

Definition aux_src (anc : ancillary) : result height_src :=
  '(w, hd, avg) ← _icos_height_aux anc;
  Ok {| flx_anc_w := w; D_hdates := Some hd; D_avg := avg;
        D_default := false; D_init := None |}.

(** Lines 1512-1548: the canopy-height source by ecosystem class, and the
    species average when [D_avg] is set. *)
Definition height_source (igbp_class : string) (anc : ancillary) : result height_src :=
  hs ←
    (if bool_decide (igbp_class ∈ forest_classes) then
       match GRP_TREE_HEIGHT anc with
       | _ :: _ =>
           w ← stat_column (GRP_TREE_HEIGHT anc);
           w' ← spp_column w;
           Ok {| flx_anc_w := w;
                 D_hdates := Some (hdates_of
                   (filter (fun r => stat_is P75 r.2 && spp_isnull r.2) w'));
                 D_avg := false; D_default := false; D_init := None |}
       | [] =>
           match GRP_HEIGHTC anc with
           | _ :: _ => aux_src anc
           | [] => Raise (KeyError "Ancillary file holds no data about vegetation height.")
           end
       end
     else if bool_decide (igbp_class ∈ low_classes) then aux_src anc
     else if String.eqb igbp_class "WET" then
       Ok {| flx_anc_w := []; D_hdates := None; D_avg := false;
             D_default := true; D_init := Some 0.1%Q |}
     else
       Ok {| flx_anc_w := []; D_hdates := None; D_avg := false;
             D_default := false; D_init := None |});
  if D_avg hs then
    Ok {| flx_anc_w := flx_anc_w hs; D_hdates := D_hdates hs; D_avg := true;
          D_default := D_default hs;
          D_init := Some (Qmean (map (fun r => HEIGHTC r.2)
            (filter (fun r => bool_decide (r.1 ∈ (default [] (D_hdates hs)).*1))
               (flx_anc_w hs)))) |}
  else Ok hs.

(** [x.item()] of a selection. *)
Definition item {A : Type} (l : list A) : result A :=
  match l with
  | [x] => Ok x
  | _ => Raise (ValueError "can only convert an array of size 1 to a Python scalar")
  end.

(** Lines 1557-1563: the eddy-covariance sensor family present in the file. *)
Definition senstr (ins : list (Z * inst_row)) : result string :=
  if existsb (fun r => str_contains "LI-COR" (INSTOM_MODEL r.2)) ins then Ok "LI-COR"
  else if existsb (fun r => str_contains "Campbell EC" (INSTOM_MODEL r.2)) ins
  then Ok "Campbell EC"
  else Raise (KeyError "Unknown EC sensor model. Please check your ICOS instrument metadata.").

(** [sort_index()] on (date, GROUP_ID) entries, by insertion; entries of one
    day keep their order. *)
Fixpoint insert_by_date (x : Z * Z) (l : list (Z * Z)) : list (Z * Z) :=
  match l with
  | [] => [x]
  | y :: l' => if (x.1 <=? y.1)%Z then x :: y :: l' else y :: insert_by_date x l'
  end.

Definition sort_index (l : list (Z * Z)) : list (Z * Z) :=
  foldr insert_by_date [] l.

Definition is_installation (s : string) (r : Z * inst_row) : bool :=
  str_contains s (INSTOM_MODEL r.2) && String.eqb (INSTOM_TYPE r.2) "Installation".

(** Lines 1564-1568: installation dates of the sensor, sorted, each with the
    GROUP_ID of its record. *)
Definition Z_hdates (ins : list (Z * inst_row)) : result (list (Z * Z)) :=
  s ← senstr ins;
  Ok (sort_index (map (fun r => (INSTOM_DATE r.2, r.1)) (filter (is_installation s) ins))).

(** Lines 1581-1584: [Z_hdates.truncate(after=idate)[-1]], and on
    [IndexError] the first entry. *)
Definition sensor_gid (Zh : list (Z * Z)) (idate : Z) : result Z :=
  match last (filter (fun e => (e.1 <=? idate)%Z) Zh) with
  | Some e => Ok e.2
  | None =>
      match Zh with
      | e :: _ => Ok e.2
      | [] => Raise IndexError
      end
  end.

(** Line 1585. *)
Definition sensor_height (ins : list (Z * inst_row)) (Zh : list (Z * Z)) (idate : Z)
  : result Q :=
  Z_gid ← sensor_gid Zh idate;
  r ← item (filter (fun r => (r.1 =? Z_gid)%Z) ins);
  Ok (INSTOM_HEIGHT r.2).

(** Lines 1576-1580: [D] for one image date. *)
Definition canopy_height (hs : height_src) (idate : Z) : result Q :=
  if D_avg hs || D_default hs then of_option (UnboundLocalError "D") (D_init hs)
  else
    hd ← of_option (UnboundLocalError "D_hdates") (D_hdates hs);
    n ← nearest hd.*2 idate;
    e ← of_option IndexError (last (filter (fun e => (e.2 =? n)%Z) hd));
    r ← item (filter (fun r => (r.1 =? e.1)%Z) (flx_anc_w hs));
    Ok (HEIGHTC r.2).

Definition dz_msg : string :=
  "Canopy height D > sensor height Z. Please check your ICOS ancillary metadata.".

(** Lines 1576-1588 for one image that has flux data: the entry of [ZM]. *)
Definition height_above_displacement (hs : height_src) (ins : list (Z * inst_row))
  (Zh : list (Z * Z)) (idate : Z) : result Q :=
  D ← canopy_height hs idate;
  Zs ← sensor_height ins Zh idate;
  if Qltb Zs D then Raise (ValueError dz_msg) else Ok (Zs - D)%Q.

Definition date_of (timestamp : Z) : Z := (timestamp / 1440)%Z.

(** The loop of lines 1572-1588 over [enumerate(datelist)]. *)
Fixpoint zm_loop (hs : height_src) (ins : list (Z * inst_row)) (Zh : list (Z * Z))
  (missd : list Z) (dates : list (nat * Z)) (ZM : list Q) : result (list Q) :=
  match dates with
  | [] => Ok ZM
  | (i, idate) :: rest =>
      if bool_decide (idate ∈ map date_of missd) then zm_loop hs ins Zh missd rest ZM
      else
        zm ← height_above_displacement hs ins Zh idate;
        zm_loop hs ins Zh missd rest (<[i := zm]> ZM)
  end.

Definition enumerate {A : Type} (l : list A) : list (nat * A) :=
  zip (seq 0 (length l)) l.

(** [_load_icos_subset], the part that produces [ZM].  The flux table, the
    variable list and [missd] come from the CSV import of lines 1417-1495
    and are inputs here. *)
Definition _load_icos_subset (igbp_class : string) (anc : ancillary)
  (ins : list (Z * inst_row)) (datelist : list Z) (missd : list Z) (zonal : bool)
  : result (list Q) :=
  let ZM := replicate (length datelist) sentinel in
  if zonal then Ok ZM
  else
    hs ← height_source igbp_class anc;
    Zh ← Z_hdates ins;
    zm_loop hs ins Zh missd (enumerate datelist) ZM.

(** ** Footprint geometry builder: [_model_geoms] *)

(** A row of the image inventory [img_db]; [startdate] in minutes. *)
Record img_row : Type := {
  name : string;
  startdate : Z;
  dataTakeID : string;
  clouds : string;
  era_pblh : Q
}.

(** The station: ecosystem class and position in EPSG:3035. *)
Record site_row : Type := {
  site_name : string;
  ecosystem : string;
  loc_x : Q;
  loc_y : Q
}.

Inductive geometry : Type :=
| Buffer (x y : Q) (radius : Z)
| Polygon (pts : list (Q * Q)).

(** Arguments of the external footprint model [ffp.FFP]. *)
Record ffp_args : Type := {
  zm : Q; umean : Q; h : Q; ol : Q; sigmav : Q; ustar : Q; wind_dir : Q
}.

(** A row of the frame [_model_geoms] returns: image columns, geometry and
    the flux columns in the order of [fluxvars]. *)
Record geom_row : Type := {
  g_name : string;
  g_startdate : Z;
  g_dataTakeID : string;
  g_clouds : string;
  g_geometry : option geometry;
  g_flux : list (string * Q)
}.

Definition required : list string :=
  ["WS"; "PBLH"; "MO_LENGTH"; "V_SIGMA"; "USTAR"; "WD"].

(** [series[k]]. *)
Definition get (s : gmap string Q) (k : string) : result Q :=
  of_option (KeyError k) (s !! k).

(** [series.loc[vars]] as (label, value) columns. *)
Definition loc_list (s : gmap string Q) (vars : list string) : result (list (string * Q)) :=
  mapM (fun v => x ← get s v; Ok (v, x)) vars.

(** [icos_subset.loc[TIMESTAMP_END.dt.date == date, :].squeeze(axis=0)]: a
    Series when exactly one row matches.  With none or several pandas hands
    a frame on, and the statements that follow fail on it. *)
Definition matched_record (icos_subset : list (Z * gmap string Q)) (date : Z)
  : result (gmap string Q) :=
  r ← item (filter (fun r => (date_of r.1 =? date)%Z) icos_subset);
  Ok r.2.

(** Lines 1645-1660. *)
Definition zonal_radius (eco : string) : result Z :=
  if bool_decide (eco ∈ ["MF"; "DBF"; "EBF"; "ENF"]) then Ok 80%Z
  else if bool_decide (eco ∈ ["SAV"; "WSA"]) then Ok 60%Z
  else if bool_decide (eco ∈ ["GRA"; "OSH"; "CSH"]) then Ok 50%Z
  else if String.eqb eco "WET" then Ok 40%Z
  else if String.eqb eco "CRO" then Ok 30%Z
  else Raise (ValueError ("Ecosystem " +:+ eco +:+ " not supported Please update codebase.")).

(** [self.img_db.loc[self.img_db.dataTakeID == dt, 'clouds'] = flag]. *)
Definition set_clouds (dt flag : string) (db : list img_row) : list img_row :=
  map (fun r =>
         if String.eqb (dataTakeID r) dt
         then {| name := name r; startdate := startdate r; dataTakeID := dataTakeID r;
                 clouds := flag; era_pblh := era_pblh r |}
         else r) db.

(** [round(x, 2)]: to the nearest hundredth, ties to even. *)
Definition round_half_even (q : Q) : Z :=
  let f := Qfloor q in
  let d := (q - inject_Z f)%Q in
  if Qltb d (1 # 2) then f
  else if Qltb (1 # 2) d then (f + 1)%Z
  else if Z.even f then f else (f + 1)%Z.

Definition round2 (q : Q) : Q := (inject_Z (round_half_even (q * 100)) / 100)%Q.

(** [pd.Series(data=[0]*len(fluxvars), index=fluxvars)]. *)
Definition zero_series (fluxvars : list string) : gmap string Q :=
  list_to_map (zip fluxvars (replicate (length fluxvars) 0%Q)).

Definition icos_na : string := "icos_na".
Definition hsi_na : string := "hsi_na".

Section ModelGeoms.
Context (FFP : ffp_args -> result (list Q * list Q)).
Context (site : site_row) (era zonal : bool).
Context (icos_subset : list (Z * gmap string Q)) (ZM : list Q).
Context (fluxvars : list string) (missd : list Z).

(** Lines 1686-1696: the 80 % contour of the footprint model, moved to the
    station. *)
Definition footprint (i : nat) (p : gmap string Q) : result geometry :=
  z ← of_option IndexError (ZM !! i);
  ws ← get p "WS"; pblh ← get p "PBLH"; mo ← get p "MO_LENGTH";
  vs ← get p "V_SIGMA"; us ← get p "USTAR"; wd ← get p "WD";
  '(xr, yr) ← FFP {| zm := z; umean := ws; h := pblh; ol := mo;
                     sigmav := vs; ustar := us; wind_dir := wd |};
  Ok (Polygon (zip (map (fun xoff => round2 (xoff + loc_x site)) xr)
                   (map (fun yoff => round2 (yoff + loc_y site)) yr))).

(** The body of the loop of lines 1666-1696 for image [i] (inventory row
    [ix], day [date]).  [g0] is the zonal buffer that fills [geoms] in zonal
    mode; otherwise [geoms] starts as placeholders that every iteration
    overwrites.  Yields the inventory, [geoms[i]] and [ffp_params[i]]. *)
Definition model_geom (db : list img_row) (g0 : option geometry) (i ix : nat) (date : Z)
  : result (list img_row * option geometry * gmap string Q) :=
  p ← matched_record icos_subset date;
  if zonal then Ok (db, g0, p)
  else
    p ← (if era then
            r ← of_option (KeyError "era_pblh") (db !! ix);
            Ok (<["PBLH" := era_pblh r]> p)
          else Ok p);
    vals ← mapM (get p) required;
    if existsb is_sentinel vals || bool_decide (date ∈ map date_of missd) then
      r ← of_option (KeyError "dataTakeID") (db !! ix);
      Ok (set_clouds (dataTakeID r) icos_na db, None, zero_series fluxvars)
    else
      g ← footprint i p;
      Ok (db, Some g, p).

Fixpoint model_loop (db : list img_row) (g0 : option geometry)
  (dates : list (nat * (nat * Z)))
  : result (list img_row * list (option geometry * gmap string Q)) :=
  match dates with
  | [] => Ok (db, [])
  | (i, (ix, date)) :: rest =>
      '(db1, g, p) ← model_geom db g0 i ix date;
      '(db2, out) ← model_loop db1 g0 rest;
      Ok (db2, (g, p) :: out)
  end.

(** Lines 1698-1711: one output row from the inventory as it is after the
    loop. *)
Definition geom_gdf_row (db : list img_row) (d : nat * Z) (gp : option geometry * gmap string Q)
  : result geom_row :=
  r ← of_option (KeyError "datelist.index") (db !! d.1);
  fl ← loc_list gp.2 fluxvars;
  Ok {| g_name := name r; g_startdate := startdate r; g_dataTakeID := dataTakeID r;
        g_clouds := clouds r; g_geometry := gp.1; g_flux := fl |}.

(** [_model_geoms]: returns the inventory it mutated and the frame
    [flx_geom_gdf].  [datelist] pairs the inventory row of each image with
    its day.  The closing quality notice only logs, but reads the two QC
    columns. *)
Definition _model_geoms (db : list img_row) (datelist : list (nat * Z))
  : result (list img_row * list geom_row) :=
  g0 ← (if zonal then
          zr ← zonal_radius (ecosystem site);
          Ok (Some (Buffer (loc_x site) (loc_y site) zr))
        else Ok None);
  '(db', out) ← model_loop db g0 (enumerate datelist);
  rows ← mapM (fun dg => geom_gdf_row db' dg.1 dg.2) (zip datelist out);
  match rows, fluxvars with
  | [], _ => Raise (ValueError "No objects to concatenate")
  | _, [] => Raise IndexError
  | _, _ =>
      if bool_decide ("NEE_VUT_50_QC" ∈ fluxvars) && bool_decide ("SW_IN_F_QC" ∈ fluxvars)
      then Ok (db', rows)
      else Raise (KeyError "NEE_VUT_50_QC")
  end.
End ModelGeoms.

(** ** Spectral cropper and aggregator: [_crop_hsi_2_geoms] *)

(** A cropped image file: the band descriptions read as wavelengths, the
    cube band by band (the pixels of a band in one list) and the no-data
    value. *)
Record img_file : Type := {
  wavelengths : list Q;
  cube : list (list Q);
  nodata : Q
}.

(** An entry of [geom_px_avgs]: the scalar [-9999] of a skipped image or the
    per-band means, NaN being [None]. *)
Inductive px_avg : Type :=
| Scalar (v : Q)
| Means (m : list (option Q)).

(** [cube_list]: one entry per image ([None] for the scalar [-9999]), or the
    cube itself when the only image of the site was cropped. *)
Inductive cube_list : Type :=
| Cubes (l : list (option (list (list (option Q)))))
| Single (c : list (list (option Q))).

Record hsi_row : Type := {
  h_row : geom_row;
  h_bands : list (string * option Q)
}.

Definition nm_min : Q := 400.

Definition nm_max_of (sr : string) : result Q :=
  if String.eqb sr "vis" then Ok 700%Q
  else if String.eqb sr "vnir" then Ok 1000%Q
  else if String.eqb sr "vswir" then Ok 2500%Q
  else Raise (UnboundLocalError "nm_max").

(** Lines 1809-1811: [wl_min], [wl_max] and [nbands]. *)
Definition band_window (wls : list Q) (sr : string) : result (nat * nat * nat) :=
  wl_min ← _fnv wls nm_min;
  nm_max ← nm_max_of sr;
  i_max ← _fnv wls nm_max;
  let wl_max := (i_max + 1)%nat in
  Ok (wl_min, wl_max, length (py_slice wls wl_min wl_max)).

(** The indices of the bands kept by [[wl_min:wl_max]]. *)
Definition retained (wls : list Q) (wl_min wl_max : nat) : list nat :=
  py_slice (seq 0 (length wls)) wl_min wl_max.

(** [str(x)] and [s.zfill(3)]. *)
Definition str (x : nat) : string := pretty x.

Definition zfill3 (s : string) : string :=
  String.concat "" (replicate (3 - String.length s) "0") +:+ s.

(** Line 1904: [sr_band_ix]. *)
Definition sr_band_ix (nbands : nat) : list string :=
  map (fun x => "b" +:+ zfill3 (str x)) (seq 1 nbands).

(** Lines 1796-1801. *)
Definition open_image (sensor dt : string) (path : list img_file) : result img_file :=
  match path with
  | [] => Raise (ValueError ("The cropped " +:+ sensor +:+ " image with dataTakeID "
                             +:+ dt +:+ " could not be found."))
  | [f] => Ok f
  | _ => Raise (ValueError ("dataTakeID " +:+ dt +:+ " not unique. Please investigate."))
  end.

(** Lines 1842 and 1847: no-data and negative values become NaN. *)
Definition to_nan (na_val v : Q) : option Q :=
  if Qeq_bool v na_val || Qltb v 0 then None else Some v.

(** [np.nanmean] of one band. *)
Definition nanmean (px : list (option Q)) : option Q :=
  match omap id px with
  | [] => None
  | vs => Some (Qmean vs)
  end.

Definition isnan (v : option Q) : bool :=
  match v with
  | Some _ => false
  | None => true
  end.

(** [pd.Series(vals, index=sr_band_ix)]: a scalar is repeated over the
    index, an array must have the length of the index. *)
Definition band_series (names : list string) (vals : px_avg)
  : result (list (string * option Q)) :=
  match vals with
  | Scalar v => Ok (map (fun n => (n, Some v)) names)
  | Means m =>
      if (length m =? length names)%nat then Ok (zip names m)
      else Raise (ValueError "Length of values does not match length of index")
  end.

Definition with_clouds (flag : string) (r : geom_row) : geom_row :=
  {| g_name := g_name r; g_startdate := g_startdate r; g_dataTakeID := g_dataTakeID r;
     g_clouds := flag; g_geometry := g_geometry r; g_flux := g_flux r |}.

Section Crop.
Context (local_mask : img_file -> geometry -> result (list (list Q))).
Context (sensor : string) (img_dir : string -> list img_file).
Context (upw : bool).

(** The body of the loop of lines 1818-1873 for one row with its image:
    the inventory, the row (its [clouds] may turn to [hsi_na]), the entry of
    [geom_px_avgs] and the cropped cube, if any. *)
Definition crop_one (na_val : Q) (wl_min wl_max : nat) (db : list img_row)
  (row : geom_row) (f : img_file)
  : result (list img_row * geom_row * px_avg * option (list (list (option Q)))) :=
  skip ← (if String.eqb (g_clouds row) icos_na then Ok true
          else
            par ← of_option (KeyError "PAR")
                    ((list_to_map (g_flux row) : gmap string Q) !! "PAR");
            Ok (upw && is_sentinel par));
  if (skip : bool) then Ok (db, row, Scalar sentinel, None)
  else
    lam_poly ← of_option TypeError (g_geometry row);
    geom_cube ← local_mask f lam_poly;
    let geom_cube := map (map (to_nan na_val)) geom_cube in
    let geom_cube := py_slice geom_cube wl_min wl_max in
    geom_cube ←
      (if upw then
         par ← of_option (KeyError "PAR")
                 ((list_to_map (g_flux row) : gmap string Q) !! "PAR");
         Ok (map (map (fmap (fun v => v * par)%Q)) geom_cube)
       else Ok geom_cube);
    let avgs := map nanmean geom_cube in
    if forallb isnan avgs then
      Ok (set_clouds (g_dataTakeID row) hsi_na db, with_clouds hsi_na row,
          Means avgs, Some geom_cube)
    else Ok (db, row, Means avgs, Some geom_cube).

Fixpoint crop_loop (na_val : Q) (wl_min wl_max : nat) (db : list img_row)
  (work : list (geom_row * img_file))
  : result (list img_row *
            list (geom_row * px_avg * option (list (list (option Q))))) :=
  match work with
  | [] => Ok (db, [])
  | (row, f) :: rest =>
      '(db1, row', avg, c) ← crop_one na_val wl_min wl_max db row f;
      '(db2, out) ← crop_loop na_val wl_min wl_max db1 rest;
      Ok (db2, (row', avg, c) :: out)
  end.

(** [cube_list] as the loop leaves it: with a single image the list is
    replaced by that image's cube, unless the image was skipped. *)
Definition cube_list_of (cs : list (option (list (list (option Q))))) : cube_list :=
  match cs with
  | [Some c] => Single c
  | _ => Cubes cs
  end.

(** [_crop_hsi_2_geoms] without plotting ([save_plot] false): the inventory,
    the frame [flx_hsi_gdf] and [cube_list]. *)
Definition _crop_hsi_2_geoms (db : list img_row) (flx_geom_gdf : list geom_row)
  (sr : string) : result (list img_row * list hsi_row * cube_list) :=
  files ← mapM (fun r => open_image sensor (g_dataTakeID r) (img_dir (g_dataTakeID r)))
               flx_geom_gdf;
  f0 ← of_option IndexError (head files);
  '(wl_min, wl_max, nbands) ← band_window (wavelengths f0) sr;
  na_val ← of_option IndexError (nodata <$> last files);
  '(db', out) ← crop_loop na_val wl_min wl_max db (zip flx_geom_gdf files);
  rows ← mapM (fun o => b ← band_series (sr_band_ix nbands) o.1.2;
                        Ok {| h_row := o.1.1; h_bands := b |}) out;
  Ok (db', rows, cube_list_of (map snd out)).
End Crop.

(** ** The band-length gate of [crs_and_cropping] *)

(** One acquisition as [crs_and_cropping] finds it: whether its 6 km crop is
    already on disk, and the wavelength lists the sensor decoder returns for
    the raw files that match its data-take. *)
Record scene : Type := {
  sc_dataTakeID : string;
  crop_exists : bool;
  sources : list (list Q)
}.

(** Lines 621-641 for one image: the entry it appends to [blength], if any. *)
Definition scene_blength (site : string) (overwrite : bool) (sc : scene)
  : result (option nat) :=
  if crop_exists sc && negb overwrite then Ok None
  else
    match sources sc with
    | [] => Ok None
    | [wls] => Ok (Some (length wls))
    | _ => Raise (ValueError (site +:+ ": DT:" +:+ sc_dataTakeID sc +:+
                              " not unique. Please investigate."))
    end.

(** The message of the gate, up to the list of band lengths it ends with. *)
Definition wl_msg (site : string) : string :=
  site +:+ ": Wavelengths are not identical for all images. ".

(** Lines 605-644 for one site: [blength] when the site passes; the CRS
    bookkeeping and the writing of the crops are left out. *)
Definition crs_and_cropping_site (overwrite : bool) (s : string * list scene)
  : result (list nat) :=
  if forallb crop_exists s.2 && negb overwrite then Ok []
  else
    l ← mapM (scene_blength s.1 overwrite) s.2;
    let blength := omap id l in
    if (1 <? length (remove_dups blength))%nat then Raise (ValueError (wl_msg s.1))
    else Ok blength.

Definition crs_and_cropping (overwrite : bool) (icos_list : list (string * list scene))
  : result (list (list nat)) :=
  mapM (crs_and_cropping_site overwrite) icos_list.

(** ** Orchestrator: [hsi_geom_crop] and [load_cropped_db] *)

(** [self.ptype]. *)
Record ptype : Type := {
  rad : string;
  mask : string;
  p_sr : string;
  aggr : string
}.

(** Lines 1947-1951 and 2078-2082. *)
Definition reset_sr (upw : bool) (sr : string) : string :=
  if upw && negb (String.eqb sr "vis") then "vis" else sr.

Definition mk_ptype (sr : string) (zonal upw : bool) (aggr : string) : ptype :=
  {| rad := if upw then "upw" else "ref";
     mask := if zonal then "zst" else "ffp";
     p_sr := sr; aggr := aggr |}.

(** The file naming convention of lines 2046-2048 and 2089. *)
Definition fname (sensor : string) (p : ptype) : string :=
  "all_sites_" +:+ sensor +:+ "_" +:+ p_sr p +:+ "_" +:+ mask p +:+ "_"
  +:+ rad p +:+ "_" +:+ aggr p +:+ ".gpkg".

(** What [hsi_geom_crop] needs of one site: the station, whether its
    boundary-layer height comes from ERA5, whether [_ppfd_check] found no
    radiation data, and the imported level-2 tables. *)
Record site_input : Type := {
  si_site : site_row;
  si_era : bool;
  si_no_rad : bool;
  si_icos_subset : list (Z * gmap string Q);
  si_fluxvars : list string;
  si_missd : list Z;
  si_anc : ancillary;
  si_ins : list (Z * inst_row)
}.

Record crop_out : Type := {
  o_db : list img_row;
  o_ptype : ptype;
  o_gdf : list hsi_row;
  o_imgs : list cube_list;
  o_saved : option string
}.

(** [img_db.loc[name == site (& date == date), 'startdate'].dt.date] with the
    row positions as index. *)
Definition datelist_of (db : list img_row) (site : string) (date : option Z)
  : list (nat * Z) :=
  omap (fun ir : nat * img_row =>
          if String.eqb (name ir.2) site &&
             match date with
             | Some d => (date_of (startdate ir.2) =? d)%Z
             | None => true
             end
          then Some (ir.1, date_of (startdate ir.2)) else None)
       (enumerate db).

Definition flagged (r : hsi_row) : bool :=
  bool_decide (g_clouds (h_row r) ∈ [icos_na; hsi_na]).

Section Orchestrator.
Context (FFP : ffp_args -> result (list Q * list Q)).
Context (local_mask : img_file -> geometry -> result (list (list Q))).
Context (sensor : string) (img_dir : string -> list img_file).
Context (raw_matches : string -> nat).

(** Steps (1)-(3) of the loop body of [hsi_geom_crop] for one site. *)
Definition crop_site (db : list img_row) (s : site_input) (date : option Z)
  (sr : string) (zonal upw : bool) : result (list img_row * list hsi_row * cube_list) :=
  let datelist := datelist_of db (site_name (si_site s)) date in
  dtakes ← mapM (fun d => r ← of_option (KeyError "datelist.index") (db !! d.1);
                          Ok (dataTakeID r)) datelist;
  if existsb (fun dt => (1 <? raw_matches dt)%nat) dtakes
  then Raise (ValueError "More than 1 matching img for dataTakeID")
  else
    ZM ← _load_icos_subset (ecosystem (si_site s)) (si_anc s) (si_ins s)
           datelist.*2 (si_missd s) zonal;
    '(db1, flx_geom_gdf) ← _model_geoms FFP (si_site s) (si_era s) zonal
           (si_icos_subset s) ZM (si_fluxvars s) (si_missd s) db datelist;
    _crop_hsi_2_geoms local_mask sensor img_dir upw db1 flx_geom_gdf sr.

Fixpoint crop_sites (db : list img_row) (l : list site_input) (date : option Z)
  (sr : string) (zonal upw : bool)
  : result (list img_row * list (list hsi_row * cube_list)) :=
  match l with
  | [] => Ok (db, [])
  | s :: rest =>
      '(db1, g, c) ← crop_site db s date sr zonal upw;
      '(db2, out) ← crop_sites db1 rest date sr zonal upw;
      Ok (db2, (g, c) :: out)
  end.

(** [hsi_geom_crop]: with one site the filtered frame is returned from inside
    the loop and nothing is saved; with several the frames are concatenated,
    filtered and, on [save], written under [fname]. *)
Definition hsi_geom_crop (db : list img_row) (icos_list : list site_input)
  (date : option Z) (sr : string) (zonal upw : bool) (aggr : string) (save : bool)
  : result crop_out :=
  let sr := reset_sr upw sr in
  let p := mk_ptype sr zonal upw aggr in
  let icos_list := filter (fun s => negb (si_no_rad s)) icos_list in
  match icos_list with
  | [] => Raise (UnboundLocalError "flx_imgs_l")
  | [s] =>
      '(db1, g, c) ← crop_site db s date sr zonal upw;
      Ok {| o_db := db1; o_ptype := p;
            o_gdf := filter (fun r => negb (flagged r)) g;
            o_imgs := [c]; o_saved := None |}
  | _ =>
      '(db1, out) ← crop_sites db icos_list date sr zonal upw;
      Ok {| o_db := db1; o_ptype := p;
            o_gdf := filter (fun r => negb (flagged r)) (concat out.*1);
            o_imgs := out.*2;
            o_saved := if save then Some (fname sensor p) else None |}
  end.
End Orchestrator.

(** [load_cropped_db]: [out_dir] maps a file name to the stored frame. *)
Definition load_cropped_db (sensor : string) (out_dir : gmap string (list hsi_row))
  (sr : string) (zonal upw : bool) (aggr : string) : result (ptype * list hsi_row) :=
  let sr := reset_sr upw sr in
  let p := mk_ptype sr zonal upw aggr in
  gdf ← of_option (FileNotFound (fname sensor p)) (out_dir !! fname sensor p);
  Ok (p, gdf).

(** ** The station table: [_build_icos_meta] *)

(** A row of the station table; of its columns the module reads the name,
    the ecosystem class and the position (degrees north and east). *)
Record station : Type := mk_station {
  st_name : string;
  st_ecosystem : string;
  st_lat : Q;
  st_lon : Q
}.

(** The rows in the order of the source. *)
Definition icos_meta_rows : list station :=
  [
   mk_station "NL-Loo" "ENF" 52.16658 5.74356;
   mk_station "IT-Tor" "GRA" 45.84444 7.57806;
   mk_station "IT-SR2" "ENF" 43.73202 10.29091;
   mk_station "IT-Lsn" "OSH" 45.740482 12.7503;
   mk_station "IT-Cp2" "EBF" 41.7043 12.3573;
   mk_station "IT-BCi" "CRO" 40.5237 14.9574;
   mk_station "FR-Hes" "DBF" 48.6741 7.06465;
   mk_station "FR-Fon" "DBF" 48.4764 2.7801;
   mk_station "FR-EM2" "CRO" 49.8721 3.02065;
   mk_station "FR-Bil" "ENF" 44.4937 (-0.95609);
   mk_station "ES-LM2" "SAV" 39.9346 (-5.77588);
   mk_station "ES-LM1" "SAV" 39.9427 (-5.77868);
   mk_station "ES-Abr" "SAV" 38.7018 (-6.78588);
   mk_station "DE-Tha" "ENF" 50.9626 13.5651;
   mk_station "DE-RuW" "ENF" 50.50493 6.33096;
   mk_station "DE-RuS" "CRO" 50.86591 6.44715;
   mk_station "DE-RuR" "GRA" 50.6219 6.3041;
   mk_station "DE-Obe" "ENF" 50.7867 13.7213;
   mk_station "DE-Kli" "CRO" 50.89306 13.52238;
   mk_station "DE-Hzd" "DBF" 50.96381 13.48978;
   mk_station "DE-Hte" "WET" 54.2103 12.1761;
   mk_station "DE-GsB" "GRA" 52.02965 11.1048;
   mk_station "DE-Hai" "DBF" 51.07941 10.4521;
   mk_station "DE-Hod" "CRO" 52.00130 11.1777;
   mk_station "DE-HoH" "DBF" 52.08656 11.22235;
   mk_station "DE-Gri" "GRA" 50.95004 13.5126;
   mk_station "DE-Geb" "CRO" 51.0997 10.9146;
   mk_station "DE-Akm" "WET" 53.8662 13.6834;
   mk_station "CZ-wet" "WET" 49.0247 14.7704;
   mk_station "CZ-Stn" "DBF" 49.03598 17.9699;
   mk_station "CZ-RAJ" "ENF" 49.44372 16.69651;
   mk_station "CZ-Lnz" "MF" 48.68155 16.94633;
   mk_station "CZ-BK1" "ENF" 49.5021 18.5369;
   mk_station "CH-Oe2" "CRO" 47.2864 7.7337;
   mk_station "CH-Lae" "MF" 47.4783 8.3644;
   mk_station "CH-Fru" "GRA" 47.1158 8.5378;
   mk_station "CH-Dav" "ENF" 46.8153 9.85591;
   mk_station "CH-Cha" "GRA" 47.2102 8.4104;
   mk_station "CH-Aws" "GRA" 46.5832 9.79042;
   mk_station "BE-Vie" "MF" 50.3049 5.9981;
   mk_station "BE-Maa" "CSH" 50.9799 5.6319;
   mk_station "BE-Lon" "CRO" 50.5516 4.7462;
   mk_station "BE-Bra" "MF" 51.3076 4.5198;
   mk_station "FI-Sii" "WET" 61.8327 24.1929;
   mk_station "FI-Hyy" "ENF" 61.8474 24.2948;
   mk_station "SE-Deg" "WET" 64.1820 19.5565;
   mk_station "SE-Htm" "ENF" 56.0976 13.4190;
   mk_station "SE-Nor" "ENF" 60.0865 17.4795;
   mk_station "SE-Svb" "ENF" 64.2561 19.7745;
   mk_station "FR-LGt" "WET" 47.3229 2.2841;
   mk_station "FR-Mej" "GRA" 48.1184 (-1.79635);
   mk_station "DK-Vng" "CRO" 56.0375 9.1607;
   mk_station "FR-Tou" "GRA" 43.5729 1.3747;
   mk_station "DK-Skj" "WET" 55.9127 8.4048;
   mk_station "DK-Gds" "ENF" 56.0737 9.3341;
   mk_station "FR-Lam" "CRO" 43.4964 1.2379;
   mk_station "ES-Cnd" "WSA" 37.9150 (-3.2277);
   mk_station "FR-Aur" "CRO" 43.5497 1.1061;
   mk_station "FR-FBn" "MF" 43.2408 5.6787;
   mk_station "IE-Cra" "WET" 53.3231 (-7.6418);
   mk_station "IT-BFt" "DBF" 45.1978 10.7420;
   mk_station "IT-Lav" "ENF" 45.9562 11.2813;
   mk_station "IT-MBo" "GRA" 46.0147 11.0458;
   mk_station "IT-Ren" "ENF" 46.5869 11.4337;
   mk_station "RU-Fy2" "ENF" 56.4476 32.9019;
   mk_station "RU-Fyo" "ENF" 56.4615 32.9221;
   mk_station "SE-Ros" "ENF" 64.1725 19.7380;
   mk_station "BE-Dor" "GRA" 50.3119 4.9681;
   mk_station "BE-Lcr" "DBF" 51.1122 3.8504;
   mk_station "CZ-KrP" "CRO" 49.5733 15.0788;
   mk_station "DK-Sor" "DBF" 55.4859 11.6446;
   mk_station "ES-Agu" "OSH" 36.9400 (-2.0332);
   mk_station "ES-LJu" "OSH" 36.9266 (-2.7521);
   mk_station "FI-Let" "ENF" 60.6418 23.9595;
   mk_station "FI-Qvd" "CRO" 60.2952 22.3916;
   mk_station "FR-Gri" "CRO" 48.8442 1.9519;
   mk_station "SE-Lnn" "CRO" 58.3406 13.1018
  ]%Q.

(** [sort_values(by='name')], by insertion. *)
Fixpoint insert_by_name (x : station) (l : list station) : list station :=
  match l with
  | [] => [x]
  | y :: l' =>
      if String.leb (st_name x) (st_name y) then x :: y :: l' else y :: insert_by_name x l'
  end.

Definition _build_icos_meta : list station := foldr insert_by_name [] icos_meta_rows.

(** ** UTM zone of a station: [_crs_calc] *)

(** [_crs_calc]: the longitude of the station's row in [icos_db] decides. *)
Definition _crs_calc (icos_db : list station) (site : string) : result Z :=
  r ← item (filter (fun r => String.eqb (st_name r) site) icos_db);
  let lon := st_lon r in
  if Qle_bool (-12) lon && Qltb lon (-6) then Ok 32629%Z
  else if Qle_bool (-6) lon && Qltb lon 0 then Ok 32630%Z
  else if Qle_bool 0 lon && Qltb lon 6 then Ok 32631%Z
  else if Qle_bool 6 lon && Qltb lon 12 then Ok 32632%Z
  else if Qle_bool 12 lon && Qltb lon 18 then Ok 32633%Z
  else if Qle_bool 18 lon && Qltb lon 24 then Ok 32634%Z
  else if Qle_bool 24 lon && Qltb lon 30 then Ok 32635%Z
  else Raise (ValueError (site +:+ ": Coordinates outside of usual range for ICOS "
                          +:+ "sites in Europe.")).

(** ** Station files: [_ppfd_check] and [var_check] *)

(** The two exceptions of the checks that are not in [exn]. *)
Inductive file_error : Type :=
| RuntimeError (msg : string)
| FileNotFoundError (file : string).

(** What the checks see of a station's files in [icos_dir]: for each file
    that exists, the columns of the frame [pd.read_csv(..., nrows=0,
    usecols=...)] returns for it, in the order of the file; for the
    FLUXNET exports found by [glob('FLX_<site>_FLUXNET*.csv')], in the
    order the directory yields them. *)
Record station_files : Type := {
  fluxnet_interim : option (list string);
  fluxnet_l2 : option (list string);
  flx_fluxnet : list (list string);
  fluxes_interim : option (list string);
  fluxes_l2 : option (list string)
}.

(** Lines 1302-1317: the header of the half-hourly FLUXNET product. *)
Definition fluxnet_frame (site : string) (f : station_files) : file_error + list string :=
  match fluxnet_interim f with
  | Some c => inr c
  | None =>
      match fluxnet_l2 f with
      | Some c => inr c
      | None =>
          match flx_fluxnet f with
          | c :: _ => inr c
          | [] => inl (RuntimeError (site +:+ ": No FLUXNET csv found."))
          end
      end
  end.

(** [pd.Series(vars).isin(columns).all()]. *)
Definition isin_all (vars columns : list string) : bool :=
  forallb (fun v => bool_decide (v ∈ columns)) vars.

(** The loop of lines 1301-1322.  [.all()] yields a NumPy boolean, on which
    [~] is negation. *)
Fixpoint ppfd_loop (icos_dir : string -> station_files) (site_list : list string)
  (no_ppfd no_rad : list string) : file_error + (list string * list string) :=
  match site_list with
  | [] => inr (no_ppfd, no_rad)
  | site :: rest =>
      match fluxnet_frame site (icos_dir site) with
      | inl e => inl e
      | inr columns =>
          let tvar := ["PPFD_IN"; "SW_IN_F"] in
          if negb (isin_all (take 1 tvar) columns)
          then ppfd_loop icos_dir rest (no_ppfd ++ [site]) no_rad
          else if negb (isin_all tvar columns)
          then ppfd_loop icos_dir rest no_ppfd (no_rad ++ [site])
          else ppfd_loop icos_dir rest no_ppfd no_rad
      end
  end.

Definition _ppfd_check (icos_dir : string -> station_files) (site_list : list string)
  : file_error + (list string * list string) :=
  ppfd_loop icos_dir site_list [] [].

(** Lines 920-929: a station with FLUXNET files only is refused; for one
    without any file the exception is built but not raised. *)
Definition icos_site_check (site : string) (f : station_files) : file_error + unit :=
  match fluxes_interim f, fluxes_l2 f, flx_fluxnet f with
  | None, None, _ :: _ =>
      inl (RuntimeError ("Site " +:+ site +:+ " is NOT an ICOS site. This method "
                         +:+ "should not be used for data in FLUXNET or other formats."))
  | _, _, _ => inr tt
  end.

Fixpoint icos_sites_check (icos_dir : string -> station_files) (site_list : list string)
  : file_error + unit :=
  match site_list with
  | [] => inr tt
  | site :: rest =>
      match icos_site_check site (icos_dir site) with
      | inl e => inl e
      | inr _ => icos_sites_check icos_dir rest
      end
  end.

(** Lines 934-943: the header of the FLUXES product. *)
Definition fluxes_frame (site : string) (f : station_files) : file_error + list string :=
  match fluxes_interim f with
  | Some c => inr c
  | None =>
      match fluxes_l2 f with
      | Some c => inr c
      | None => inl (FileNotFoundError ("ICOSETC_" +:+ site +:+ "_FLUXES_L2.csv"))
      end
  end.

Definition ffp_cols : list string :=
  ["TIMESTAMP_START"; "TIMESTAMP_END"; "USTAR"; "V_SIGMA"; "MO_LENGTH"; "PBLH"; "WS"; "WD"].

(** Lines 944-956 for one frame. *)
Definition l2_var_count (columns : list string) : nat :=
  let tvar := drop 2 ffp_cols in
  if isin_all tvar (drop 2 columns) then 6
  else if isin_all (take 4 tvar) (drop 2 columns) then 4
  else if isin_all (take 3 tvar) (drop 2 columns) then 3
  else 0.

Fixpoint var_counts (icos_dir : string -> station_files) (site_list : list string)
  : file_error + list nat :=
  match site_list with
  | [] => inr []
  | site :: rest =>
      match fluxes_frame site (icos_dir site) with
      | inl e => inl e
      | inr columns =>
          match var_counts icos_dir rest with
          | inl e => inl e
          | inr l => inr (l2_var_count columns :: l)
          end
      end
  end.

(** [img_db.groupby('name').usable.sum()] at one name, [usable] being the
    columns [name] and [usable] of the inventory. *)
Definition usable_sum (usable : list (string * Z)) (site : string) : Z :=
  foldr Z.add 0%Z (map snd (filter (fun r => String.eqb r.1 site) usable)).

(** [x in no_usable[no_usable == 0].index.tolist()]. *)
Definition no_usable (usable : list (string * Z)) (site : string) : bool :=
  bool_decide (site ∈ usable.*1) && (usable_sum usable site =? 0)%Z.

(** [var_check]: the stations whose boundary-layer height has to come from
    ERA5. *)
Definition var_check (icos_dir : string -> station_files) (usable : list (string * Z))
  (site_list : list string) : file_error + list string :=
  match icos_sites_check icos_dir site_list with
  | inl e => inl e
  | inr _ =>
      match var_counts icos_dir site_list with
      | inl e => inl e
      | inr counts =>
          let result := zip site_list counts in
          let miss := map fst (filter (fun r => (r.2 =? 3)%nat) result) in
          inr (filter (fun x => negb (no_usable usable x)) miss)
      end
  end.

(** ** PRISMA import: the bands and wavelengths of [prisma_crop] *)

(** A data cube: its spatial shape and its bands, each with the pixels of
    the band. *)
Record raster : Type := {
  r_rows : nat;
  r_cols : nat;
  r_bands : list (list Q)
}.

(** The datasets and attributes [prisma_crop] reads from the HDF5 file, the
    cubes in the band order of the file. *)
Record prisma_h5 : Type := {
  List_Cw_Vnir : list Q;
  VNIR_Cube : raster;
  L2ScaleVnirMin : Q;
  L2ScaleVnirMax : Q;
  List_Cw_Swir : list Q;
  SWIR_Cube : raster;
  L2ScaleSwirMin : Q;
  L2ScaleSwirMax : Q
}.

(** [pd.Series(np.flip(cw)).drop(range(a, b))]: the labels and values that
    are left; a label that is not in the index is a [KeyError]. *)
Definition flip_drop (cw : list Q) (a b : nat) : result (list (nat * Q)) :=
  if forallb (fun i => (i <? length cw)%nat) (seq a (b - a))
  then Ok (filter (fun iv => negb (bool_decide (iv.1 ∈ seq a (b - a))))
             (enumerate (rev cw)))
  else Raise (KeyError "not found in axis").

(** Lines 398-399 and 402-403: the bands flipped and scaled to reflectance. *)
Definition reflectance (smin smax : Q) (cube : raster) : list (list Q) :=
  map (map (fun dn => (smin + dn * (smax - smin)) / 65535)%Q) (rev (r_bands cube)).

(** [refl[:, :, wls.index]]. *)
Definition take_bands (refl : list (list Q)) (index : list nat) : result (list (list Q)) :=
  mapM (fun i => of_option IndexError (refl !! i)) index.

(** Lines 370-410: [full_cube] and [wls] before the crop. *)
Definition prisma_cube (h5 : prisma_h5) (swir : bool) : result (raster * list Q) :=
  vnir_wls ← flip_drop (List_Cw_Vnir h5) 63 66;
  swir_wls ← (if swir then flip_drop (List_Cw_Swir h5) 0 6 else Ok []);
  let vnir_refl := reflectance (L2ScaleVnirMin h5) (L2ScaleVnirMax h5) (VNIR_Cube h5) in
  vnir ← take_bands vnir_refl vnir_wls.*1;
  if swir then
    let swir_refl := reflectance (L2ScaleSwirMin h5) (L2ScaleSwirMax h5) (SWIR_Cube h5) in
    sw ← take_bands swir_refl swir_wls.*1;
    if (r_rows (VNIR_Cube h5) =? r_rows (SWIR_Cube h5))%nat &&
       (r_cols (VNIR_Cube h5) =? r_cols (SWIR_Cube h5))%nat
    then Ok ({| r_rows := r_rows (VNIR_Cube h5); r_cols := r_cols (VNIR_Cube h5);
                r_bands := vnir ++ sw |}, vnir_wls.*2 ++ swir_wls.*2)
    else Raise (ValueError ("all the input array dimensions except for the "
                            +:+ "concatenation axis must match exactly"))
  else
    Ok ({| r_rows := r_rows (VNIR_Cube h5); r_cols := r_cols (VNIR_Cube h5);
           r_bands := vnir |}, vnir_wls.*2).

(** ** Covariates: the file of [hsi_add_spei_ppi] and [load_spei_ppi_db] *)

(** Lines 2457-2459: the name [hsi_add_spei_ppi] saves under, from the
    processing type the object holds. *)
Definition covars_fname (sensor : string) (p : ptype) : string :=
  "all_sites_" +:+ sensor +:+ "_" +:+ p_sr p +:+ "_" +:+ mask p +:+ "_"
  +:+ rad p +:+ "_" +:+ aggr p +:+ "_covars.gpkg".

(** [load_spei_ppi_db]. *)
Definition load_spei_ppi_db (sensor : string) (out_dir : gmap string (list hsi_row))
  (sr : string) (zonal upw : bool) (aggr : string) : result (ptype * list hsi_row) :=
  let sr := reset_sr upw sr in
  let p := mk_ptype sr zonal upw aggr in
  let fname := "all_sites_" +:+ sensor +:+ "_" +:+ sr +:+ "_"
               +:+ (if zonal then "zst" else "ffp") +:+ "_"
               +:+ (if upw then "upw" else "ref") +:+ "_" +:+ aggr +:+ "_covars.gpkg" in
  gdf ← of_option (FileNotFound fname) (out_dir !! fname);
  Ok (p, gdf).

(** ** Quality check: the status table of [hsi_qc] *)

(** The entries of [filestatus]: the initial 0 and the four labels. *)
Inductive qc_status : Type :=
| status_0
| missing
| good
| geom_error
| nodata_warn.

(** What [hsi_qc] finds for one image of a station: the number of files the
    glob yields, whether the quicklook exists, the outcome of the [try]
    block that reads and crops the image, and the mean no-data rate within
    1 km that is computed after it. *)
Record qc_files : Type := {
  nfiles : nat;
  qc_exists : bool;
  qc_try : result unit;
  qc_na : result Q
}.

(** Lines 767-773: an entry of [filemissing]. *)
Definition qc_count (sensor : string) (f : qc_files) : Z :=
  if String.eqb sensor "DESIS" || String.eqb sensor "PRISMA"
  then Z.of_nat (nfiles f) else (-99)%Z.

(** Lines 790-871 for one image, without the plot. *)
Definition qc_one (sensor : string) (overwrite save : bool) (f : qc_files)
  : result qc_status :=
  if negb (String.eqb sensor "DESIS" || String.eqb sensor "PRISMA")
  then Raise (UnboundLocalError "fnames")
  else if (nfiles f =? 0)%nat then Ok missing
  else if qc_exists f && negb overwrite then Ok good
  else if String.eqb sensor "DESIS" && (nfiles f <? 3)%nat then Raise IndexError
  else
    match qc_try f with
    | Raise (ValueError msg) =>
        if String.eqb msg "Input shapes do not overlap raster." then Ok geom_error
        else Raise (ValueError msg)
    | Raise e => Raise e
    | Ok _ =>
        na ← qc_na f;
        let na_ratio := round2 na in
        if negb save then Ok status_0
        else if Qle_bool 0.1 na_ratio then Ok nodata_warn
        else Ok good
    end.

Section QC.
Context (sensor : string) (flx_loc : option (list (string * Z))).
Context (site_geom : string -> Z -> result unit).
Context (files : string -> string -> qc_files).
Context (db : list img_row) (date : option Z) (overwrite save : bool).

(** The body of the loop over the stations; [site_geom] stands for the
    projection of the station and its two boxes (lines 782-788). *)
Definition qc_site (site : string) : result (list qc_status) :=
  let datelist := datelist_of db site date in
  dtakes ← mapM (fun d => r ← of_option (KeyError "datelist.index") (db !! d.1);
                          Ok (dataTakeID r)) datelist;
  if forallb (fun dt => negb (0 <? qc_count sensor (files site dt))%Z) dtakes
  then Ok (replicate (length datelist) missing)
  else
    fl ← of_option (AttributeError "flx_loc") flx_loc;
    epsg ← item (filter (fun r : string * Z => String.eqb r.1 site) fl);
    _ ← site_geom site epsg.2;
    mapM (fun dt => qc_one sensor overwrite save (files site dt)) dtakes.

(** [pd.concat([frame, series], axis=1)] of two columns indexed from 0. *)
Definition concat_axis1 {A B : Type} (l1 : list A) (l2 : list B)
  : list (option A * option B) :=
  map (fun k => (l1 !! k, l2 !! k)) (seq 0 (length l1 `max` length l2)).

(** [hsi_qc]: the frame of names, data-takes and statuses. *)
Definition hsi_qc (icos_list : list string)
  : result (list (option (string * string) * option qc_status)) :=
  filestatus_l ← mapM qc_site icos_list;
  let filestatus_all := concat filestatus_l in
  Ok (concat_axis1 (map (fun r => (name r, dataTakeID r)) db) filestatus_all).
End QC.

(** ** The range check of [icos_cds_get] *)

(** Lines 1004-1008: what [icos_cds_get] asks of a station's position
    before it sends a request. *)
Definition cds_range_check (icos_db : list station) (site : string) : result unit :=
  r ← item (filter (fun r => String.eqb (st_name r) site) icos_db);
  if negb (Qltb 30 (st_lat r) && Qltb (st_lat r) 70)
     || negb (Qltb (-15) (st_lon r) && Qltb (st_lon r) 45)
  then Raise (ValueError ("Coordinates for " +:+ site +:+ " are out of the usual range "
                          +:+ "for ICOS sites in Europe. Please investigate."))
  else Ok tt.

(** ** The sensor CRS of a station in [crs_and_cropping] *)

(** An image that the loop of lines 621-641 decodes: its crop is missing or
    is to be overwritten, and one raw file matches. *)
Definition is_decoded (overwrite : bool) (sc : scene) : bool :=
  negb (crop_exists sc && negb overwrite) && (length (sources sc) =? 1)%nat.

Section SiteCrs.
Context (icos_db : list station).
Context (crop_crs : scene -> option Z) (src_crs : scene -> Z) (idxmax : list Z -> Z).

(** Lines 608-613 and 649-654: the EPSG code of the first crop on disk, or
    the UTM zone of the station when there is no crop.  [crop_crs] is what
    [src.crs.to_epsg()] gives for the crop of an image. *)
Definition import_crs (site : string) (scenes : list scene) : result (option Z) :=
  match filter (fun sc => crop_exists sc) scenes with
  | sc :: _ => Ok (crop_crs sc)
  | [] => z ← _crs_calc icos_db site; Ok (Some z)
  end.

(** Lines 599-682 for one station: the entry of [crslist].  [src_crs] is the
    EPSG code the decoder reports for an image and [idxmax] stands for
    [pd.Series(img_crss).value_counts().idxmax()]. *)
Definition site_crs (overwrite : bool) (s : string * list scene) : result (option Z) :=
  _ ← item (filter (fun r => String.eqb (st_name r) s.1) icos_db);
  if forallb crop_exists s.2 && negb overwrite then import_crs s.1 s.2
  else
    _ ← crs_and_cropping_site overwrite s;
    let img_crss := filter (fun x => negb (x =? 0)%Z)
                      (map src_crs (filter (is_decoded overwrite) s.2)) in
    match img_crss with
    | [] => import_crs s.1 s.2
    | _ => Ok (Some (idxmax img_crss))
    end.
End SiteCrs.

(** ** ERA5 boundary-layer height: [_icos_era5_pblh] *)

(** The NetCDF file of a station: its time axis (minutes), whether it has
    an [expver] dimension, and [era5.blh.sel(time=ts, expver=v[k]).item()]
    (without the dimension, [era5.blh.sel(time=ts).item()] at [k = 0]),
    NaN being [None]. *)
Record era5_file : Type := {
  era5_times : list Z;
  era5_expver : bool;
  era5_blh : Z -> nat -> result (option Q)
}.

Section Era5.
Context (round_1h : Z -> Z).

(** Lines 1201-1210 for one image; [round_1h] is [dt.round('1h')]. *)
Definition era5_value (era5 : era5_file) (startdate : Z) : result (option Q) :=
  let idate := round_1h startdate in
  ts ← nearest (era5_times era5) idate;
  if era5_expver era5 then
    val ← era5_blh era5 ts 0;
    if isnan val then era5_blh era5 ts 1 else Ok val
  else era5_blh era5 ts 0.

Definition _icos_era5_pblh (era5 : era5_file) (db : list img_row) (icos_site : string)
  : result (list Q) :=
  let img_db_site := filter (fun r => String.eqb (name r) icos_site) db in
  pblh ← mapM (fun r => era5_value era5 (startdate r)) img_db_site;
  if existsb isnan pblh
  then Raise (ValueError "NaN value detected in ERA5 derived PBLH values.")
  else Ok (omap id pblh).
End Era5.

(** * Example inputs *)

(** The four-band sensor of the specification's scenario. *)
Definition wls4 : list Q := [400.2; 550.0; 699.8; 710.3]%Q.

(** Day ordinals and a timestamp in minutes. *)
Definition d_2019_03_01 : Z := 737119.
Definition d_2020_06_15 : Z := 737591.
Definition d_2021_04_20 : Z := 737900.
Definition at_1030 (day : Z) : Z := (day * 1440 + 630)%Z.

(** [missd] as [_load_icos_subset] returns it when no date is missing: the
    dummy 1900-01-01 00:00. *)
Definition missd_dummy : list Z := [(693596 * 1440)%Z].

Definition licor (ty : string) (day : Z) (height : Q) : inst_row :=
  {| INSTOM_MODEL := "GA_CP-LI-COR LI-7200"; INSTOM_TYPE := ty;
     INSTOM_DATE := day; INSTOM_HEIGHT := height |}.

(** A tower whose analyser was installed in 2019 and raised in 2021. *)
Definition ins_two : list (Z * inst_row) :=
  [(1, licor "Installation" d_2019_03_01 2.5%Q);
   (2, licor "Maintenance" d_2020_06_15 2.5%Q);
   (3, licor "Installation" d_2021_04_20 4.0%Q)]%Z.

(** An ANCILLARY file without canopy-height records. *)
Definition anc_none : ancillary := {| GRP_TREE_HEIGHT := []; GRP_HEIGHTC := [] |}.

(** A crop stand measured at 2.5 m, the height of the analyser. *)
Definition anc_crop : ancillary :=
  {| GRP_TREE_HEIGHT := [];
     GRP_HEIGHTC := [(7%Z, {| HEIGHTC := 2.5%Q;
                             HEIGHTC_STATISTIC := Some "75th Percentile";
                             HEIGHTC_SPP := None;
                             HEIGHTC_DATE := d_2020_06_15 |})] |}.

(** A stand that has grown to 3.1 m, above the analyser. *)
Definition anc_tall : ancillary :=
  {| GRP_TREE_HEIGHT := [];
     GRP_HEIGHTC := [(7%Z, {| HEIGHTC := 3.1%Q;
                             HEIGHTC_STATISTIC := Some "75th Percentile";
                             HEIGHTC_SPP := None;
                             HEIGHTC_DATE := d_2020_06_15 |})] |}.

(** The cropland station DE-RuS with two PRISMA acquisitions. *)
Definition site_rus : site_row :=
  {| site_name := "DE-RuS"; ecosystem := "CRO";
     loc_x := 4100431.52%Q; loc_y := 3091234.10%Q |}.

Definition img_at (dt : string) (day : Z) : img_row :=
  {| name := "DE-RuS"; startdate := (day * 1440 + 581)%Z; dataTakeID := dt;
     clouds := ""; era_pblh := 0%Q |}.

Definition db2 : list img_row :=
  [img_at "20200615104112" d_2020_06_15; img_at "20210420103957" d_2021_04_20].

Definition datelist2 : list (nat * Z) := datelist_of db2 "DE-RuS" None.

Definition fluxvars6 : list string :=
  ["GPP_DT_VUT_50"; "NEE_VUT_50"; "NEE_VUT_50_QC"; "SW_IN_F"; "SW_IN_F_QC"; "PAR"].

Definition fluxes_ok : list (string * Q) :=
  [("GPP_DT_VUT_50", 14.2%Q); ("NEE_VUT_50", (-9.8)%Q); ("NEE_VUT_50_QC", 0%Q);
   ("SW_IN_F", 812.5%Q); ("SW_IN_F_QC", 0%Q); ("PAR", 381.9%Q)].

Definition fluxes_na : list (string * Q) := map (fun v => (v, sentinel)) fluxvars6.

Definition micromet (ws : Q) : list (string * Q) :=
  [("USTAR", 0.41%Q); ("V_SIGMA", 0.62%Q); ("MO_LENGTH", (-48.0)%Q);
   ("PBLH", 1250%Q); ("WS", ws); ("WD", 225%Q)].

(** [icos_subset] in footprint mode: the second half hour has fluxes but the
    wind speed is the sentinel. *)
Definition subset_ffp : list (Z * gmap string Q) :=
  [(at_1030 d_2020_06_15, list_to_map (fluxes_ok ++ micromet 3.2%Q));
   (at_1030 d_2021_04_20, list_to_map (fluxes_ok ++ micromet sentinel))].

(** [icos_subset] in zonal mode: fluxes only, and no flux record at all for
    the second day, whose row was added back filled with the sentinel. *)
Definition subset_zonal : list (Z * gmap string Q) :=
  [(at_1030 d_2020_06_15, list_to_map fluxes_ok);
   (at_1030 d_2021_04_20, list_to_map fluxes_na)].

Definition missd_second : list Z := [at_1030 d_2021_04_20].

(** A stand-in for the footprint model: a diamond whose size grows with the
    height above displacement. *)
Definition ffp_diamond (a : ffp_args) : result (list Q * list Q) :=
  let d := (40 * zm a)%Q in
  Ok ([d; 0; - d; 0]%Q, [0; d; 0; - d]%Q).

(** Two cropped images of the station: four bands, and five bands. *)
Definition file4 : img_file :=
  {| wavelengths := wls4;
     cube := [[0.031; 0.035]; [0.082; (-0.004)]; [0.065; 0.071]; [0.41; 0.39]]%Q;
     nodata := (-9999)%Q |}.

Definition file5 : img_file :=
  {| wavelengths := wls4 ++ [720.9%Q];
     cube := [[0.030; 0.034]; [0.080; 0.079]; [0.066; 0.070]; [0.40; 0.38];
              [0.44; 0.43]]%Q;
     nodata := (-9999)%Q |}.

Definition dir2 (dt : string) : list img_file :=
  if String.eqb dt "20200615104112" then [file4]
  else if String.eqb dt "20210420103957" then [file5]
  else [].

(** A mask that hands back the whole cube for a buffer and finds a polygon
    outside the raster. *)
Definition mask_buffer_only (f : img_file) (g : geometry) : result (list (list Q)) :=
  match g with
  | Buffer _ _ _ => Ok (cube f)
  | Polygon _ => Raise (ValueError "Input shapes do not overlap raster.")
  end.

Definition mask_whole (f : img_file) (g : geometry) : result (list (list Q)) :=
  Ok (cube f).

Definition grow (dt : string) (day : Z) (g : geometry) (fl : list (string * Q)) : geom_row :=
  {| g_name := "DE-RuS"; g_startdate := (day * 1440 + 581)%Z; g_dataTakeID := dt;
     g_clouds := ""; g_geometry := Some g; g_flux := fl |}.

Definition fluxes_no_par : list (string * Q) :=
  [("GPP_DT_VUT_50", 11.7%Q); ("NEE_VUT_50", (-7.1)%Q); ("NEE_VUT_50_QC", 0%Q);
   ("SW_IN_F", 640.0%Q); ("SW_IN_F_QC", 0%Q); ("PAR", sentinel)].

(** A frame whose second record has flux data but no PAR. *)
Definition gdf_upw : list geom_row :=
  [grow "20200615104112" d_2020_06_15
     (Buffer (loc_x site_rus) (loc_y site_rus) 30) fluxes_ok;
   grow "20210420103957" d_2021_04_20
     (Polygon [(4100491.52, 3091234.10); (4100431.52, 3091294.10);
               (4100371.52, 3091234.10)]%Q) fluxes_no_par].

(** A frame with both records complete. *)
Definition gdf_ok : list geom_row :=
  [grow "20200615104112" d_2020_06_15
     (Buffer (loc_x site_rus) (loc_y site_rus) 30) fluxes_ok;
   grow "20210420103957" d_2021_04_20
     (Buffer (loc_x site_rus) (loc_y site_rus) 30) fluxes_ok].

(** Inventories for [crs_and_cropping]: a site with one crop already on
    disk and one new five-band image, and two sites with different sensors
    settings. *)
Definition scene_done4 : scene :=
  {| sc_dataTakeID := "20200615104112"; crop_exists := true; sources := [wls4] |}.
Definition scene_new4 : scene :=
  {| sc_dataTakeID := "20200615104112"; crop_exists := false; sources := [wls4] |}.
Definition scene_new5 : scene :=
  {| sc_dataTakeID := "20210420103957"; crop_exists := false;
     sources := [wls4 ++ [720.9%Q]] |}.

(** A second station, a wetland, and the inputs of a two-site run. *)
Definition anc_low : ancillary :=
  {| GRP_TREE_HEIGHT := [];
     GRP_HEIGHTC := [(7%Z, {| HEIGHTC := 0.4%Q;
                             HEIGHTC_STATISTIC := Some "Mean";
                             HEIGHTC_SPP := None;
                             HEIGHTC_DATE := d_2020_06_15 |})] |}.

Definition site_hte : site_row :=
  {| site_name := "DE-Hte"; ecosystem := "WET";
     loc_x := 4480000.5%Q; loc_y := 3400000.25%Q |}.

Definition img_hte : img_row :=
  {| name := "DE-Hte"; startdate := (d_2020_06_15 * 1440 + 590)%Z;
     dataTakeID := "20200615105003"; clouds := ""; era_pblh := 0%Q |}.

Definition db3 : list img_row := db2 ++ [img_hte].

Definition dir3 (dt : string) : list img_file :=
  if String.eqb dt "20200615105003" then [file4] else dir2 dt.

Definition in_rus : site_input :=
  {| si_site := site_rus; si_era := false; si_no_rad := false;
     si_icos_subset := subset_ffp; si_fluxvars := fluxvars6;
     si_missd := missd_dummy; si_anc := anc_low; si_ins := ins_two |}.

Definition in_hte : site_input :=
  {| si_site := site_hte; si_era := false; si_no_rad := false;
     si_icos_subset :=
       [(at_1030 d_2020_06_15, list_to_map (fluxes_ok ++ micromet 4.1%Q))];
     si_fluxvars := fluxvars6; si_missd := missd_dummy;
     si_anc := anc_none; si_ins := ins_two |}.

(** A grassland file with a mean, a 75th-percentile and a single
    observation of the whole canopy. *)
Definition hrow (stat : string) (spp : option string) (day : Z) (hgt : Q) : heightc_row :=
  {| HEIGHTC := hgt; HEIGHTC_STATISTIC := Some stat; HEIGHTC_SPP := spp;
     HEIGHTC_DATE := day |}.

Definition anc_mixed : ancillary :=
  {| GRP_TREE_HEIGHT := [];
     GRP_HEIGHTC := [(5%Z, hrow "Mean" None d_2019_03_01 0.3%Q);
                     (7%Z, hrow "75th Percentile" None d_2020_06_15 0.4%Q);
                     (9%Z, hrow "Single observation" None d_2021_04_20 0.5%Q)] |}.

(** Two towers' instrument files: one with analysers of both families, one
    whose analyser has maintenance records only. *)
Definition campbell (ty : string) (day : Z) (height : Q) : inst_row :=
  {| INSTOM_MODEL := "GA_OP-Campbell EC150"; INSTOM_TYPE := ty;
     INSTOM_DATE := day; INSTOM_HEIGHT := height |}.

Definition ins_both : list (Z * inst_row) :=
  [(1, campbell "Installation" d_2019_03_01 3.0%Q);
   (2, licor "Installation" d_2020_06_15 2.5%Q)]%Z.

Definition ins_maintenance : list (Z * inst_row) :=
  [(1, licor "Maintenance" d_2019_03_01 2.5%Q)]%Z.

(** An image whose pixels are all no-data. *)
Definition file_void : img_file :=
  {| wavelengths := wls4;
     cube := [[-9999; -9999]; [-9999; -9999]; [-9999; -9999]; [-9999; -9999]]%Q;
     nodata := (-9999)%Q |}.

Definition dir_void (dt : string) : list img_file := [file_void].

(** Station folders: a complete ICOS station, one without PPFD_IN and
    PBLH, one without any radiation column, and a station known from a
    FLUXNET export only; any other station has no file. *)
Definition st_icos (fluxnet fluxes : list string) : station_files :=
  {| fluxnet_interim := None; fluxnet_l2 := Some fluxnet; flx_fluxnet := [];
     fluxes_interim := None; fluxes_l2 := Some fluxes |}.

Definition st_none : station_files :=
  {| fluxnet_interim := None; fluxnet_l2 := None; flx_fluxnet := [];
     fluxes_interim := None; fluxes_l2 := None |}.

Definition icos_dir4 (site : string) : station_files :=
  if String.eqb site "DE-RuS"
  then st_icos ["TIMESTAMP_START"; "TIMESTAMP_END"; "PPFD_IN"; "SW_IN_F"]
               ["TIMESTAMP_START"; "TIMESTAMP_END"; "USTAR"; "V_SIGMA"; "MO_LENGTH";
                "PBLH"; "WS"; "WD"]
  else if String.eqb site "DE-HoH"
  then st_icos ["TIMESTAMP_START"; "TIMESTAMP_END"; "SW_IN_F"]
               ["TIMESTAMP_START"; "TIMESTAMP_END"; "USTAR"; "V_SIGMA"; "MO_LENGTH";
                "WS"; "WD"]
  else if String.eqb site "FR-Bil"
  then st_icos ["TIMESTAMP_START"; "TIMESTAMP_END"]
               ["TIMESTAMP_START"; "TIMESTAMP_END"; "USTAR"; "PBLH"; "WS"; "WD"]
  else if String.eqb site "US-Ha1"
  then {| fluxnet_interim := None; fluxnet_l2 := None;
          flx_fluxnet := [["TIMESTAMP_START"; "TIMESTAMP_END"; "PPFD_IN"; "SW_IN_F"]];
          fluxes_interim := None; fluxes_l2 := None |}
  else st_none.

Definition usable4 : list (string * Z) :=
  [("DE-RuS", 1%Z); ("DE-HoH", 2%Z); ("DE-HoH", 0%Z); ("FR-Bil", 0%Z)].

(** A PRISMA product: 66 VNIR and 173 SWIR channels, the centre wavelengths
    descending as in the file, on a raster of one pixel. *)
Definition h5_239 : prisma_h5 :=
  {| List_Cw_Vnir := map (fun i => inject_Z (1000 - 9 * Z.of_nat i)) (seq 0 66);
     VNIR_Cube := {| r_rows := 1; r_cols := 1;
                     r_bands := map (fun i => [inject_Z (Z.of_nat (100 * i))]) (seq 0 66) |};
     L2ScaleVnirMin := 0; L2ScaleVnirMax := 1;
     List_Cw_Swir := map (fun i => inject_Z (2500 - 9 * Z.of_nat i)) (seq 0 173);
     SWIR_Cube := {| r_rows := 1; r_cols := 1;
                     r_bands := map (fun i => [inject_Z (Z.of_nat (50 * i))]) (seq 0 173) |};
     L2ScaleSwirMin := 0; L2ScaleSwirMax := 1 |}.

(** The quality check of the three images of [db3]: the wetland image is
    not on disk, the two others are read without a quicklook at hand. *)
Definition qc_dir3 (site dt : string) : qc_files :=
  if String.eqb dt "20200615105003"
  then {| nfiles := 0; qc_exists := false; qc_try := Ok tt; qc_na := Ok 0%Q |}
  else {| nfiles := 1; qc_exists := false; qc_try := Ok tt; qc_na := Ok 0.02%Q |}.

Definition flx_loc3 : list (string * Z) := [("DE-RuS", 32632%Z); ("DE-Hte", 32633%Z)].

(** Hourly ERA5 slices around the acquisitions of 15 June 2020, the second
    without a value in the first version; rounding to the hour for
    timestamps whose seconds are zero. *)
Definition era5_rus : era5_file :=
  {| era5_times := [(d_2020_06_15 * 1440 + 540)%Z; (d_2020_06_15 * 1440 + 600)%Z;
                    (d_2020_06_15 * 1440 + 660)%Z];
     era5_expver := true;
     era5_blh := fun ts k =>
       if (ts =? d_2020_06_15 * 1440 + 600)%Z
       then Ok (if (k =? 0)%nat then None else Some 1180%Q)
       else Ok (Some 950%Q) |}.

Definition round_hour (t : Z) : Z := (60 * round_half_even (inject_Z t / 60))%Z.

(** * Vocabulary of the statements *)

(** [i] is an index of [values] whose entry is nearest to [target]. *)
Definition nearest_index (values : list Q) (target : Q) (i : nat) : Prop :=
  (i < length values)%nat /\
  forall j, (j < length values)%nat ->
    (Qabs (nth i values 0 - target) <= Qabs (nth j values 0 - target))%Q.


Definition zonal_classes : list string :=
  ["MF"; "DBF"; "EBF"; "ENF"; "SAV"; "WSA"; "GRA"; "OSH"; "CSH"; "WET"; "CRO"].

(** The inventory only ever changes in its [clouds] column, and a row once
    marked [icos_na] by the geometry builder stays marked. *)
Definition keeps (r1 r2 : img_row) : Prop :=
  name r1 = name r2 /\ startdate r1 = startdate r2 /\
  dataTakeID r1 = dataTakeID r2 /\ era_pblh r1 = era_pblh r2 /\
  (clouds r1 = icos_na -> clouds r2 = icos_na).

Definition evolves (db1 db2 : list img_row) : Prop := Forall2 keeps db1 db2.

(** The record the sentinel test looks at: the matched row, with the
    boundary-layer height of the inventory for ERA5 sites. *)
Definition ffp_record (era : bool) (r : img_row) (p0 : gmap string Q) : gmap string Q :=
  if era then <["PBLH" := era_pblh r]> p0 else p0.

(** An image without usable flux data: its day is among the missing ones,
    or a required field of its record is the sentinel. *)
Definition flux_missing (era : bool) (icos_subset : list (Z * gmap string Q))
  (missd : list Z) (db : list img_row) (ix : nat) (date : Z) : Prop :=
  date ∈ map date_of missd \/
  exists p0 r f v,
    matched_record icos_subset date = Ok p0 /\ db !! ix = Some r /\
    f ∈ required /\ ffp_record era r p0 !! f = Some v /\ (v == sentinel)%Q.

Definition digit (d : nat) : ascii := ascii_of_nat (48 + d).

(** ['b'] followed by the three decimal digits of [x]. *)
Definition three_digit_name (x : nat) : string :=
  String "b" (String (digit (x / 100))
    (String (digit (x / 10 mod 10)) (String (digit (x mod 10)) EmptyString))).

(** A scene that the current call decodes, with its wavelengths. *)
Definition decoded (overwrite : bool) (sc : scene) (wls : list Q) : Prop :=
  crop_exists sc && negb overwrite = false /\ sources sc = [wls].

(** A row is left as it was or has its [clouds] entry set to [flag]. *)
Definition flag_with (flag : string) (r : img_row) : img_row :=
  {| name := name r; startdate := startdate r; dataTakeID := dataTakeID r;
     clouds := flag; era_pblh := era_pblh r |}.

Definition marked (flag : string) (r1 r2 : img_row) : Prop :=
  r2 = r1 \/ r2 = flag_with flag r1.

Definition marks (flag : string) (db1 db2 : list img_row) : Prop :=
  Forall2 (marked flag) db1 db2.

(** The mean of a band before and after the pixels are multiplied by [par]. *)
Definition scaled (par : Q) (a b : option Q) : Prop :=
  match a, b with
  | Some x, Some y => (y == x * par)%Q
  | None, None => True
  | _, _ => False
  end.

(** The number of the UTM zone that holds a longitude. *)
Definition utm_zone (lon : Q) : Z := (Qfloor ((lon + 180) / 6) + 1)%Z.

(** Whether the FLUXNET header of a station has a column. *)
Definition frame_has (icos_dir : string -> station_files) (var site : string) : bool :=
  match fluxnet_frame site (icos_dir site) with
  | inr c => bool_decide (var ∈ c)
  | inl _ => false
  end.


(** What is left of a list read backwards when the positions [a..b-1] are
    dropped. *)
Definition kept_flipped {A : Type} (a b : nat) (l : list A) : list A :=
  take a (rev l) ++ drop b (rev l).

(** The inventory positions of the images [hsi_qc] checks, in the order it
    checks them. *)
Definition qc_positions (db : list img_row) (date : option Z) (icos_list : list string)
  : list nat :=
  concat (map (fun site => (datelist_of db site date).*1) icos_list).

(** * Properties *)

(** ** The result monad and Python's [min] *)

Lemma bind_Ok_l {A B : Type} (a : A) (k : A -> result B) : Ok a ≫= k = k a.
Proof. reflexivity. Qed.

Lemma bind_Ok {A B : Type} (m : result A) (k : A -> result B) (b : B) :
  m ≫= k = Ok b -> exists a, m = Ok a /\ k a = Ok b.
Proof. destruct m as [a|e]; [eauto | discriminate]. Qed.

Lemma mapM_Ok_length {A B : Type} (f : A -> result B) (l : list A) (l' : list B) :
  mapM f l = Ok l' -> length l' = length l.
Proof.
  revert l'. induction l as [|x l IH]; intros l' H; simpl in H.
  - injection H as <-. reflexivity.
  - apply bind_Ok in H as (y & _ & H). apply bind_Ok in H as (k & Hk & H).
    injection H as <-. simpl. f_equal. auto.
Qed.

Lemma mapM_Ok_lookup {A B : Type} (f : A -> result B) (l : list A) (l' : list B)
  (i : nat) (x : A) :
  mapM f l = Ok l' -> l !! i = Some x -> exists y, l' !! i = Some y /\ f x = Ok y.
Proof.
  revert l' i. induction l as [|a l IH]; intros l' i H Hi; [discriminate|].
  simpl in H. apply bind_Ok in H as (y & Hy & H).
  apply bind_Ok in H as (k & Hk & H). injection H as <-.
  destruct i as [|i]; simpl in *.
  - injection Hi as ->. eauto.
  - eauto.
Qed.

Lemma mapM_Ok_intro {A B : Type} (f : A -> result B) (g : A -> B) (l : list A) :
  (forall x, x ∈ l -> f x = Ok (g x)) -> mapM f l = Ok (map g l).
Proof.
  induction l as [|a l IH]; intros H; simpl; [reflexivity|].
  rewrite (H a) by left. simpl. rewrite IH; [reflexivity|].
  intros x Hx. apply H. now right.
Qed.

Section PyMinSpec.
Context {A K : Type} (ltb : K -> K -> bool) (key : A -> K).
Hypothesis ltb_trans :
  forall a b c, ltb a b = true -> ltb b c = true -> ltb a c = true.
Hypothesis ltb_below :
  forall a b c, ltb a b = true -> ltb c b = false -> ltb a c = true.

(** The running best splits what was read so far: strictly larger keys
    before it, no smaller key after it. *)
Lemma min_from_split (xs l1 l2 : list A) (best : A) :
  Forall (fun y => ltb (key best) (key y) = true) l1 ->
  Forall (fun y => ltb (key y) (key best) = false) l2 ->
  exists l1' l2',
    l1 ++ best :: l2 ++ xs = l1' ++ min_from ltb key best xs :: l2' /\
    Forall (fun y => ltb (key (min_from ltb key best xs)) (key y) = true) l1' /\
    Forall (fun y => ltb (key y) (key (min_from ltb key best xs)) = false) l2'.
Proof.
  revert l1 l2 best. induction xs as [|x xs IH]; intros l1 l2 best H1 H2; simpl.
  - exists l1, l2. rewrite app_nil_r. auto.
  - destruct (ltb (key x) (key best)) eqn:E.
    + destruct (IH (l1 ++ best :: l2) [] x) as (l1' & l2' & Heq & Ha & Hb).
      * apply Forall_app. split.
        { eapply Forall_impl; [exact H1|]. simpl. intros y Hy. eauto. }
        constructor; [exact E|].
        eapply Forall_impl; [exact H2|]. simpl. intros y Hy. eauto.
      * constructor.
      * exists l1', l2'. split; [|auto].
        rewrite <- Heq. simpl. rewrite <- app_assoc. reflexivity.
    + destruct (IH l1 (l2 ++ [x]) best) as (l1' & l2' & Heq & Ha & Hb).
      * exact H1.
      * apply Forall_app. split; [exact H2|]. constructor; [exact E|constructor].
      * exists l1', l2'. split; [|auto].
        rewrite <- Heq. rewrite <- app_assoc. reflexivity.
Qed.

Lemma py_min_split (xs : list A) :
  xs <> [] ->
  exists m l1 l2,
    py_min ltb key xs = Ok m /\ xs = l1 ++ m :: l2 /\
    Forall (fun y => ltb (key m) (key y) = true) l1 /\
    Forall (fun y => ltb (key y) (key m) = false) l2.
Proof.
  destruct xs as [|x xs]; [congruence|]. intros _.
  destruct (min_from_split xs [] [] x) as (l1 & l2 & Heq & Ha & Hb);
    [constructor | constructor |].
  exists (min_from ltb key x xs), l1, l2. simpl in *. auto.
Qed.
End PyMinSpec.

Lemma Qltb_lt (a b : Q) : Qltb a b = true <-> (a < b)%Q.
Proof.
  unfold Qltb. rewrite negb_true_iff. split.
  - intros H. apply Qnot_le_lt. intros Hle.
    apply Qle_bool_iff in Hle. congruence.
  - intros H. destruct (Qle_bool b a) eqn:E; [|reflexivity].
    apply Qle_bool_iff in E. exfalso. eapply Qlt_not_le; eauto.
Qed.

Lemma Qltb_ge (a b : Q) : Qltb a b = false <-> (b <= a)%Q.
Proof.
  unfold Qltb. rewrite negb_false_iff. apply Qle_bool_iff.
Qed.

Lemma Qltb_trans (a b c : Q) : Qltb a b = true -> Qltb b c = true -> Qltb a c = true.
Proof. rewrite !Qltb_lt. apply Qlt_trans. Qed.

Lemma Qltb_below (a b c : Q) : Qltb a b = true -> Qltb c b = false -> Qltb a c = true.
Proof. rewrite !Qltb_lt, Qltb_ge. intros H1 H2. eapply Qlt_le_trans; eauto. Qed.

(** ** Temporal matcher *)

(** C2. For a non-empty list [items] and any [target], [nearest] returns an
    element of [items] whose distance [abs(x - target)] to [target] is
    minimal, and it is the first such element: every element before it is
    strictly farther away. *)
Theorem nearest_first_minimum {A : Type} `{Distance A} (items : list A) (target : A) :
  items <> [] ->
  exists x l1 l2,
    nearest items target = Ok x /\ items = l1 ++ x :: l2 /\ x ∈ items /\
    (forall y, y ∈ items -> (distance x target <= distance y target)%Q) /\
    (forall y, y ∈ l1 -> (distance x target < distance y target)%Q).
Proof.
  intros Hne.
  destruct (py_min_split Qltb (fun x => distance x target) Qltb_trans Qltb_below
              items Hne) as (m & l1 & l2 & Hm & Heq & H1 & H2).
  exists m, l1, l2. rewrite Forall_forall in H1, H2.
  split; [exact Hm|]. split; [exact Heq|]. split; [|split].
  - rewrite Heq. apply elem_of_app. right. left.
  - intros y Hy. rewrite Heq in Hy.
    apply elem_of_app in Hy as [Hy|Hy].
    + apply H1, Qltb_lt in Hy. now apply Qlt_le_weak.
    + apply elem_of_cons in Hy as [->|Hy]; [apply Qle_refl|].
      now apply H2, Qltb_ge in Hy.
  - intros y Hy. now apply H1, Qltb_lt in Hy.
Qed.

Lemma Z_distance_le (x y target : Z) :
  (distance x target <= distance y target)%Q <->
  (Z.abs (x - target) <= Z.abs (y - target))%Z.
Proof. unfold distance, Z_distance. now rewrite <- Zle_Qle. Qed.

Lemma nearest_first_minimum_witness :
  [5; 3; 7; 1]%Z <> [] /\
  exists x l1 l2,
    nearest [5; 3; 7; 1]%Z 4%Z = Ok x /\ [5; 3; 7; 1]%Z = l1 ++ x :: l2 /\
    x ∈ [5; 3; 7; 1]%Z /\
    (forall y, y ∈ [5; 3; 7; 1]%Z -> (Z.abs (x - 4) <= Z.abs (y - 4))%Z) /\
    (forall y, y ∈ l1 -> (distance x 4%Z < distance y 4%Z)%Q).
Proof.
  split; [discriminate|].
  destruct (nearest_first_minimum [5; 3; 7; 1]%Z 4%Z ltac:(discriminate))
    as (x & l1 & l2 & H1 & H2 & H3 & H4 & H5).
  exists x, l1, l2. repeat (split; [assumption|]). split; [|exact H5].
  intros y Hy. now apply Z_distance_le, H4.
Defined.

Lemma _fnv_nearest (values : list Q) (target : Q) :
  values <> [] ->
  exists i, _fnv values target = Ok i /\ nearest_index values target i /\
    forall j, (j < i)%nat ->
      (Qabs (nth i values 0 - target) < Qabs (nth j values 0 - target))%Q.
Proof.
  intros Hne.
  assert (Hs : seq 0 (length values) <> []).
  { destruct values; [congruence|discriminate]. }
  destruct (py_min_split Qltb (fun i => Qabs (nth i values 0%Q - target))
              Qltb_trans Qltb_below _ Hs) as (m & l1 & l2 & Hm & Heq & H1 & H2).
  assert (Hlen : (length l1 < length values)%nat).
  { apply (f_equal length) in Heq. rewrite length_seq, length_app in Heq.
    simpl in Heq. lia. }
  assert (Hml : m = length l1).
  { pose proof (lookup_seq_lt 0 (length values) (length l1) Hlen) as E.
    rewrite Heq in E. rewrite list_lookup_middle in E by reflexivity.
    simpl in E. congruence. }
  assert (Hin : forall j, (j < length values)%nat ->
            j ∈ l1 /\ (j < m)%nat \/ j = m \/ j ∈ l2).
  { intros j Hj. pose proof (lookup_seq_lt 0 (length values) j Hj) as E.
    rewrite Heq in E. simpl in E.
    destruct (decide (j < length l1)%nat) as [Hlt|Hge].
    - rewrite lookup_app_l in E by exact Hlt. left. split; [|lia].
      eapply list_elem_of_lookup_2; eauto.
    - rewrite lookup_app_r in E by lia.
      destruct (j - length l1)%nat as [|k] eqn:Ek; simpl in E.
      + right. left. congruence.
      + right. right. eapply list_elem_of_lookup_2; eauto. }
  exists m. rewrite Forall_forall in H1, H2. split; [|split].
  - unfold _fnv. destruct values; [congruence|exact Hm].
  - split; [lia|]. intros j Hj.
    destruct (Hin j Hj) as [[Hj1 _]|[->|Hj2]].
    + apply H1, Qltb_lt in Hj1. now apply Qlt_le_weak.
    + apply Qle_refl.
    + apply H2, Qltb_ge in Hj2. exact Hj2.
  - intros j Hj. destruct (Hin j) as [[Hj1 _]|[->|Hj2]]; [lia| | lia |].
    + apply H1, Qltb_lt in Hj1. exact Hj1.
    + exfalso. assert (Hd : NoDup (seq 0 (length values))) by apply NoDup_seq.
      rewrite Heq in Hd. apply NoDup_app in Hd as (_ & Hd & _).
      assert (Hj1 : j ∈ l1).
      { pose proof (lookup_seq_lt 0 (length values) j ltac:(lia)) as E.
        rewrite Heq in E. rewrite lookup_app_l in E by lia.
        eapply list_elem_of_lookup_2; eauto. }
      apply (Hd j Hj1). now right.
Qed.

Lemma retained_seq (wls : list Q) (lo hi : nat) :
  (hi < length wls)%nat -> retained wls lo (S hi) = seq lo (S hi - lo).
Proof.
  intros Hhi. unfold retained, py_slice.
  rewrite drop_seq, take_seq. simpl. f_equal. lia.
Qed.

(** C6. The spectral window is applied by nearest-wavelength lookup at both
    ends: for a supported range code the kept band indices are exactly those
    from the index nearest to 400 nm through the index nearest to the upper
    bound, inclusive; the "visible" request on wavelengths
    [400.2, 550.0, 699.8, 710.3] keeps indices 0, 1, 2 and drops index 3. *)
Theorem band_window_nearest_both_ends (wls : list Q) (sr : string) (upper : Q) :
  wls <> [] -> nm_max_of sr = Ok upper ->
  (exists lo hi,
    band_window wls sr = Ok (lo, S hi, length (retained wls lo (S hi))) /\
    nearest_index wls nm_min lo /\ nearest_index wls upper hi /\
    (forall i, i ∈ retained wls lo (S hi) <-> (lo <= i <= hi)%nat)) /\
  nm_max_of "vis" = Ok 700%Q /\
  band_window wls4 "vis" = Ok (0, 3, 3)%nat /\
  retained wls4 0 3 = [0; 1; 2]%nat /\ 3%nat ∉ retained wls4 0 3.
Proof.
  intros Hne Hsr. split.
  - destruct (_fnv_nearest wls nm_min Hne) as (lo & Hlo & Nlo & _).
    destruct (_fnv_nearest wls upper Hne) as (hi & Hhi & Nhi & _).
    exists lo, hi. unfold band_window. rewrite Hlo. simpl. rewrite Hsr. simpl.
    rewrite Hhi. simpl. split; [|split; [exact Nlo|split; [exact Nhi|]]].
    + rewrite Nat.add_1_r. do 2 f_equal. unfold retained, py_slice.
      rewrite !length_take, !length_drop, length_seq. reflexivity.
    + intros i. rewrite retained_seq by apply Nhi. rewrite elem_of_seq. lia.
  - split; [reflexivity|]. split; [reflexivity|]. split; [reflexivity|].
    intros H. assert (E : retained wls4 0 3 = [0; 1; 2]%nat) by reflexivity.
    rewrite E in H. rewrite !elem_of_cons, elem_of_nil in H. lia.
Qed.

Lemma band_window_nearest_both_ends_witness :
  wls4 <> [] /\ nm_max_of "vnir" = Ok 1000%Q /\
  exists lo hi,
    band_window wls4 "vnir" = Ok (lo, S hi, length (retained wls4 lo (S hi))) /\
    nearest_index wls4 nm_min lo /\ nearest_index wls4 1000 hi /\
    (forall i, i ∈ retained wls4 lo (S hi) <-> (lo <= i <= hi)%nat).
Proof.
  split; [discriminate|]. split; [reflexivity|].
  apply (band_window_nearest_both_ends wls4 "vnir" 1000%Q); [discriminate|reflexivity].
Defined.

(** ** Sensor height: last installation at or before the image date *)

Lemma insert_by_date_elem (x e : Z * Z) (l : list (Z * Z)) :
  e ∈ insert_by_date x l <-> e = x \/ e ∈ l.
Proof.
  induction l as [|y l IH]; simpl.
  - rewrite list_elem_of_singleton, elem_of_nil. tauto.
  - destruct (x.1 <=? y.1)%Z.
    + rewrite elem_of_cons. tauto.
    + rewrite !elem_of_cons, IH. tauto.
Qed.

Lemma sort_index_elem (e : Z * Z) (l : list (Z * Z)) :
  e ∈ sort_index l <-> e ∈ l.
Proof.
  induction l as [|y l IH]; simpl; [tauto|].
  rewrite insert_by_date_elem, elem_of_cons, IH. tauto.
Qed.








Lemma Z_hdates_elem (ins : list (Z * inst_row)) (s : string) (d gid : Z) :
  (d, gid) ∈ sort_index (map (fun r => (INSTOM_DATE r.2, r.1))
                            (filter (is_installation s) ins)) <->
  exists r, (gid, r) ∈ ins /\ is_installation s (gid, r) /\ INSTOM_DATE r = d.
Proof.
  rewrite sort_index_elem. change (map ?f ?l) with (f <$> l).
  rewrite list_elem_of_fmap. split.
  - intros ([g r] & Heq & Hin). simpl in Heq. injection Heq as -> ->.
    apply list_elem_of_filter in Hin as [Hi Hin]. eauto.
  - intros (r & Hin & Hi & <-). exists (gid, r). split; [reflexivity|].
    apply list_elem_of_filter. auto.
Qed.



(** ** Displacement height and the consistency check *)

Lemma zm_loop_raises (hs : height_src) (ins : list (Z * inst_row)) (Zh : list (Z * Z))
  (missd : list Z) (dates : list (nat * Z)) (ZM : list Q) (i : nat) (idate : Z) (e : exn) :
  (i, idate) ∈ dates -> idate ∉ map date_of missd ->
  height_above_displacement hs ins Zh idate = Raise e ->
  ~ is_ok (zm_loop hs ins Zh missd dates ZM).
Proof.
  intros Hin Hmiss Hraise. revert ZM.
  induction dates as [|[j d] dates IH]; intros ZM [r Hr]; [now apply elem_of_nil in Hin|].
  simpl in Hr. apply elem_of_cons in Hin as [Heq|Hin].
  - injection Heq as <- <-. rewrite bool_decide_false in Hr by exact Hmiss.
    rewrite Hraise in Hr. discriminate.
  - destruct (bool_decide (d ∈ map date_of missd)).
    + apply (IH Hin ZM). now exists r.
    + apply bind_Ok in Hr as (zm & _ & Hr). apply (IH Hin (<[j:=zm]> ZM)). now exists r.
Qed.

Lemma enumerate_elem {A : Type} (l : list A) (x : A) :
  x ∈ l -> exists i, (i, x) ∈ enumerate l.
Proof.
  intros Hx. apply list_elem_of_lookup in Hx as [i Hi]. exists i.
  apply list_elem_of_lookup. exists i. unfold enumerate.
  apply lookup_zip_with_Some. exists i, x. split; [reflexivity|]. split; [|exact Hi].
  apply lookup_seq_lt. eapply lookup_lt_Some; eauto.
Qed.

(** C3 (as the code has it). With the canopy height [D] and the sensor
    height [Zs] resolved for an image that has flux data: when [Zs < D] the
    consistency error is raised and [_load_icos_subset] does not return;
    when [D <= Zs], equality included, no error is raised and the entry of
    [ZM] is exactly [Zs - D], the two heights neither swapped nor clamped. *)
Theorem sensor_below_canopy_raises (cls : string) (anc : ancillary)
  (ins : list (Z * inst_row)) (hs : height_src) (Zh : list (Z * Z)) (idate : Z) (D Zs : Q) :
  height_source cls anc = Ok hs -> Z_hdates ins = Ok Zh ->
  canopy_height hs idate = Ok D -> sensor_height ins Zh idate = Ok Zs ->
  ((Zs < D)%Q ->
     height_above_displacement hs ins Zh idate = Raise (ValueError dz_msg) /\
     forall datelist missd, idate ∈ datelist -> idate ∉ map date_of missd ->
       ~ is_ok (_load_icos_subset cls anc ins datelist missd false)) /\
  ((D <= Zs)%Q -> height_above_displacement hs ins Zh idate = Ok (Zs - D)%Q).
Proof.
  intros Hhs HZh HD HZ. unfold height_above_displacement. rewrite HD, HZ. simpl.
  split.
  - intros Hlt. apply Qltb_lt in Hlt. rewrite Hlt. split; [reflexivity|].
    intros datelist missd Hin Hmiss. unfold _load_icos_subset.
    rewrite Hhs, HZh. simpl.
    apply enumerate_elem in Hin as [i Hin].
    eapply zm_loop_raises; [exact Hin|exact Hmiss|].
    unfold height_above_displacement. rewrite HD, HZ. simpl. now rewrite Hlt.
  - intros Hle. apply Qltb_ge in Hle. now rewrite Hle.
Qed.

Lemma sensor_below_canopy_raises_witness :
  exists hs Zh,
    height_source "CRO" anc_tall = Ok hs /\ Z_hdates ins_two = Ok Zh /\
    canopy_height hs d_2020_06_15 = Ok 3.1%Q /\
    sensor_height ins_two Zh d_2020_06_15 = Ok 2.5%Q /\ (2.5 < 3.1)%Q /\
    height_above_displacement hs ins_two Zh d_2020_06_15 = Raise (ValueError dz_msg) /\
    ~ is_ok (_load_icos_subset "CRO" anc_tall ins_two [d_2020_06_15] missd_dummy false).
Proof.
  destruct (height_source "CRO" anc_tall) as [hs|] eqn:Ehs; [|discriminate].
  destruct (Z_hdates ins_two) as [Zh|] eqn:EZh; [|discriminate].
  exists hs, Zh.
  assert (HD : canopy_height hs d_2020_06_15 = Ok 3.1%Q).
  { vm_compute in Ehs. injection Ehs as <-. reflexivity. }
  assert (HZ : sensor_height ins_two Zh d_2020_06_15 = Ok 2.5%Q).
  { vm_compute in EZh. injection EZh as <-. reflexivity. }
  assert (Hlt : (2.5 < 3.1)%Q) by reflexivity.
  destruct (sensor_below_canopy_raises "CRO" anc_tall ins_two hs Zh d_2020_06_15
              3.1%Q 2.5%Q Ehs EZh HD HZ) as [Hr _].
  destruct (Hr Hlt) as [H1 H2].
  repeat (split; [first [reflexivity | assumption]|]).
  apply H2; [left|]. unfold missd_dummy, date_of, d_2020_06_15. simpl.
  rewrite list_elem_of_singleton. discriminate.
Defined.

(** The boundary of C3: analyser and canopy both at 2.5 m, so the sensor
    height is not above the displacement height, and the subset is loaded
    with a zero height above displacement. *)
Lemma equal_heights_accepted :
  exists hs Zh,
    height_source "CRO" anc_crop = Ok hs /\ Z_hdates ins_two = Ok Zh /\
    canopy_height hs d_2020_06_15 = Ok 2.5%Q /\
    sensor_height ins_two Zh d_2020_06_15 = Ok 2.5%Q /\ (2.5 <= 2.5)%Q /\
    _load_icos_subset "CRO" anc_crop ins_two [d_2020_06_15] missd_dummy false
      = Ok [(2.5 - 2.5)%Q] /\
    (2.5 - 2.5 == 0)%Q.
Proof.
  eexists _, _. split; [reflexivity|]. split; [reflexivity|].
  split; [reflexivity|]. split; [reflexivity|].
  split; [discriminate|]. split; reflexivity.
Qed.


(** A wetland tower with its analyser at 2.5 m and no canopy-height
    records: the height above displacement is 2.5 - 0.1. *)
Example wetland_without_heights_loads :
  _load_icos_subset "WET" anc_none ins_two [d_2020_06_15] missd_dummy false
  = Ok [(2.5 - 0.1)%Q].
Proof. reflexivity. Qed.

(** By contrast a cropland site without canopy-height records is rejected. *)
Example cropland_without_heights :
  height_source "CRO" anc_none = Raise (AttributeError "HEIGHTC_STATISTIC").
Proof. reflexivity. Qed.

(** ** Footprint geometry builder *)

Lemma mapM_Ok_Forall {A B : Type} (f : A -> result B) (P : B -> Prop)
  (l : list A) (l' : list B) :
  mapM f l = Ok l' -> (forall x y, x ∈ l -> f x = Ok y -> P y) -> Forall P l'.
Proof.
  revert l'. induction l as [|a l IH]; intros l' H HP; simpl in H.
  - injection H as <-. constructor.
  - apply bind_Ok in H as (y & Hy & H). apply bind_Ok in H as (k & Hk & H).
    injection H as <-. constructor.
    + apply (HP a y); [left|exact Hy].
    + apply IH; [exact Hk|]. intros x z Hx. apply HP. now right.
Qed.

Section ZonalLoop.
Context (FFP : ffp_args -> result (list Q * list Q)).
Context (site : site_row) (era : bool).
Context (icos_subset : list (Z * gmap string Q)) (ZM : list Q).
Context (fluxvars : list string) (missd : list Z).

Lemma model_loop_zonal (g0 : option geometry) (dates : list (nat * (nat * Z)))
  (db db' : list img_row) (out : list (option geometry * gmap string Q)) :
  model_loop FFP site era true icos_subset ZM fluxvars missd db g0 dates = Ok (db', out) ->
  db' = db /\ Forall (fun gp => gp.1 = g0) out.
Proof.
  revert db db' out. induction dates as [|[i [ix date]] dates IH]; intros db db' out H.
  - simpl in H. injection H as <- <-. split; [reflexivity|constructor].
  - simpl in H. apply bind_Ok in H as ([[db1 g] p] & Hstep & H).
    apply bind_Ok in H as ([db2 out'] & Hrest & H). injection H as <- <-.
    unfold model_geom in Hstep. apply bind_Ok in Hstep as (p0 & _ & Hstep).
    injection Hstep as <- <- <-.
    apply IH in Hrest as [-> Hall]. split; [reflexivity|]. now constructor.
Qed.
End ZonalLoop.

Lemma zonal_radius_unsupported (eco : string) :
  eco ∉ zonal_classes ->
  zonal_radius eco
  = Raise (ValueError ("Ecosystem " +:+ eco +:+ " not supported Please update codebase.")).
Proof.
  intros H. unfold zonal_classes in H. rewrite !not_elem_of_cons in H.
  destruct H as (H1 & H2 & H3 & H4 & H5 & H6 & H7 & H8 & H9 & H10 & H11 & _).
  unfold zonal_radius.
  rewrite !bool_decide_false
    by (rewrite !not_elem_of_cons; repeat split; try assumption; apply not_elem_of_nil).
  apply String.eqb_neq in H10, H11. now rewrite H10, H11.
Qed.

(** C4. In zonal mode the buffer radius depends on the ecosystem class
    only: 80 m for MF, DBF, EBF, ENF; 60 m for SAV, WSA; 50 m for GRA, OSH,
    CSH; 40 m for WET; 30 m for CRO; any other class raises the
    unsupported-ecosystem error.  Every geometry [_model_geoms] returns in
    zonal mode is the circle of that radius around the station. *)
Theorem zonal_radius_by_ecosystem :
  (forall eco, eco ∈ ["MF"; "DBF"; "EBF"; "ENF"] -> zonal_radius eco = Ok 80%Z) /\
  (forall eco, eco ∈ ["SAV"; "WSA"] -> zonal_radius eco = Ok 60%Z) /\
  (forall eco, eco ∈ ["GRA"; "OSH"; "CSH"] -> zonal_radius eco = Ok 50%Z) /\
  zonal_radius "WET" = Ok 40%Z /\
  zonal_radius "CRO" = Ok 30%Z /\
  (forall eco, eco ∉ zonal_classes -> exists msg, zonal_radius eco = Raise (ValueError msg)) /\
  (forall FFP site era icos_subset ZM fluxvars missd db datelist,
     match _model_geoms FFP site era true icos_subset ZM fluxvars missd db datelist with
     | Ok (_, rows) =>
         exists zr, zonal_radius (ecosystem site) = Ok zr /\
           Forall (fun r => g_geometry r = Some (Buffer (loc_x site) (loc_y site) zr)) rows
     | Raise e =>
         ecosystem site ∉ zonal_classes ->
         e = ValueError ("Ecosystem " +:+ ecosystem site +:+
                         " not supported Please update codebase.")
     end).
Proof.
  split; [|split; [|split; [|split; [|split; [|split]]]]]; try reflexivity.
  - intros eco H. rewrite !elem_of_cons, elem_of_nil in H.
    destruct H as [->|[->|[->|[->|[]]]]]; reflexivity.
  - intros eco H. rewrite !elem_of_cons, elem_of_nil in H.
    destruct H as [->|[->|[]]]; reflexivity.
  - intros eco H. rewrite !elem_of_cons, elem_of_nil in H.
    destruct H as [->|[->|[->|[]]]]; reflexivity.
  - intros eco H. rewrite zonal_radius_unsupported by exact H. eauto.
  - intros FFP site era icos_subset ZM fluxvars missd db datelist.
    destruct (_model_geoms _ _ _ _ _ _ _ _ _ _) as [[db' rows]|e] eqn:E.
    + unfold _model_geoms in E. apply bind_Ok in E as (g0 & Hg0 & E).
      apply bind_Ok in Hg0 as (zr & Hzr & Hg0). injection Hg0 as <-.
      apply bind_Ok in E as ([db1 out] & Hloop & E).
      apply bind_Ok in E as (rows' & Hrows & E).
      assert (rows' = rows) as ->.
      { destruct rows', fluxvars; try discriminate.
        destruct (_ && _); [|discriminate]. now injection E. }
      exists zr. split; [exact Hzr|].
      apply model_loop_zonal in Hloop as [-> Hall].
      eapply mapM_Ok_Forall; [exact Hrows|].
      intros [d gp] r Hin Hr. simpl in Hr.
      apply elem_of_zip_r in Hin. rewrite Forall_forall in Hall.
      specialize (Hall gp Hin). unfold geom_gdf_row in Hr.
      apply bind_Ok in Hr as (ir & _ & Hr). apply bind_Ok in Hr as (fl & _ & Hr).
      injection Hr as <-. simpl. exact Hall.
    + intros Hun. unfold _model_geoms in E.
      rewrite (zonal_radius_unsupported _ Hun) in E. simpl in E. congruence.
Qed.

Lemma evolves_refl (db : list img_row) : evolves db db.
Proof. apply Forall2_same_length_lookup_2; [reflexivity|].
  intros i x y Hx Hy. rewrite Hx in Hy. injection Hy as <-. repeat split; auto. Qed.

Lemma evolves_trans (db1 db2 db3 : list img_row) :
  evolves db1 db2 -> evolves db2 db3 -> evolves db1 db3.
Proof.
  unfold evolves. intros H12 H23. revert db3 H23.
  induction H12 as [|x y l1 l2 Hxy H12 IH]; intros db3 H23.
  - inversion H23. constructor.
  - inversion H23 as [|? z ? l3 Hyz H23']; subst. constructor; [|auto].
    destruct Hxy as (?&?&?&?&?), Hyz as (?&?&?&?&?).
    repeat split; try congruence. auto.
Qed.

Lemma set_clouds_evolves (dt : string) (db : list img_row) :
  evolves db (set_clouds dt icos_na db).
Proof.
  unfold evolves, set_clouds. induction db as [|r db IH]; simpl; constructor; [|exact IH].
  destruct (String.eqb (dataTakeID r) dt); repeat split; auto.
Qed.

Lemma set_clouds_flags (dt : string) (db : list img_row) (r' : img_row) :
  r' ∈ set_clouds dt icos_na db -> dataTakeID r' = dt -> clouds r' = icos_na.
Proof.
  unfold set_clouds. change (map ?f ?l) with (f <$> l).
  intros Hin Hdt. apply list_elem_of_fmap in Hin as (r & -> & _).
  destruct (String.eqb (dataTakeID r) dt) eqn:E; [reflexivity|].
  apply String.eqb_neq in E. contradiction.
Qed.

Lemma evolves_lookup (db1 db2 : list img_row) (i : nat) (r1 : img_row) :
  evolves db1 db2 -> db1 !! i = Some r1 -> exists r2, db2 !! i = Some r2 /\ keeps r1 r2.
Proof. intros H Hi. eapply Forall2_lookup_l in H as (r2 & ? & ?); eauto. Qed.

Lemma evolves_lookup_r (db1 db2 : list img_row) (i : nat) (r2 : img_row) :
  evolves db1 db2 -> db2 !! i = Some r2 -> exists r1, db1 !! i = Some r1 /\ keeps r1 r2.
Proof. intros H Hi. eapply Forall2_lookup_r in H as (r1 & ? & ?); eauto. Qed.

Lemma enumerate_lookup {A : Type} (l : list A) (i : nat) (x : A) :
  l !! i = Some x -> enumerate l !! i = Some (i, x).
Proof.
  intros Hi. unfold enumerate. apply lookup_zip_with_Some.
  exists i, x. split; [reflexivity|]. split; [|exact Hi].
  apply lookup_seq_lt. eapply lookup_lt_Some; eauto.
Qed.

Section FootprintLoop.
Context (FFP : ffp_args -> result (list Q * list Q)).
Context (site : site_row) (era zonal : bool).
Context (icos_subset : list (Z * gmap string Q)) (ZM : list Q).
Context (fluxvars : list string) (missd : list Z).

Let step := model_geom FFP site era zonal icos_subset ZM fluxvars missd.
Let loop := model_loop FFP site era zonal icos_subset ZM fluxvars missd.

Lemma model_geom_evolves (db db' : list img_row) (g0 g : option geometry)
  (i ix : nat) (date : Z) (p : gmap string Q) :
  step db g0 i ix date = Ok (db', g, p) -> evolves db db'.
Proof.
  unfold step, model_geom. intros H.
  apply bind_Ok in H as (p0 & _ & H). destruct zonal.
  - injection H as <- _ _. apply evolves_refl.
  - apply bind_Ok in H as (p1 & _ & H). apply bind_Ok in H as (vals & _ & H).
    destruct (existsb is_sentinel vals || bool_decide (date ∈ map date_of missd)).
    + apply bind_Ok in H as (r & _ & H). injection H as <- _ _.
      apply set_clouds_evolves.
    + apply bind_Ok in H as (g1 & _ & H). injection H as <- _ _. apply evolves_refl.
Qed.

Lemma model_loop_evolves (dates : list (nat * (nat * Z))) (db db' : list img_row)
  (g0 : option geometry) (out : list (option geometry * gmap string Q)) :
  loop db g0 dates = Ok (db', out) -> evolves db db'.
Proof.
  unfold loop. revert db db' out.
  induction dates as [|[i [ix date]] dates IH]; intros db db' out H; simpl in H.
  - injection H as <- _. apply evolves_refl.
  - apply bind_Ok in H as ([[db1 g] p] & Hstep & H).
    apply bind_Ok in H as ([db2 out'] & Hrest & H). injection H as <- _.
    eapply evolves_trans; [eapply model_geom_evolves; exact Hstep|eauto].
Qed.

(** Each entry of the loop's output is the body run on the inventory as the
    earlier iterations left it. *)
Lemma model_loop_lookup (dates : list (nat * (nat * Z))) (db db' : list img_row)
  (g0 : option geometry) (out : list (option geometry * gmap string Q))
  (j i ix : nat) (date : Z) :
  loop db g0 dates = Ok (db', out) -> dates !! j = Some (i, (ix, date)) ->
  exists dbj dbj' g p,
    evolves db dbj /\ step dbj g0 i ix date = Ok (dbj', g, p) /\
    evolves dbj' db' /\ out !! j = Some (g, p).
Proof.
  unfold loop. revert db db' out j.
  induction dates as [|[i' [ix' date']] dates IH]; intros db db' out j H Hj;
    [discriminate|].
  simpl in H. apply bind_Ok in H as ([[db1 g] p] & Hstep & H).
  apply bind_Ok in H as ([db2 out'] & Hrest & H). injection H as <- <-.
  destruct j as [|j]; simpl in Hj.
  - injection Hj as -> -> ->. exists db, db1, g, p.
    split; [apply evolves_refl|]. split; [exact Hstep|].
    split; [eapply model_loop_evolves; exact Hrest|reflexivity].
  - destruct (IH _ _ _ _ Hrest Hj) as (dbj & dbj' & g' & p' & H1 & H2 & H3 & H4).
    exists dbj, dbj', g', p'. split; [|auto].
    eapply evolves_trans; [eapply model_geom_evolves; exact Hstep|exact H1].
Qed.
End FootprintLoop.

Lemma zero_series_lookup (l : list string) (v : string) :
  v ∈ l -> zero_series l !! v = Some 0%Q.
Proof.
  unfold zero_series. induction l as [|a l IH]; intros Hv; [now apply elem_of_nil in Hv|].
  simpl. rewrite lookup_insert. destruct (decide (a = v)) as [_|Hne]; [reflexivity|].
  apply elem_of_cons in Hv as [->|Hv]; [congruence|auto].
Qed.

Lemma loc_list_zero_series (fluxvars : list string) :
  loc_list (zero_series fluxvars) fluxvars = Ok (map (fun v => (v, 0%Q)) fluxvars).
Proof.
  unfold loc_list. apply mapM_Ok_intro. intros v Hv. unfold get.
  now rewrite zero_series_lookup.
Qed.

Lemma flux_missing_evolves (era : bool) (icos_subset : list (Z * gmap string Q))
  (missd : list Z) (db db' : list img_row) (ix : nat) (date : Z) :
  evolves db db' -> flux_missing era icos_subset missd db ix date ->
  flux_missing era icos_subset missd db' ix date.
Proof.
  intros Hev [Hd|(p0 & r & f & v & Hm & Hr & Hf & Hv & Hs)]; [now left|right].
  destruct (evolves_lookup _ _ _ _ Hev Hr) as (r' & Hr' & _ & _ & _ & Hera & _).
  exists p0, r', f, v. unfold ffp_record in *. rewrite <- Hera. auto.
Qed.

Section FlaggedStep.
Context (FFP : ffp_args -> result (list Q * list Q)).
Context (site : site_row) (era : bool).
Context (icos_subset : list (Z * gmap string Q)) (ZM : list Q).
Context (fluxvars : list string) (missd : list Z).

Let step := model_geom FFP site era false icos_subset ZM fluxvars missd.

Lemma sentinel_test (db : list img_row) (ix : nat) (date : Z) (p0 : gmap string Q)
  (r : img_row) (vals : list Q) :
  matched_record icos_subset date = Ok p0 -> db !! ix = Some r ->
  mapM (get (ffp_record era r p0)) required = Ok vals ->
  flux_missing era icos_subset missd db ix date ->
  existsb is_sentinel vals || bool_decide (date ∈ map date_of missd) = true.
Proof.
  intros Hm Hr Hvals [Hd|(p0' & r' & f & v & Hm' & Hr' & Hf & Hv & Hs)].
  - rewrite (bool_decide_true _ Hd). apply orb_true_r.
  - rewrite Hm in Hm'. injection Hm' as <-. rewrite Hr in Hr'. injection Hr' as <-.
    apply list_elem_of_lookup in Hf as [k Hk].
    destruct (mapM_Ok_lookup _ _ _ _ _ Hvals Hk) as (y & Hy & Hget).
    unfold get in Hget. rewrite Hv in Hget. injection Hget as <-.
    apply orb_true_iff. left. apply existsb_exists. exists v. split.
    + apply list_elem_of_In. eapply list_elem_of_lookup_2; eauto.
    + unfold is_sentinel. now apply Qeq_bool_iff.
Qed.

(** A flagged image never reaches the footprint model: once its record has
    the six fields, the body returns the null geometry and the zero series. *)
Lemma flagged_step_total (db : list img_row) (g0 : option geometry) (i ix : nat)
  (date : Z) (p0 : gmap string Q) (r : img_row) (vals : list Q) :
  matched_record icos_subset date = Ok p0 -> db !! ix = Some r ->
  mapM (get (ffp_record era r p0)) required = Ok vals ->
  flux_missing era icos_subset missd db ix date ->
  step db g0 i ix date
  = Ok (set_clouds (dataTakeID r) icos_na db, None, zero_series fluxvars).
Proof.
  intros Hm Hr Hvals Hmiss. unfold step, model_geom. rewrite Hm, bind_Ok_l.
  pose proof (sentinel_test _ _ _ _ _ _ Hm Hr Hvals Hmiss) as Hc.
  unfold ffp_record in Hvals. destruct era.
  - rewrite Hr. unfold of_option. rewrite !bind_Ok_l, Hvals, bind_Ok_l, Hc.
    reflexivity.
  - rewrite bind_Ok_l, Hvals, bind_Ok_l, Hc, Hr. reflexivity.
Qed.

Lemma flagged_step (db db' : list img_row) (g0 g : option geometry) (i ix : nat)
  (date : Z) (ps : gmap string Q) :
  step db g0 i ix date = Ok (db', g, ps) ->
  flux_missing era icos_subset missd db ix date ->
  exists r, db !! ix = Some r /\
    db' = set_clouds (dataTakeID r) icos_na db /\ g = None /\ ps = zero_series fluxvars.
Proof.
  intros H Hmiss. pose proof H as H0. unfold step, model_geom in H.
  apply bind_Ok in H as (p0 & Hm & H).
  apply bind_Ok in H as (p1 & Hp1 & H). apply bind_Ok in H as (vals & Hvals & H).
  assert (Hr : exists r, db !! ix = Some r /\ p1 = ffp_record era r p0).
  { unfold ffp_record. destruct era.
    - apply bind_Ok in Hp1 as (r & Hr & Hp1). injection Hp1 as <-.
      exists r. split; [|reflexivity]. now destruct (db !! ix); inversion Hr.
    - injection Hp1 as <-.
      destruct Hmiss as [Hd|(? & r & _ & _ & _ & Hr & _)]; [|eauto].
      rewrite (bool_decide_true _ Hd), orb_true_r in H.
      apply bind_Ok in H as (r & Hr & _). exists r. split; [|reflexivity].
      now destruct (db !! ix); inversion Hr. }
  destruct Hr as (r & Hr & ->). exists r. split; [exact Hr|].
  rewrite (flagged_step_total db g0 i ix date p0 r vals Hm Hr Hvals Hmiss) in H0.
  injection H0 as <- <- <-. auto.
Qed.
End FlaggedStep.

(** C1 (as the code has it, in footprint mode). When [_model_geoms] runs
    without [zonal] and an image's day is among the missing ones or a
    required field (WS, PBLH, MO_LENGTH, V_SIGMA, USTAR, WD) of its matched
    record is -9999, the returned row of that image has a null geometry, its
    quality annotation is "icos_na" (in the row and in every inventory row
    of that data-take), and every productivity variable is 0.  The loop body
    returns this without calling the footprint model. *)
Theorem missing_flux_data_null_geometry
  (FFP : ffp_args -> result (list Q * list Q)) (site : site_row) (era : bool)
  (icos_subset : list (Z * gmap string Q)) (ZM : list Q) (fluxvars : list string)
  (missd : list Z) (db db' : list img_row) (datelist : list (nat * Z))
  (rows : list geom_row) (i ix : nat) (date : Z) :
  _model_geoms FFP site era false icos_subset ZM fluxvars missd db datelist
    = Ok (db', rows) ->
  datelist !! i = Some (ix, date) ->
  flux_missing era icos_subset missd db ix date ->
  (exists r,
     rows !! i = Some r /\ g_geometry r = None /\ g_clouds r = icos_na /\
     g_flux r = map (fun v => (v, 0%Q)) fluxvars /\
     (forall r', r' ∈ db' -> dataTakeID r' = g_dataTakeID r -> clouds r' = icos_na)) /\
  (forall FFP' g0 p0 r0 vals,
     matched_record icos_subset date = Ok p0 -> db !! ix = Some r0 ->
     mapM (get (ffp_record era r0 p0)) required = Ok vals ->
     model_geom FFP' site era false icos_subset ZM fluxvars missd db g0 i ix date
     = Ok (set_clouds (dataTakeID r0) icos_na db, None, zero_series fluxvars)).
Proof.
  intros H Hi Hmiss. split.
  2:{ intros FFP' g0 p0 r0 vals Hm Hr Hvals. eapply flagged_step_total; eassumption. }
  unfold _model_geoms in H. rewrite bind_Ok_l in H.
  apply bind_Ok in H as ([db1 out] & Hloop & H).
  apply bind_Ok in H as (rows' & Hrows & H).
  assert (rows' = rows /\ db1 = db') as [-> ->].
  { destruct rows', fluxvars; try discriminate.
    destruct (_ && _); [|discriminate]. injection H as <- <-. auto. }
  destruct (model_loop_lookup _ _ _ _ _ _ _ _ _ _ _ _ _ i i ix date Hloop
              (enumerate_lookup _ _ _ Hi))
    as (dbj & dbj' & g & ps & Hev1 & Hstep & Hev2 & Hout).
  destruct (flagged_step _ _ _ _ _ _ _ _ _ _ _ _ _ _ _ Hstep
              (flux_missing_evolves _ _ _ _ _ _ _ Hev1 Hmiss))
    as (rj & Hrj & -> & -> & ->).
  assert (Hz : zip datelist out !! i = Some ((ix, date), (None, zero_series fluxvars))).
  { apply lookup_zip_with_Some. eauto. }
  destruct (mapM_Ok_lookup _ _ _ _ _ Hrows Hz) as (r & Hr & Hrow).
  unfold geom_gdf_row in Hrow. simpl in Hrow.
  apply bind_Ok in Hrow as (rfin & Hfin & Hrow).
  rewrite loc_list_zero_series, bind_Ok_l in Hrow. injection Hrow as <-.
  assert (Hfin' : db' !! ix = Some rfin) by (now destruct (db' !! ix); inversion Hfin).
  destruct (evolves_lookup _ _ _ _ (set_clouds_evolves (dataTakeID rj) dbj) Hrj)
    as (rj' & Hrj' & _ & _ & Hid & _).
  assert (Hflag : clouds rj' = icos_na).
  { eapply set_clouds_flags; [eapply list_elem_of_lookup_2; exact Hrj'|congruence]. }
  destruct (evolves_lookup _ _ _ _ Hev2 Hrj') as (rf & Hrf & _ & _ & Hid' & _ & Hkeep).
  rewrite Hfin' in Hrf. injection Hrf as <-.
  exists {| g_name := name rfin; g_startdate := startdate rfin;
            g_dataTakeID := dataTakeID rfin; g_clouds := clouds rfin;
            g_geometry := None; g_flux := map (fun v => (v, 0%Q)) fluxvars |}.
  simpl. split; [exact Hr|]. split; [reflexivity|]. split; [auto|].
  split; [reflexivity|]. intros r' Hin Hdt.
  apply list_elem_of_lookup in Hin as [k Hk].
  destruct (evolves_lookup_r _ _ _ _ Hev2 Hk) as (r1 & Hr1 & _ & _ & Hid1 & _ & Hkeep1).
  apply Hkeep1. eapply set_clouds_flags; [eapply list_elem_of_lookup_2; exact Hr1|].
  congruence.
Qed.

Lemma missing_flux_data_null_geometry_witness :
  exists db' rows,
    _model_geoms ffp_diamond site_rus false false subset_ffp [1.5; 1.5]%Q fluxvars6
      missd_dummy db2 datelist2 = Ok (db', rows) /\
    datelist2 !! 1%nat = Some (1%nat, d_2021_04_20) /\
    flux_missing false subset_ffp missd_dummy db2 1 d_2021_04_20 /\
    exists r,
      rows !! 1%nat = Some r /\ g_geometry r = None /\ g_clouds r = icos_na /\
      g_flux r = map (fun v => (v, 0%Q)) fluxvars6.
Proof.
  destruct (_model_geoms ffp_diamond site_rus false false subset_ffp [1.5; 1.5]%Q
              fluxvars6 missd_dummy db2 datelist2) as [[db' rows]|e] eqn:E;
    [|vm_compute in E; discriminate].
  assert (Hd : datelist2 !! 1%nat = Some (1%nat, d_2021_04_20)) by reflexivity.
  assert (Hm : flux_missing false subset_ffp missd_dummy db2 1 d_2021_04_20).
  { right. eexists _, _, "WS", sentinel. split; [reflexivity|].
    split; [reflexivity|]. split; [|split; reflexivity].
    unfold required. rewrite elem_of_cons. now left. }
  exists db', rows. split; [reflexivity|]. split; [exact Hd|]. split; [exact Hm|].
  destruct (missing_flux_data_null_geometry _ _ _ _ _ _ _ _ _ _ _ _ _ _ E Hd Hm)
    as [(r & H1 & H2 & H3 & H4 & _) _].
  exists r. auto.
Defined.

(** The zonal path of C1: the second acquisition has no flux record, yet its
    row keeps the 30 m buffer, its annotation is untouched and its
    productivity variables are the sentinel, not zero. *)
Lemma zonal_missing_flux_keeps_buffer :
  flux_missing false subset_zonal missd_second db2 1 d_2021_04_20 /\
  exists db' rows r,
    _model_geoms ffp_diamond site_rus false true subset_zonal [sentinel; sentinel]
      fluxvars6 missd_second db2 datelist2 = Ok (db', rows) /\
    rows !! 1%nat = Some r /\
    g_geometry r = Some (Buffer (loc_x site_rus) (loc_y site_rus) 30) /\
    g_geometry r <> None /\ g_clouds r = "" /\ g_clouds r <> icos_na /\
    g_flux r = map (fun v => (v, sentinel)) fluxvars6 /\
    g_flux r <> map (fun v => (v, 0%Q)) fluxvars6.
Proof.
  split.
  - left. unfold missd_second. simpl. rewrite list_elem_of_singleton. reflexivity.
  - eexists _, _, _. split; [vm_compute; reflexivity|].
    split; [reflexivity|]. simpl. repeat split; discriminate.
Qed.

(** ** Spectral cropper *)

Section CropLoop.
Context (local_mask : img_file -> geometry -> result (list (list Q))).
Context (upw : bool) (na_val : Q) (wl_min wl_max : nat).

Lemma crop_loop_lookup (work : list (geom_row * img_file)) (db db' : list img_row)
  (out : list (geom_row * px_avg * option (list (list (option Q)))))
  (i : nat) (row : geom_row) (f : img_file) :
  crop_loop local_mask upw na_val wl_min wl_max db work = Ok (db', out) ->
  work !! i = Some (row, f) ->
  exists dbi dbi' row' avg c,
    crop_one local_mask upw na_val wl_min wl_max dbi row f = Ok (dbi', row', avg, c) /\
    out !! i = Some (row', avg, c).
Proof.
  revert db db' out i. induction work as [|[row0 f0] work IH]; intros db db' out i H Hi;
    [discriminate|].
  simpl in H. apply bind_Ok in H as ([[[db1 row1] avg1] c1] & Hone & H).
  apply bind_Ok in H as ([db2 out'] & Hrest & H). injection H as <- <-.
  destruct i as [|i]; simpl in Hi.
  - injection Hi as -> ->. exists db, db1, row1, avg1, c1. auto.
  - destruct (IH _ _ _ _ Hrest Hi) as (dbi & dbi' & row' & avg & c & H1 & H2).
    exists dbi, dbi', row', avg, c. auto.
Qed.
End CropLoop.

(** With upwelling radiance on, a record whose PAR is the sentinel is
    skipped by the loop body, whatever the mask would do. *)
Lemma crop_one_missing_par (local_mask : img_file -> geometry -> result (list (list Q)))
  (na_val : Q) (wl_min wl_max : nat) (db : list img_row) (row : geom_row)
  (f : img_file) (par : Q) :
  (list_to_map (g_flux row) : gmap string Q) !! "PAR" = Some par ->
  (par == sentinel)%Q ->
  crop_one local_mask true na_val wl_min wl_max db row f
  = Ok (db, row, Scalar sentinel, None).
Proof.
  intros Hpar Hs. unfold crop_one. rewrite Hpar.
  assert (E : is_sentinel par = true) by (now apply Qeq_bool_iff).
  destruct (String.eqb (g_clouds row) icos_na); simpl; [reflexivity|].
  now rewrite E.
Qed.

(** C7. In upwelling-radiance mode a record whose matched PAR is -9999 is
    not cropped and not multiplied: whatever the mask and the image, the
    loop body returns the scalar -9999 without a cube, and in the returned
    frame every band column of that record holds the missing marker
    -9999. *)
Theorem upwelling_skips_missing_par
  (local_mask : img_file -> geometry -> result (list (list Q)))
  (sensor : string) (img_dir : string -> list img_file) (db db' : list img_row)
  (gdf : list geom_row) (sr : string) (rows : list hsi_row) (cl : cube_list)
  (i : nat) (row : geom_row) (par : Q) :
  _crop_hsi_2_geoms local_mask sensor img_dir true db gdf sr = Ok (db', rows, cl) ->
  gdf !! i = Some row ->
  (list_to_map (g_flux row) : gmap string Q) !! "PAR" = Some par ->
  (par == sentinel)%Q ->
  (exists nbands,
     rows !! i = Some {| h_row := row;
                         h_bands := map (fun n => (n, Some sentinel)) (sr_band_ix nbands) |}) /\
  (exists cs, cl = Cubes cs /\ cs !! i = Some None) /\
  (forall mask' na_val wl_min wl_max dbx f,
     crop_one mask' true na_val wl_min wl_max dbx row f
     = Ok (dbx, row, Scalar sentinel, None)).
Proof.
  intros H Hi Hpar Hs.
  assert (Hskip : forall mask' na_val wl_min wl_max dbx f,
            crop_one mask' true na_val wl_min wl_max dbx row f
            = Ok (dbx, row, Scalar sentinel, None)).
  { intros. eapply crop_one_missing_par; eassumption. }
  unfold _crop_hsi_2_geoms in H. apply bind_Ok in H as (files & Hfiles & H).
  apply bind_Ok in H as (f0 & _ & H).
  apply bind_Ok in H as ([[lo hi] nbands] & _ & H).
  apply bind_Ok in H as (na & _ & H).
  apply bind_Ok in H as ([db1 out] & Hloop & H).
  apply bind_Ok in H as (rows' & Hrows & H). injection H as <- <- <-.
  destruct (mapM_Ok_lookup _ _ _ _ _ Hfiles Hi) as (f & Hf & _).
  assert (Hz : zip gdf files !! i = Some (row, f)).
  { apply lookup_zip_with_Some. eauto. }
  destruct (crop_loop_lookup _ _ _ _ _ _ _ _ _ _ _ _ Hloop Hz)
    as (dbi & dbi' & row' & avg & c & Hone & Ho).
  rewrite Hskip in Hone. injection Hone as <- <- <- <-.
  split; [|split; [|exact Hskip]].
  - destruct (mapM_Ok_lookup _ _ _ _ _ Hrows Ho) as (y & Hy & Hb).
    simpl in Hb. injection Hb as <-. exists nbands. exact Hy.
  - assert (Hc : map snd out !! i = Some None).
    { change (map snd out) with (snd <$> out). now rewrite list_lookup_fmap, Ho. }
    exists (map snd out). split; [|exact Hc].
    unfold cube_list_of. destruct (map snd out) as [|[c0|] [|c1 t]]; try reflexivity.
    destruct i; simpl in Hc; discriminate.
Qed.

Lemma upwelling_skips_missing_par_witness :
  exists db' rows cl row,
    _crop_hsi_2_geoms mask_buffer_only "PRISMA" dir2 true db2 gdf_upw "vis"
      = Ok (db', rows, cl) /\
    gdf_upw !! 1%nat = Some row /\
    (list_to_map (g_flux row) : gmap string Q) !! "PAR" = Some sentinel /\
    (sentinel == sentinel)%Q /\
    exists nbands,
      rows !! 1%nat
      = Some {| h_row := row;
                h_bands := map (fun n => (n, Some sentinel)) (sr_band_ix nbands) |}.
Proof.
  destruct (_crop_hsi_2_geoms mask_buffer_only "PRISMA" dir2 true db2 gdf_upw "vis")
    as [[[db' rows] cl]|e] eqn:E; [|vm_compute in E; discriminate].
  exists db', rows, cl. eexists. split; [reflexivity|].
  split; [reflexivity|]. split; [reflexivity|]. split; [reflexivity|].
  apply (upwelling_skips_missing_par _ _ _ _ _ _ _ _ _ 1%nat _ sentinel E
           eq_refl eq_refl ltac:(reflexivity)).
Defined.

(** ** Band columns and the band-length gate *)

Lemma band_name_three_digits (x : nat) :
  (x <= 999)%nat -> "b" +:+ zfill3 (str x) = three_digit_name x.
Proof.
  intros Hx.
  assert (Hall : forallb (fun x => String.eqb ("b" +:+ zfill3 (str x)) (three_digit_name x))
                   (seq 0 1000) = true) by (vm_compute; reflexivity).
  rewrite forallb_forall in Hall. apply String.eqb_eq, Hall.
  apply in_seq. lia.
Qed.

Lemma sr_band_ix_lookup (nbands k : nat) :
  (k < nbands)%nat -> sr_band_ix nbands !! k = Some ("b" +:+ zfill3 (str (S k))).
Proof.
  intros Hk. unfold sr_band_ix. change (map ?f ?l) with (f <$> l).
  rewrite list_lookup_fmap, lookup_seq_lt by exact Hk. reflexivity.
Qed.

Lemma py_slice_length_retained (wls : list Q) (a b : nat) :
  length (py_slice wls a b) = length (retained wls a b).
Proof.
  unfold retained, py_slice. rewrite !length_take, !length_drop, length_seq. reflexivity.
Qed.

Lemma band_series_names (names : list string) (vals : px_avg)
  (b : list (string * option Q)) :
  band_series names vals = Ok b -> b.*1 = names.
Proof.
  destruct vals as [v|m]; simpl.
  - intros H. injection H as <-. change (map ?f ?l) with (f <$> l).
    rewrite <- list_fmap_compose. simpl. apply list_fmap_id.
  - destruct (length m =? length names)%nat eqn:E; [|discriminate].
    intros H. injection H as <-. apply Nat.eqb_eq in E.
    apply fst_zip. lia.
Qed.

Lemma mapM_Raise_inv {A B : Type} (f : A -> result B) (l : list A) (e : exn) :
  mapM f l = Raise e -> exists x, x ∈ l /\ f x = Raise e.
Proof.
  induction l as [|a l IH]; simpl; [discriminate|].
  destruct (f a) as [y|e'] eqn:Ea; simpl.
  - destruct (mapM f l) as [k|e'']; simpl; [discriminate|].
    intros H. injection H as ->. destruct IH as (x & Hx & Hfx); [reflexivity|].
    exists x. split; [now right|exact Hfx].
  - intros H. injection H as ->. exists a. split; [left|exact Ea].
Qed.

Lemma mapM_raises {A B : Type} (f : A -> result B) (l : list A) (x : A) (e : exn) :
  x ∈ l -> f x = Raise e -> ~ is_ok (mapM f l).
Proof.
  intros Hx Hf [l' Hl]. apply list_elem_of_lookup in Hx as [i Hi].
  destruct (mapM_Ok_lookup _ _ _ _ _ Hl Hi) as (y & _ & Hy). congruence.
Qed.

Lemma gate_rejects (overwrite : bool) (site : string) (scenes : list scene)
  (s1 s2 : scene) (w1 w2 : list Q) :
  s1 ∈ scenes -> s2 ∈ scenes -> decoded overwrite s1 w1 -> decoded overwrite s2 w2 ->
  length w1 <> length w2 ->
  exists msg, crs_and_cropping_site overwrite (site, scenes) = Raise (ValueError msg).
Proof.
  intros H1 H2 [Hd1 Hs1] [Hd2 Hs2] Hne. unfold crs_and_cropping_site. simpl.
  assert (Hall : forallb crop_exists scenes && negb overwrite = false).
  { destruct overwrite; [apply andb_false_r|]. simpl in *. rewrite andb_true_r in *.
    apply not_true_is_false. intros Hf. rewrite forallb_forall in Hf.
    apply list_elem_of_In, Hf in H1. congruence. }
  rewrite Hall.
  destruct (mapM (scene_blength site overwrite) scenes) as [l|e] eqn:El.
  - simpl.
    assert (Hin : forall s w, s ∈ scenes -> decoded overwrite s w ->
              length w ∈ remove_dups (omap id l)).
    { intros s w Hs [Hd Hsrc]. apply elem_of_remove_dups.
      apply list_elem_of_lookup in Hs as [i Hi].
      destruct (mapM_Ok_lookup _ _ _ _ _ El Hi) as (y & Hy & Hf).
      unfold scene_blength in Hf. rewrite Hd, Hsrc in Hf. injection Hf as <-.
      apply list_elem_of_omap. exists (Some (length w)). split; [|reflexivity].
      eapply list_elem_of_lookup_2; eauto. }
    pose proof (Hin s1 w1 H1 (conj Hd1 Hs1)) as Ha.
    pose proof (Hin s2 w2 H2 (conj Hd2 Hs2)) as Hb.
    destruct (remove_dups (omap id l)) as [|x [|y t]] eqn:Er.
    + now apply elem_of_nil in Ha.
    + apply list_elem_of_singleton in Ha, Hb. congruence.
    + simpl. eauto.
  - simpl. apply mapM_Raise_inv in El as (s & _ & Hs). unfold scene_blength in Hs.
    destruct (crop_exists s && negb overwrite); [discriminate|].
    destruct (sources s) as [|? [|? ?]]; try discriminate.
    injection Hs as <-. eauto.
Qed.

(** C9 (as the code has it). In the frame [_crop_hsi_2_geoms] returns, every
    record carries the same band columns: one per wavelength of the first
    image kept by the spectral window, named 'b' plus the ordinal from 1,
    zero-padded to three digits (exactly three digits up to 999 bands), so
    the names depend on the band count only.  In [crs_and_cropping] two
    images of one site that the same call decodes with different band
    counts make the call fail with a [ValueError]. *)
Theorem band_columns_by_ordinal
  (local_mask : img_file -> geometry -> result (list (list Q)))
  (sensor : string) (img_dir : string -> list img_file) (upw : bool)
  (db db' : list img_row) (gdf : list geom_row) (sr : string)
  (rows : list hsi_row) (cl : cube_list) :
  _crop_hsi_2_geoms local_mask sensor img_dir upw db gdf sr = Ok (db', rows, cl) ->
  (exists r0 f0 lo hi nbands,
     gdf !! 0%nat = Some r0 /\ img_dir (g_dataTakeID r0) = [f0] /\
     band_window (wavelengths f0) sr = Ok (lo, hi, nbands) /\
     nbands = length (retained (wavelengths f0) lo hi) /\
     Forall (fun r => (h_bands r).*1 = sr_band_ix nbands) rows) /\
  (forall nbands,
     length (sr_band_ix nbands) = nbands /\
     forall k, (k < nbands)%nat ->
       sr_band_ix nbands !! k = Some ("b" +:+ zfill3 (str (S k))) /\
       ((S k <= 999)%nat -> "b" +:+ zfill3 (str (S k)) = three_digit_name (S k))) /\
  (forall overwrite site scenes s1 s2 w1 w2,
     s1 ∈ scenes -> s2 ∈ scenes ->
     decoded overwrite s1 w1 -> decoded overwrite s2 w2 -> length w1 <> length w2 ->
     (exists msg, crs_and_cropping_site overwrite (site, scenes) = Raise (ValueError msg)) /\
     forall icos_list, (site, scenes) ∈ icos_list ->
       ~ is_ok (crs_and_cropping overwrite icos_list)).
Proof.
  intros H. split; [|split].
  - unfold _crop_hsi_2_geoms in H. apply bind_Ok in H as (files & Hfiles & H).
    apply bind_Ok in H as (f0 & Hf0 & H).
    apply bind_Ok in H as ([[lo hi] nbands] & Hwin & H).
    apply bind_Ok in H as (na & _ & H).
    apply bind_Ok in H as ([db1 out] & Hloop & H).
    apply bind_Ok in H as (rows' & Hrows & H). injection H as <- <- <-.
    destruct files as [|f1 files]; [discriminate|]. simpl in Hf0. injection Hf0 as ->.
    destruct gdf as [|r0 gdf']; [discriminate|].
    simpl in Hfiles. apply bind_Ok in Hfiles as (f1 & Hopen & Hrest).
    apply bind_Ok in Hrest as (k & _ & Hrest). injection Hrest as -> _.
    exists r0, f0, lo, hi, nbands. split; [reflexivity|].
    assert (Hdir : img_dir (g_dataTakeID r0) = [f0]).
    { unfold open_image in Hopen.
      destruct (img_dir (g_dataTakeID r0)) as [|a [|b t]]; try discriminate.
      injection Hopen as ->. reflexivity. }
    split; [exact Hdir|]. split; [exact Hwin|]. split.
    + unfold band_window in Hwin. apply bind_Ok in Hwin as (a & _ & Hwin).
      apply bind_Ok in Hwin as (m & _ & Hwin). apply bind_Ok in Hwin as (b & _ & Hwin).
      injection Hwin as <- <- <-. apply py_slice_length_retained.
    + eapply mapM_Ok_Forall; [exact Hrows|]. intros o r _ Hr. simpl in Hr.
      apply bind_Ok in Hr as (bs & Hbs & Hr). injection Hr as <-. simpl.
      eapply band_series_names; exact Hbs.
  - intros nbands. split.
    + unfold sr_band_ix. now rewrite length_map, length_seq.
    + intros k Hk. split; [now apply sr_band_ix_lookup|].
      apply band_name_three_digits.
  - intros overwrite site scenes s1 s2 w1 w2 H1 H2 Hd1 Hd2 Hne.
    destruct (gate_rejects overwrite site scenes s1 s2 w1 w2 H1 H2 Hd1 Hd2 Hne)
      as [msg Hmsg].
    split; [eauto|]. intros icos_list Hin.
    eapply mapM_raises; [exact Hin|exact Hmsg].
Qed.

Lemma band_columns_by_ordinal_witness :
  exists db' rows cl,
    _crop_hsi_2_geoms mask_whole "PRISMA" dir2 false db2 gdf_ok "vis" = Ok (db', rows, cl) /\
    exists nbands, Forall (fun r => (h_bands r).*1 = sr_band_ix nbands) rows.
Proof.
  destruct (_crop_hsi_2_geoms mask_whole "PRISMA" dir2 false db2 gdf_ok "vis")
    as [[[db' rows] cl]|e] eqn:E; [|vm_compute in E; discriminate].
  exists db', rows, cl. split; [reflexivity|].
  destruct (band_columns_by_ordinal _ _ _ _ _ _ _ _ _ _ E)
    as [(r0 & f0 & lo & hi & nbands & _ & _ & _ & _ & Hall) _].
  exists nbands. exact Hall.
Defined.

(** Where C9 fails as stated: images with different band counts pass.  A
    site whose first image was cropped by an earlier call (overwrite off)
    and whose new image has five bands instead of four passes the gate, and
    so do two sites with four and five bands; the cropper then aggregates
    the four-band and the five-band image of one site into the same three
    visible columns. *)
Lemma mixed_band_counts_accepted :
  crs_and_cropping false [("DE-RuS", [scene_done4; scene_new5])] = Ok [[5%nat]] /\
  crs_and_cropping true [("DE-RuS", [scene_new4]); ("DE-Hai", [scene_new5])]
    = Ok [[4%nat]; [5%nat]] /\
  length (wavelengths file4) <> length (wavelengths file5) /\
  exists db' rows cl,
    _crop_hsi_2_geoms mask_whole "PRISMA" dir2 false db2 gdf_ok "vis" = Ok (db', rows, cl) /\
    length rows = 2%nat /\
    Forall (fun r => (h_bands r).*1 = ["b001"; "b002"; "b003"]) rows.
Proof.
  split; [reflexivity|]. split; [reflexivity|]. split; [discriminate|].
  eexists _, _, _. split; [vm_compute; reflexivity|]. split; [reflexivity|].
  repeat constructor.
Qed.

(** Beyond 999 bands the ordinal takes four digits. *)
Example band_name_four_digits : sr_band_ix 1000 !! 999%nat = Some "b1000".
Proof. vm_compute. reflexivity. Qed.

(** ** Orchestrator: upwelling radiance forces the visible window *)



(** A two-site run asked for 'vnir' with upwelling radiance: three visible
    band columns per record, and the file is saved under the 'vis' name. *)
Example upwelling_run_saves_vis :
  exists out,
    hsi_geom_crop ffp_diamond mask_whole "PRISMA" dir3 (fun _ => 1%nat) db3
      [in_rus; in_hte] None "vnir" false true "na" true = Ok out /\
    o_saved out = Some "all_sites_PRISMA_vis_ffp_upw_na.gpkg" /\
    Forall (fun r => (h_bands r).*1 = ["b001"; "b002"; "b003"]) (o_gdf out) /\
    g_dataTakeID <$> (h_row <$> o_gdf out) = ["20200615104112"; "20200615105003"].
Proof.
  eexists. split; [vm_compute; reflexivity|]. split; [reflexivity|].
  split; [repeat constructor|reflexivity].
Qed.

(** * Further properties of the modelled code *)

(** ** [_load_icos_subset]: what the entries of [ZM] can be *)

Lemma height_above_displacement_inv (hs : height_src) (ins : list (Z * inst_row))
  (Zh : list (Z * Z)) (idate : Z) (zm : Q) :
  height_above_displacement hs ins Zh idate = Ok zm ->
  exists D Zs, canopy_height hs idate = Ok D /\ sensor_height ins Zh idate = Ok Zs /\
    (D <= Zs)%Q /\ zm = (Zs - D)%Q.
Proof.
  unfold height_above_displacement. intros H.
  apply bind_Ok in H as (D & HD & H). apply bind_Ok in H as (Zs & HZ & H).
  destruct (Qltb Zs D) eqn:E; [discriminate|]. injection H as <-.
  exists D, Zs. apply Qltb_ge in E. auto.
Qed.

Lemma zm_loop_entries (hs : height_src) (ins : list (Z * inst_row)) (Zh : list (Z * Z))
  (missd : list Z) (dates : list (nat * Z)) (ZM ZM' : list Q) :
  zm_loop hs ins Zh missd dates ZM = Ok ZM' ->
  length ZM' = length ZM /\
  (forall i, i ∉ dates.*1 -> ZM' !! i = ZM !! i) /\
  (NoDup dates.*1 -> forall i d, (i, d) ∈ dates -> (i < length ZM)%nat ->
     (d ∈ map date_of missd -> ZM' !! i = ZM !! i) /\
     (d ∉ map date_of missd ->
        exists zm, height_above_displacement hs ins Zh d = Ok zm /\ ZM' !! i = Some zm)).
Proof.
  revert ZM. induction dates as [|[j dj] dates IH]; intros ZM H; simpl in H.
  - injection H as <-. split; [reflexivity|]. split; [reflexivity|].
    intros _ i d Hin. now apply elem_of_nil in Hin.
  - destruct (bool_decide (dj ∈ map date_of missd)) eqn:Em.
    + apply bool_decide_eq_true in Em.
      destruct (IH _ H) as (Hlen & Hkeep & Hset).
      split; [exact Hlen|]. split.
      * intros i Hi. apply Hkeep. intros Hc. apply Hi. simpl. now right.
      * intros Hnd i d Hin Hi. simpl in Hnd. apply NoDup_cons in Hnd as [Hj Hnd].
        apply elem_of_cons in Hin as [Heq|Hin].
        { injection Heq as -> ->. split; [|contradiction].
          intros _. now apply Hkeep. }
        now apply Hset.
    + apply bool_decide_eq_false in Em.
      apply bind_Ok in H as (zm & Hzm & H).
      destruct (IH _ H) as (Hlen & Hkeep & Hset). rewrite length_insert in Hlen.
      split; [exact Hlen|]. split.
      * intros i Hi. rewrite Hkeep.
        { apply list_lookup_insert_ne. intros ->. apply Hi. simpl. left. }
        intros Hc. apply Hi. simpl. now right.
      * intros Hnd i d Hin Hi. simpl in Hnd. apply NoDup_cons in Hnd as [Hj Hnd].
        apply elem_of_cons in Hin as [Heq|Hin].
        { injection Heq as -> ->. split; [contradiction|]. intros _.
          exists zm. split; [exact Hzm|]. rewrite Hkeep by exact Hj.
          now apply list_lookup_insert_eq. }
        destruct (Hset Hnd i d Hin) as [Ha Hb]; [now rewrite length_insert|].
        split; [|exact Hb]. intros Hd. rewrite (Ha Hd).
        apply list_lookup_insert_ne. intros ->. apply Hj.
        apply list_elem_of_fmap. exists (i, d). auto.
Qed.

Lemma enumerate_fst {A : Type} (l : list A) : (enumerate l).*1 = seq 0 (length l).
Proof. unfold enumerate. apply fst_zip. now rewrite length_seq. Qed.

Lemma enumerate_elem_lookup {A : Type} (l : list A) (i : nat) (x : A) :
  l !! i = Some x -> (i, x) ∈ enumerate l.
Proof. intros H. eapply list_elem_of_lookup_2. now apply enumerate_lookup. Qed.

(** X1. Whenever [_load_icos_subset] returns, [ZM] has one entry per image:
    the sentinel -9999 in zonal mode and for images whose day is among the
    missing ones, and otherwise the sensor height minus the canopy height
    resolved for that day, which is never negative. *)
Theorem ZM_sentinel_or_height (cls : string) (anc : ancillary) (ins : list (Z * inst_row))
  (datelist missd : list Z) (zonal : bool) (ZM : list Q) :
  _load_icos_subset cls anc ins datelist missd zonal = Ok ZM ->
  length ZM = length datelist /\
  forall i d, datelist !! i = Some d ->
    if zonal || bool_decide (d ∈ map date_of missd) then ZM !! i = Some sentinel
    else exists hs Zh D Zs,
      height_source cls anc = Ok hs /\ Z_hdates ins = Ok Zh /\
      canopy_height hs d = Ok D /\ sensor_height ins Zh d = Ok Zs /\
      ZM !! i = Some (Zs - D)%Q /\ (0 <= Zs - D)%Q.
Proof.
  unfold _load_icos_subset. intros H. destruct zonal.
  - injection H as <-. split; [apply length_replicate|].
    intros i d Hi. simpl. apply lookup_replicate_2. eapply lookup_lt_Some; eauto.
  - apply bind_Ok in H as (hs & Hhs & H). apply bind_Ok in H as (Zh & HZh & H).
    destruct (zm_loop_entries _ _ _ _ _ _ _ H) as (Hlen & _ & Hset).
    rewrite length_replicate in Hlen. split; [exact Hlen|].
    intros i d Hi. simpl.
    assert (Hlt : (i < length datelist)%nat) by (eapply lookup_lt_Some; eauto).
    destruct (Hset ltac:(rewrite enumerate_fst; apply NoDup_seq) i d
                (enumerate_elem_lookup _ _ _ Hi)
                ltac:(now rewrite length_replicate)) as [Ha Hb].
    destruct (bool_decide (d ∈ map date_of missd)) eqn:Em.
    + apply bool_decide_eq_true in Em. rewrite (Ha Em).
      now apply lookup_replicate_2.
    + apply bool_decide_eq_false in Em. destruct (Hb Em) as (zm & Hzm & Hl).
      apply height_above_displacement_inv in Hzm as (D & Zs & HD & HZ & Hle & ->).
      exists hs, Zh, D, Zs. repeat (split; [assumption|]).
      now apply Qle_minus_iff in Hle.
Qed.

Lemma ZM_sentinel_or_height_witness :
  exists ZM,
    _load_icos_subset "CRO" anc_low ins_two [d_2020_06_15; d_2021_04_20]
      missd_second false = Ok ZM /\
    length ZM = 2%nat /\ ZM !! 1%nat = Some sentinel /\
    exists D Zs, ZM !! 0%nat = Some (Zs - D)%Q /\ (0 <= Zs - D)%Q.
Proof.
  destruct (_load_icos_subset "CRO" anc_low ins_two [d_2020_06_15; d_2021_04_20]
              missd_second false) as [ZM|e] eqn:E; [|vm_compute in E; discriminate].
  exists ZM. split; [reflexivity|].
  destruct (ZM_sentinel_or_height _ _ _ _ _ _ _ E) as [Hlen Hent].
  split; [exact Hlen|]. split.
  - exact (Hent 1%nat d_2021_04_20 eq_refl).
  - destruct (Hent 0%nat d_2020_06_15 eq_refl) as (hs & Zh & D & Zs & _ & _ & _ & _ & H1 & H2).
    exists D, Zs. auto.
Defined.

(** ** [_icos_height_aux]: which canopy-height records are used *)

Lemma hdates_of_elem (sel : list (Z * heightc_row)) (g d : Z) :
  (g, d) ∈ hdates_of sel -> exists r, (g, r) ∈ sel /\ HEIGHTC_DATE r = d.
Proof.
  unfold hdates_of. change (map ?f ?l) with (f <$> l).
  intros H. apply list_elem_of_fmap in H as ([g' r] & Heq & Hin).
  simpl in Heq. injection Heq as -> ->. eauto.
Qed.

(** X2. When [_icos_height_aux] returns, it has selected at least one
    record of the GRP_HEIGHTC group; the selected records are
    75th-percentile records whenever the group has any, and mean or
    single-observation records only otherwise; and the averaging flag
    [D_avg] is set only when there is no 75th-percentile record and every
    record is per species, the selection then being the per-species
    means. *)
Theorem height_aux_prefers_p75 (anc : ancillary) (w : list (Z * heightc_row))
  (hd : list (Z * Z)) (avg : bool) :
  _icos_height_aux anc = Ok (w, hd, avg) ->
  w = GRP_HEIGHTC anc /\ hd <> [] /\
  (forall g d, (g, d) ∈ hd ->
     exists r, (g, r) ∈ w /\ HEIGHTC_DATE r = d /\
       (if existsb (fun r => stat_is P75 r.2) w then stat_is P75 r = true
        else stat_is MeanSingle r = true) /\
       (if avg then stat_is ["Mean"] r = true /\ spp_isnull r = false
        else anc_has_spp anc = true -> spp_isnull r = true)) /\
  (avg = true ->
     existsb (fun r => stat_is P75 r.2) w = false /\
     forall r, r ∈ w -> spp_isnull r.2 = false).
Proof.
  unfold _icos_height_aux. intros H.
  apply bind_Ok in H as (w0 & Hw0 & H).
  assert (w0 = GRP_HEIGHTC anc) as ->.
  { unfold stat_column in Hw0. destruct (existsb _ _); congruence. }
  apply bind_Ok in H as ([sel a] & Hsel & H).
  destruct sel as [|s0 sel'] eqn:Es; [discriminate|]. rewrite <- Es in *.
  assert (Hne : sel <> []) by (rewrite Es; discriminate). clear Es.
  injection H as <- <- <-.
  split; [reflexivity|]. split.
  { unfold hdates_of. destruct sel; [congruence|discriminate]. }
  set (w := GRP_HEIGHTC anc) in *.
  assert (Hmean : forall r : heightc_row, stat_is ["Mean"] r = true ->
            stat_is MeanSingle r = true).
  { intros r. unfold stat_is, MeanSingle. destruct (HEIGHTC_STATISTIC r); [|auto].
    rewrite !bool_decide_eq_true, !elem_of_cons. tauto. }
  destruct (existsb (fun r => stat_is P75 r.2) w) eqn:E75;
    destruct (anc_has_spp anc) eqn:Espp; simpl in Hsel.
  - (* P75 records, species entries in the file *)
    apply bind_Ok in Hsel as (w' & Hw' & Hsel).
    destruct (existsb (fun r => spp_isnull r.2) w'); [|discriminate].
    injection Hsel as <- <-. split; [|discriminate].
    intros g d Hin. apply hdates_of_elem in Hin as (r & Hin & Hd).
    apply list_elem_of_filter in Hin as [Hp Hin]. simpl in Hp.
    apply Is_true_true, andb_true_iff in Hp as [Hp1 Hp2]. eauto 7.
  - (* P75 records, no species entries *)
    injection Hsel as <- <-. split; [|discriminate].
    intros g d Hin. apply hdates_of_elem in Hin as (r & Hin & Hd).
    apply list_elem_of_filter in Hin as [Hp Hin]. simpl in Hp.
    apply Is_true_true in Hp. exists r. repeat split; auto. discriminate.
  - (* no P75 record, species entries in the file *)
    destruct (existsb (fun r => stat_is MeanSingle r.2) w) eqn:Em; simpl in Hsel.
    + apply bind_Ok in Hsel as (w' & Hw' & Hsel).
      assert (w' = w) as ->.
      { unfold spp_column in Hw'. destruct (existsb _ _) in Hw'; [|discriminate].
        now injection Hw'. }
      destruct (existsb (fun r => spp_isnull r.2) w) eqn:En.
      * injection Hsel as <- <-. split; [|discriminate].
        intros g d Hin. apply hdates_of_elem in Hin as (r & Hin & Hd).
        apply list_elem_of_filter in Hin as [Hp Hin]. simpl in Hp.
        apply Is_true_true, andb_true_iff in Hp as [Hp1 Hp2]. eauto 7.
      * injection Hsel as <- <-. split.
        { intros g d Hin. apply hdates_of_elem in Hin as (r & Hin & Hd).
          apply list_elem_of_filter in Hin as [Hp Hin]. simpl in Hp.
          apply Is_true_true, andb_true_iff in Hp as [Hp1 Hp2].
          apply negb_true_iff in Hp2. exists r. auto 7. }
        intros _. split; [reflexivity|]. intros r Hr.
        destruct (spp_isnull r.2) eqn:Er; [|reflexivity].
        assert (existsb (fun r => spp_isnull r.2) w = true); [|congruence].
        apply existsb_exists. exists r. split; [now apply list_elem_of_In|exact Er].
    + injection Hsel as <- <-. congruence.
  - (* no P75 record, no species entries *)
    destruct (existsb (fun r => stat_is MeanSingle r.2) w) eqn:Em; simpl in Hsel.
    + injection Hsel as <- <-. split; [|discriminate].
      intros g d Hin. apply hdates_of_elem in Hin as (r & Hin & Hd).
      apply list_elem_of_filter in Hin as [Hp Hin]. simpl in Hp.
      apply Is_true_true in Hp. exists r. repeat split; auto. discriminate.
    + injection Hsel as <- <-. congruence.
Qed.

Lemma height_aux_prefers_p75_witness :
  exists w hd avg,
    _icos_height_aux anc_mixed = Ok (w, hd, avg) /\
    hd = [(7%Z, d_2020_06_15)] /\ avg = false.
Proof.
  destruct (_icos_height_aux anc_mixed) as [[[w hd] avg]|e] eqn:E;
    [|vm_compute in E; discriminate].
  exists w, hd, avg. split; [reflexivity|].
  pose proof (height_aux_prefers_p75 _ _ _ _ E) as (_ & Hne & _ & _).
  vm_compute in E. injection E as _ <- <-. split; reflexivity.
Defined.

(** ** Ecosystem classes no branch covers *)

Lemma zm_loop_first_error (hs : height_src) (ins : list (Z * inst_row))
  (Zh : list (Z * Z)) (missd : list Z) (e : exn) (dates : list (nat * Z)) (ZM : list Q) :
  (forall d, height_above_displacement hs ins Zh d = Raise e) ->
  (exists i d, (i, d) ∈ dates /\ d ∉ map date_of missd) ->
  zm_loop hs ins Zh missd dates ZM = Raise e.
Proof.
  intros Hall. revert ZM. induction dates as [|[j dj] dates IH]; intros ZM (i & d & Hin & Hd).
  - now apply elem_of_nil in Hin.
  - simpl. destruct (bool_decide (dj ∈ map date_of missd)) eqn:Em.
    + apply bool_decide_eq_true in Em. apply IH.
      apply elem_of_cons in Hin as [Heq|Hin]; [|eauto].
      injection Heq as -> ->. contradiction.
    + now rewrite Hall.
Qed.

Lemma zm_loop_all_missing (hs : height_src) (ins : list (Z * inst_row))
  (Zh : list (Z * Z)) (missd : list Z) (dates : list (nat * Z)) (ZM : list Q) :
  (forall i d, (i, d) ∈ dates -> d ∈ map date_of missd) ->
  zm_loop hs ins Zh missd dates ZM = Ok ZM.
Proof.
  induction dates as [|[j dj] dates IH]; intros Hall; [reflexivity|].
  simpl. rewrite bool_decide_true by (apply (Hall j); left).
  apply IH. intros i d Hin. apply (Hall i). now right.
Qed.

Lemma enumerate_elem_inv {A : Type} (l : list A) (i : nat) (x : A) :
  (i, x) ∈ enumerate l -> x ∈ l.
Proof. unfold enumerate. apply elem_of_zip_r. Qed.

(** X3. An ecosystem class outside the forest, low-vegetation and wetland
    lists is not rejected when the canopy-height source is chosen.  In
    footprint mode, with readable sensor records, [_load_icos_subset] then
    fails with [UnboundLocalError] on [D_hdates] as soon as the date list
    holds an image with flux data, and returns an all-sentinel [ZM] when
    every image day is missing. *)
Theorem uncovered_class_fails_late (cls : string) (anc : ancillary)
  (ins : list (Z * inst_row)) (Zh : list (Z * Z)) :
  cls ∉ forest_classes ++ low_classes ++ ["WET"] -> Z_hdates ins = Ok Zh ->
  is_ok (height_source cls anc) /\
  (forall datelist missd,
     (exists d, d ∈ datelist /\ d ∉ map date_of missd) ->
     _load_icos_subset cls anc ins datelist missd false
     = Raise (UnboundLocalError "D_hdates")) /\
  (forall datelist missd,
     (forall d, d ∈ datelist -> d ∈ map date_of missd) ->
     _load_icos_subset cls anc ins datelist missd false
     = Ok (replicate (length datelist) sentinel)).
Proof.
  intros Hcls HZh. rewrite !not_elem_of_app in Hcls. destruct Hcls as (Hf & Hl & Hw).
  assert (Hwet : String.eqb cls "WET" = false).
  { apply String.eqb_neq. intros ->. apply Hw. left. }
  assert (Hhs : height_source cls anc
                = Ok {| flx_anc_w := []; D_hdates := None; D_avg := false;
                        D_default := false; D_init := None |}).
  { unfold height_source. rewrite (bool_decide_false _ Hf), (bool_decide_false _ Hl), Hwet.
    reflexivity. }
  split; [rewrite Hhs; now eexists|]. split.
  - intros datelist missd (d & Hd & Hm). unfold _load_icos_subset.
    rewrite Hhs, HZh. simpl. apply zm_loop_first_error; [reflexivity|].
    destruct (enumerate_elem _ _ Hd) as [i Hi]. eauto.
  - intros datelist missd Hall. unfold _load_icos_subset. rewrite Hhs, HZh. simpl.
    apply zm_loop_all_missing. intros i d Hin. apply Hall.
    eapply enumerate_elem_inv; eauto.
Qed.

Lemma uncovered_class_fails_late_witness :
  ("URB" ∉ forest_classes ++ low_classes ++ ["WET"]) /\
  (exists Zh, Z_hdates ins_two = Ok Zh) /\
  _load_icos_subset "URB" anc_none ins_two [d_2020_06_15] missd_dummy false
  = Raise (UnboundLocalError "D_hdates").
Proof.
  assert (Hc : "URB" ∉ forest_classes ++ low_classes ++ ["WET"]).
  { apply (bool_decide_unpack _). vm_compute. exact I. }
  destruct (Z_hdates ins_two) as [Zh|e] eqn:E; [|vm_compute in E; discriminate].
  split; [exact Hc|]. split; [now exists Zh|].
  destruct (uncovered_class_fails_late "URB" anc_none ins_two Zh Hc E) as (_ & Hr & _).
  apply Hr. exists d_2020_06_15. split; [left|].
  unfold missd_dummy, date_of, d_2020_06_15. simpl.
  rewrite list_elem_of_singleton. discriminate.
Defined.

(** ** Sensor family and installation records *)

(** X4. [Z_hdates] fails with [KeyError] when no instrument model names a
    LI-COR or a Campbell EC analyser.  Otherwise the index holds exactly the
    'Installation' records of one family, LI-COR whenever a LI-COR model is
    present (Campbell records are then ignored); and when that family has
    no 'Installation' record the index is empty and the sensor height
    lookup raises [IndexError] for every date. *)
Theorem sensor_family_selection (ins : list (Z * inst_row)) :
  (existsb (fun r => str_contains "LI-COR" (INSTOM_MODEL r.2)) ins = false ->
   existsb (fun r => str_contains "Campbell EC" (INSTOM_MODEL r.2)) ins = false ->
   exists msg, Z_hdates ins = Raise (KeyError msg)) /\
  (forall Zh, Z_hdates ins = Ok Zh ->
     exists s,
       senstr ins = Ok s /\
       (if existsb (fun r => str_contains "LI-COR" (INSTOM_MODEL r.2)) ins
        then s = "LI-COR" else s = "Campbell EC") /\
       (forall d g, (d, g) ∈ Zh <->
          exists r, (g, r) ∈ ins /\ is_installation s (g, r) /\ INSTOM_DATE r = d) /\
       ((forall r, r ∈ ins -> is_installation s r = false) ->
        Zh = [] /\ forall idate, sensor_height ins Zh idate = Raise IndexError)).
Proof.
  split.
  - intros H1 H2. unfold Z_hdates, senstr. rewrite H1, H2. simpl. eauto.
  - intros Zh H. unfold Z_hdates in H. apply bind_Ok in H as (s & Hs & H).
    injection H as <-. exists s. split; [exact Hs|]. split; [|split].
    + unfold senstr in Hs. destruct (existsb _ ins); [congruence|].
      destruct (existsb _ ins); [congruence|discriminate].
    + intros d g. apply Z_hdates_elem.
    + intros Hnone.
      assert (Hf : filter (is_installation s) ins = []).
      { destruct (filter (is_installation s) ins) as [|x t] eqn:Ef; [reflexivity|].
        assert (Hx : x ∈ filter (is_installation s) ins) by (rewrite Ef; left).
        apply list_elem_of_filter in Hx as [Hp Hx].
        rewrite (Hnone x Hx) in Hp. destruct Hp. }
      rewrite Hf. simpl. split; reflexivity.
Qed.

Lemma sensor_family_selection_witness :
  exists Zh, Z_hdates ins_both = Ok Zh /\ Zh = [(d_2020_06_15, 2%Z)].
Proof.
  destruct (Z_hdates ins_both) as [Zh|e] eqn:E; [|vm_compute in E; discriminate].
  exists Zh. split; [reflexivity|].
  destruct (sensor_family_selection ins_both) as [_ H].
  destruct (H Zh E) as (s & _ & Hs & _). simpl in Hs. subst s.
  vm_compute in E. now injection E as <-.
Defined.

(** ** [_model_geoms]: shape of the frame, and what happens to the inventory *)

Lemma marks_refl (flag : string) (db : list img_row) : marks flag db db.
Proof. induction db; constructor; [now left|assumption]. Qed.

Lemma marks_trans (flag : string) (db1 db2 db3 : list img_row) :
  marks flag db1 db2 -> marks flag db2 db3 -> marks flag db1 db3.
Proof.
  unfold marks. intros H12. revert db3.
  induction H12 as [|x y l1 l2 Hxy H12 IH]; intros db3 H23.
  - inversion H23. constructor.
  - inversion H23 as [|? z ? l3 Hyz H23']; subst. constructor; [|auto].
    destruct Hxy as [-> | ->], Hyz as [-> | ->]; unfold marked; auto.
Qed.

Lemma set_clouds_marks (dt flag : string) (db : list img_row) :
  marks flag db (set_clouds dt flag db).
Proof.
  unfold marks, set_clouds. induction db as [|r db IH]; simpl; constructor; [|exact IH].
  destruct (String.eqb (dataTakeID r) dt); [now right|now left].
Qed.

Lemma marks_lookup (flag : string) (db1 db2 : list img_row) (i : nat) (r2 : img_row) :
  marks flag db1 db2 -> db2 !! i = Some r2 ->
  exists r1, db1 !! i = Some r1 /\ marked flag r1 r2.
Proof. intros H Hi. eapply Forall2_lookup_r in H as (r1 & ? & ?); eauto. Qed.

Section GeomFrame.
Context (FFP : ffp_args -> result (list Q * list Q)).
Context (site : site_row) (era zonal : bool).
Context (icos_subset : list (Z * gmap string Q)) (ZM : list Q).
Context (fluxvars : list string) (missd : list Z).

Let step := model_geom FFP site era zonal icos_subset ZM fluxvars missd.
Let loop := model_loop FFP site era zonal icos_subset ZM fluxvars missd.

Lemma model_geom_marks (db db' : list img_row) (g0 g : option geometry)
  (i ix : nat) (date : Z) (p : gmap string Q) :
  step db g0 i ix date = Ok (db', g, p) -> marks icos_na db db'.
Proof.
  unfold step, model_geom. intros H.
  apply bind_Ok in H as (p0 & _ & H). destruct zonal.
  - injection H as <- _ _. apply marks_refl.
  - apply bind_Ok in H as (p1 & _ & H). apply bind_Ok in H as (vals & _ & H).
    destruct (existsb is_sentinel vals || bool_decide (date ∈ map date_of missd)).
    + apply bind_Ok in H as (r & _ & H). injection H as <- _ _.
      apply set_clouds_marks.
    + apply bind_Ok in H as (g1 & _ & H). injection H as <- _ _. apply marks_refl.
Qed.

Lemma model_loop_marks (dates : list (nat * (nat * Z))) (db db' : list img_row)
  (g0 : option geometry) (out : list (option geometry * gmap string Q)) :
  loop db g0 dates = Ok (db', out) ->
  marks icos_na db db' /\ length out = length dates.
Proof.
  unfold loop. revert db db' out.
  induction dates as [|[i [ix date]] dates IH]; intros db db' out H; simpl in H.
  - injection H as <- <-. split; [apply marks_refl|reflexivity].
  - apply bind_Ok in H as ([[db1 g] p] & Hstep & H).
    apply bind_Ok in H as ([db2 out'] & Hrest & H). injection H as <- <-.
    destruct (IH _ _ _ Hrest) as [Hm Hl]. split; [|simpl; now rewrite Hl].
    eapply marks_trans; [eapply model_geom_marks; exact Hstep|exact Hm].
Qed.
End GeomFrame.

Lemma loc_list_labels (p : gmap string Q) (vars : list string) (fl : list (string * Q)) :
  loc_list p vars = Ok fl -> fl.*1 = vars.
Proof.
  unfold loc_list. revert fl. induction vars as [|v vars IH]; intros fl H; simpl in H.
  - now injection H as <-.
  - apply bind_Ok in H as (y & Hy & H). apply bind_Ok in H as (k & Hk & H).
    injection H as <-. apply bind_Ok in Hy as (x & _ & Hy). injection Hy as <-.
    simpl. f_equal. auto.
Qed.

Lemma _model_geoms_inv (FFP : ffp_args -> result (list Q * list Q)) (site : site_row)
  (era zonal : bool) (icos_subset : list (Z * gmap string Q)) (ZM : list Q)
  (fluxvars : list string) (missd : list Z) (db db' : list img_row)
  (datelist : list (nat * Z)) (rows : list geom_row) :
  _model_geoms FFP site era zonal icos_subset ZM fluxvars missd db datelist = Ok (db', rows) ->
  exists g0 out,
    model_loop FFP site era zonal icos_subset ZM fluxvars missd db g0 (enumerate datelist)
      = Ok (db', out) /\
    mapM (fun dg => geom_gdf_row fluxvars db' dg.1 dg.2) (zip datelist out) = Ok rows.
Proof.
  unfold _model_geoms. intros H. apply bind_Ok in H as (g0 & _ & H).
  apply bind_Ok in H as ([db1 out] & Hloop & H).
  apply bind_Ok in H as (rows' & Hrows & H).
  assert (rows' = rows /\ db1 = db') as [-> ->].
  { destruct rows', fluxvars; try discriminate.
    destruct (_ && _); [|discriminate]. injection H as <- <-. auto. }
  eauto.
Qed.

(** X5. Whenever [_model_geoms] returns, the frame has one row per entry of
    the date list, in that order; row [i] carries the name, start date and
    data-take of its inventory row, a quality annotation that is the
    inventory's or "icos_na", and exactly the flux columns [fluxvars].  The
    inventory keeps its rows: each is unchanged or has its annotation set
    to "icos_na"; in zonal mode it is not touched at all. *)
Theorem model_geoms_frame (FFP : ffp_args -> result (list Q * list Q)) (site : site_row)
  (era zonal : bool) (icos_subset : list (Z * gmap string Q)) (ZM : list Q)
  (fluxvars : list string) (missd : list Z) (db db' : list img_row)
  (datelist : list (nat * Z)) (rows : list geom_row) :
  _model_geoms FFP site era zonal icos_subset ZM fluxvars missd db datelist = Ok (db', rows) ->
  length rows = length datelist /\ marks icos_na db db' /\
  (zonal = true -> db' = db) /\
  forall i ix date, datelist !! i = Some (ix, date) ->
    exists r0 r,
      db !! ix = Some r0 /\ rows !! i = Some r /\
      g_name r = name r0 /\ g_startdate r = startdate r0 /\
      g_dataTakeID r = dataTakeID r0 /\
      (g_clouds r = clouds r0 \/ g_clouds r = icos_na) /\
      (g_flux r).*1 = fluxvars.
Proof.
  intros H. apply _model_geoms_inv in H as (g0 & out & Hloop & Hrows).
  destruct (model_loop_marks _ _ _ _ _ _ _ _ _ _ _ _ _ Hloop) as [Hm Hlen].
  unfold enumerate in Hlen. rewrite length_zip_with, length_seq in Hlen.
  assert (Hlen' : length out = length datelist) by lia.
  split; [|split; [exact Hm|split]].
  - apply mapM_Ok_length in Hrows. rewrite Hrows, length_zip_with. lia.
  - intros ->. now apply model_loop_zonal in Hloop as [-> _].
  - intros i ix date Hi.
    destruct (lookup_lt_is_Some_2 out i) as [gp Hgp].
    { rewrite Hlen'. eapply lookup_lt_Some; eauto. }
    assert (Hz : zip datelist out !! i = Some ((ix, date), gp)).
    { apply lookup_zip_with_Some. eauto. }
    destruct (mapM_Ok_lookup _ _ _ _ _ Hrows Hz) as (r & Hr & Hrow).
    unfold geom_gdf_row in Hrow. simpl in Hrow.
    apply bind_Ok in Hrow as (rf & Hrf & Hrow). apply bind_Ok in Hrow as (fl & Hfl & Hrow).
    injection Hrow as <-.
    assert (Hrf' : db' !! ix = Some rf) by (now destruct (db' !! ix); inversion Hrf).
    destruct (marks_lookup _ _ _ _ _ Hm Hrf') as (r0 & Hr0 & Hmk).
    exists r0. eexists. split; [exact Hr0|]. split; [exact Hr|]. simpl.
    destruct Hmk as [-> | ->]; simpl; repeat split; auto;
      eapply loc_list_labels; eauto.
Qed.

Lemma model_geoms_frame_witness :
  exists db' rows,
    _model_geoms ffp_diamond site_rus false false subset_ffp [1.5; 1.5]%Q fluxvars6
      missd_dummy db2 datelist2 = Ok (db', rows) /\
    length rows = 2%nat /\ marks icos_na db2 db'.
Proof.
  destruct (_model_geoms ffp_diamond site_rus false false subset_ffp [1.5; 1.5]%Q
              fluxvars6 missd_dummy db2 datelist2) as [[db' rows]|e] eqn:E;
    [|vm_compute in E; discriminate].
  exists db', rows. split; [reflexivity|].
  destruct (model_geoms_frame _ _ _ _ _ _ _ _ _ _ _ _ E) as (H1 & H2 & _).
  split; [exact H1|exact H2].
Defined.

(** ** [_model_geoms]: the footprint of an image with a complete record *)

Section GoodStep.
Context (FFP : ffp_args -> result (list Q * list Q)).
Context (site : site_row) (era : bool).
Context (icos_subset : list (Z * gmap string Q)) (ZM : list Q).
Context (fluxvars : list string) (missd : list Z).

Lemma complete_step (db db' : list img_row) (g0 g : option geometry) (i ix : nat)
  (date : Z) (ps p0 : gmap string Q) (r : img_row) (vals : list Q) :
  model_geom FFP site era false icos_subset ZM fluxvars missd db g0 i ix date
    = Ok (db', g, ps) ->
  matched_record icos_subset date = Ok p0 -> db !! ix = Some r ->
  mapM (get (ffp_record era r p0)) required = Ok vals ->
  existsb is_sentinel vals = false -> date ∉ map date_of missd ->
  exists gg, footprint FFP site ZM i (ffp_record era r p0) = Ok gg /\
    g = Some gg /\ ps = ffp_record era r p0 /\ db' = db.
Proof.
  intros H Hm Hr Hvals Hs Hd. unfold model_geom in H.
  rewrite Hm, bind_Ok_l in H. unfold ffp_record in *.
  assert (Hp : (if era then r0 ← of_option (KeyError "era_pblh") (db !! ix);
                             Ok (<["PBLH":=era_pblh r0]> p0) else Ok p0)
               = Ok (if era then <["PBLH":=era_pblh r]> p0 else p0)).
  { destruct era; [|reflexivity]. now rewrite Hr. }
  rewrite Hp, bind_Ok_l, Hvals, bind_Ok_l, Hs, (bool_decide_false _ Hd) in H.
  simpl in H. apply bind_Ok in H as (gg & Hgg & H). injection H as <- <- <-.
  exists gg. auto.
Qed.
End GoodStep.

(** X6. In footprint mode, for an image whose day is not among the missing
    ones and whose record has the six required fields, none of them -9999,
    a returning [_model_geoms] has called the footprint model for it: the
    row's geometry is the polygon built from the model's contour (never
    null, never a buffer), and its flux columns are the values of the
    matched record. *)
Theorem footprint_for_complete_record
  (FFP : ffp_args -> result (list Q * list Q)) (site : site_row) (era : bool)
  (icos_subset : list (Z * gmap string Q)) (ZM : list Q) (fluxvars : list string)
  (missd : list Z) (db db' : list img_row) (datelist : list (nat * Z))
  (rows : list geom_row) (i ix : nat) (date : Z) (p0 : gmap string Q) (r0 : img_row)
  (vals : list Q) :
  _model_geoms FFP site era false icos_subset ZM fluxvars missd db datelist
    = Ok (db', rows) ->
  datelist !! i = Some (ix, date) ->
  matched_record icos_subset date = Ok p0 -> db !! ix = Some r0 ->
  mapM (get (ffp_record era r0 p0)) required = Ok vals ->
  existsb is_sentinel vals = false -> date ∉ map date_of missd ->
  exists pts r,
    footprint FFP site ZM i (ffp_record era r0 p0) = Ok (Polygon pts) /\
    rows !! i = Some r /\ g_geometry r = Some (Polygon pts) /\
    loc_list (ffp_record era r0 p0) fluxvars = Ok (g_flux r).
Proof.
  intros H Hi Hm Hr0 Hvals Hs Hd.
  apply _model_geoms_inv in H as (g0 & out & Hloop & Hrows).
  destruct (model_loop_lookup _ _ _ _ _ _ _ _ _ _ _ _ _ i i ix date Hloop
              (enumerate_lookup _ _ _ Hi))
    as (dbj & dbj' & g & ps & Hev1 & Hstep & Hev2 & Hout).
  destruct (evolves_lookup _ _ _ _ Hev1 Hr0) as (rj & Hrj & _ & _ & _ & Hera & _).
  assert (Hrec : ffp_record era rj p0 = ffp_record era r0 p0).
  { unfold ffp_record. now rewrite Hera. }
  rewrite <- Hrec in Hvals.
  destruct (complete_step _ _ _ _ _ _ _ _ _ _ _ _ _ _ _ _ _ _ Hstep Hm Hrj Hvals Hs Hd)
    as (gg & Hgg & -> & -> & ->).
  rewrite Hrec in *.
  assert (Hz : zip datelist out !! i
               = Some ((ix, date), (Some gg, ffp_record era r0 p0))).
  { apply lookup_zip_with_Some. eauto. }
  destruct (mapM_Ok_lookup _ _ _ _ _ Hrows Hz) as (r & Hr & Hrow).
  unfold geom_gdf_row in Hrow. simpl in Hrow.
  apply bind_Ok in Hrow as (rf & _ & Hrow). apply bind_Ok in Hrow as (fl & Hfl & Hrow).
  injection Hrow as <-.
  assert (Hpoly : exists pts, gg = Polygon pts).
  { unfold footprint in Hgg. apply bind_Ok in Hgg as (z & _ & Hgg).
    apply bind_Ok in Hgg as (ws & _ & Hgg). apply bind_Ok in Hgg as (pblh & _ & Hgg).
    apply bind_Ok in Hgg as (mo & _ & Hgg). apply bind_Ok in Hgg as (vs & _ & Hgg).
    apply bind_Ok in Hgg as (us & _ & Hgg). apply bind_Ok in Hgg as (wd & _ & Hgg).
    apply bind_Ok in Hgg as ([xr yr] & _ & Hgg). injection Hgg as <-. eauto. }
  destruct Hpoly as [pts ->]. exists pts. eexists.
  split; [exact Hgg|]. split; [exact Hr|]. split; [reflexivity|exact Hfl].
Qed.

Lemma footprint_for_complete_record_witness :
  exists db' rows p0 r0 vals pts r,
    _model_geoms ffp_diamond site_rus false false subset_ffp [1.5; 1.5]%Q fluxvars6
      missd_dummy db2 datelist2 = Ok (db', rows) /\
    datelist2 !! 0%nat = Some (0%nat, d_2020_06_15) /\
    matched_record subset_ffp d_2020_06_15 = Ok p0 /\ db2 !! 0%nat = Some r0 /\
    mapM (get (ffp_record false r0 p0)) required = Ok vals /\
    existsb is_sentinel vals = false /\ (d_2020_06_15 ∉ map date_of missd_dummy) /\
    rows !! 0%nat = Some r /\ g_geometry r = Some (Polygon pts).
Proof.
  destruct (_model_geoms ffp_diamond site_rus false false subset_ffp [1.5; 1.5]%Q
              fluxvars6 missd_dummy db2 datelist2) as [[db' rows]|e] eqn:E;
    [|vm_compute in E; discriminate].
  set (p0 := list_to_map (fluxes_ok ++ micromet 3.2%Q) : gmap string Q).
  assert (Em : matched_record subset_ffp d_2020_06_15 = Ok p0) by reflexivity.
  set (vals := [3.2; 1250; -48.0; 0.62; 0.41; 225]%Q).
  assert (Ev : mapM (get (ffp_record false (img_at "20200615104112" d_2020_06_15) p0))
              required = Ok vals) by (vm_compute; reflexivity).
  assert (Hs : existsb is_sentinel vals = false) by reflexivity.
  assert (Hd : d_2020_06_15 ∉ map date_of missd_dummy).
  { unfold missd_dummy, date_of, d_2020_06_15. simpl.
    rewrite list_elem_of_singleton. discriminate. }
  destruct (footprint_for_complete_record _ _ _ _ _ _ _ _ _ _ _ 0%nat 0%nat _ _ _ _
              E eq_refl Em eq_refl Ev Hs Hd) as (pts & r & _ & Hr & Hg & _).
  exists db', rows, p0, (img_at "20200615104112" d_2020_06_15), vals, pts, r.
  repeat (split; [first [reflexivity | assumption]|]). exact Hg.
Defined.

(** ** Rounding of the footprint vertices *)

Lemma round_half_even_bound (q : Q) :
  (Qabs (inject_Z (round_half_even q) - q) <= 1 # 2)%Q.
Proof.
  unfold round_half_even.
  pose proof (Qfloor_le q) as Hlo. pose proof (Qlt_floor q) as Hhi.
  rewrite inject_Z_plus in Hhi. change (inject_Z 1) with 1%Q in Hhi.
  set (f := Qfloor q) in *.
  apply Qabs_Qle_condition.
  destruct (Qltb (q - inject_Z f) (1 # 2)) eqn:E1.
  - apply Qltb_lt in E1. split; lra.
  - apply Qltb_ge in E1. destruct (Qltb (1 # 2) (q - inject_Z f)) eqn:E2.
    + apply Qltb_lt in E2. rewrite inject_Z_plus. change (inject_Z 1) with 1%Q.
      split; lra.
    + apply Qltb_ge in E2. destruct (Z.even f).
      * split; lra.
      * rewrite inject_Z_plus. change (inject_Z 1) with 1%Q. split; lra.
Qed.

Lemma round2_bound (q : Q) : (Qabs (round2 q - q) <= 1 # 200)%Q.
Proof.
  unfold round2. pose proof (round_half_even_bound (q * 100)) as H.
  apply Qabs_Qle_condition in H. apply Qabs_Qle_condition.
  set (n := inject_Z (round_half_even (q * 100))) in *.
  assert (E : n / 100 - q == (n - q * 100) * (1 # 100)) by field.
  rewrite E. split; lra.
Qed.

(** X7. [round_half_even] is rounding to the nearest integer with ties to
    even: the result is within one half of its argument, and when the
    argument lies exactly half way between two integers the result is the
    even one.  Hence [round2], the source's [round(x, 2)], moves a
    coordinate by at most half a hundredth. *)
Theorem round_half_even_nearest (q : Q) :
  (Qabs (inject_Z (round_half_even q) - q) <= 1 # 2)%Q /\
  (q - inject_Z (Qfloor q) == 1 # 2 -> Z.even (round_half_even q) = true)%Q /\
  (Qabs (round2 q - q) <= 1 # 200)%Q.
Proof.
  split; [apply round_half_even_bound|]. split; [|apply round2_bound].
  intros Htie. unfold round_half_even.
  assert (E1 : Qltb (q - inject_Z (Qfloor q)) (1 # 2) = false).
  { apply Qltb_ge. rewrite Htie. apply Qle_refl. }
  assert (E2 : Qltb (1 # 2) (q - inject_Z (Qfloor q)) = false).
  { apply Qltb_ge. rewrite Htie. apply Qle_refl. }
  rewrite E1, E2. destruct (Z.even (Qfloor q)) eqn:Ee; [exact Ee|].
  rewrite Z.add_1_r, Z.even_succ, <- Z.negb_even, Ee. reflexivity.
Qed.

(** X8. When [footprint] returns, the footprint model was called with the
    image's own entry of [ZM] and the six fields of its record, and the
    polygon has one vertex per point of the model's contour, each the
    contour offset moved to the station position and rounded, so within
    half a hundredth of a metre of it in both coordinates. *)
Theorem footprint_vertices (FFP : ffp_args -> result (list Q * list Q))
  (site : site_row) (ZM : list Q) (i : nat) (p : gmap string Q) (g : geometry) :
  footprint FFP site ZM i p = Ok g ->
  exists z ws pblh mo vs us wd xr yr pts,
    ZM !! i = Some z /\ p !! "WS" = Some ws /\ p !! "PBLH" = Some pblh /\
    p !! "MO_LENGTH" = Some mo /\ p !! "V_SIGMA" = Some vs /\
    p !! "USTAR" = Some us /\ p !! "WD" = Some wd /\
    FFP {| zm := z; umean := ws; h := pblh; ol := mo; sigmav := vs;
           ustar := us; wind_dir := wd |} = Ok (xr, yr) /\
    g = Polygon pts /\ length pts = (length xr `min` length yr)%nat /\
    forall k x y, xr !! k = Some x -> yr !! k = Some y ->
      exists px py, pts !! k = Some (px, py) /\
        (Qabs (px - (x + loc_x site)) <= 1 # 200)%Q /\
        (Qabs (py - (y + loc_y site)) <= 1 # 200)%Q.
Proof.
  unfold footprint, get. intros H.
  apply bind_Ok in H as (z & Hz & H). apply bind_Ok in H as (ws & Hws & H).
  apply bind_Ok in H as (pblh & Hpblh & H). apply bind_Ok in H as (mo & Hmo & H).
  apply bind_Ok in H as (vs & Hvs & H). apply bind_Ok in H as (us & Hus & H).
  apply bind_Ok in H as (wd & Hwd & H). apply bind_Ok in H as ([xr yr] & HF & H).
  injection H as <-.
  assert (Hopt : forall (A : Type) (e : exn) (o : option A) (a : A),
            of_option e o = Ok a -> o = Some a).
  { intros A e [x|] a E; [now injection E as ->|discriminate]. }
  apply Hopt in Hz, Hws, Hpblh, Hmo, Hvs, Hus, Hwd.
  exists z, ws, pblh, mo, vs, us, wd, xr, yr. eexists.
  repeat (split; [eassumption|]). split; [reflexivity|]. split.
  - rewrite length_zip_with, !length_map. reflexivity.
  - intros k x y Hx Hy. exists (round2 (x + loc_x site)), (round2 (y + loc_y site)).
    split; [|split; apply round2_bound].
    apply lookup_zip_with_Some. eexists _, _. split; [reflexivity|].
    change (map ?f ?l) with (f <$> l). rewrite !list_lookup_fmap, Hx, Hy. auto.
Qed.

Lemma footprint_vertices_witness :
  exists g pts,
    footprint ffp_diamond site_rus [1.5; 1.5]%Q 0
      (list_to_map (fluxes_ok ++ micromet 3.2%Q)) = Ok g /\
    g = Polygon pts /\ length pts = 4%nat.
Proof.
  destruct (footprint ffp_diamond site_rus [1.5; 1.5]%Q 0
              (list_to_map (fluxes_ok ++ micromet 3.2%Q))) as [g|e] eqn:E;
    [|vm_compute in E; discriminate].
  destruct (footprint_vertices _ _ _ _ _ _ E)
    as (z & ws & pblh & mo & vs & us & wd & xr & yr & pts & _ & _ & _ & _ & _ & _ & _ &
        HF & Hg & Hlen & _).
  exists g, pts. split; [reflexivity|]. split; [exact Hg|].
  unfold ffp_diamond in HF. injection HF as <- <-. exact Hlen.
Defined.

(** ** [_crop_hsi_2_geoms]: shape, missing images, skipped records *)

Lemma crop_one_row (local_mask : img_file -> geometry -> result (list (list Q)))
  (upw : bool) (na_val : Q) (wl_min wl_max : nat) (db db' : list img_row)
  (row row' : geom_row) (f : img_file) (avg : px_avg)
  (c : option (list (list (option Q)))) :
  crop_one local_mask upw na_val wl_min wl_max db row f = Ok (db', row', avg, c) ->
  (row' = row /\ db' = db \/
   row' = with_clouds hsi_na row /\ db' = set_clouds (g_dataTakeID row) hsi_na db) /\
  (g_clouds row = icos_na -> row' = row /\ avg = Scalar sentinel /\ c = None).
Proof.
  unfold crop_one. intros H. apply bind_Ok in H as (skip & Hskip & H).
  destruct (String.eqb (g_clouds row) icos_na) eqn:Ec.
  - injection Hskip as <-. injection H as <- <- <- <-. auto.
  - assert (Hne : g_clouds row <> icos_na) by now apply String.eqb_neq.
    split; [|intros; contradiction].
    destruct skip; [injection H as <- <- _ _; auto|].
    apply bind_Ok in H as (lam & _ & H). apply bind_Ok in H as (gc & _ & H).
    apply bind_Ok in H as (gc' & _ & H).
    destruct (forallb isnan _); injection H as <- <- _ _; auto.
Qed.

Lemma crop_loop_inv (local_mask : img_file -> geometry -> result (list (list Q)))
  (upw : bool) (na_val : Q) (wl_min wl_max : nat) (work : list (geom_row * img_file))
  (db db' : list img_row)
  (out : list (geom_row * px_avg * option (list (list (option Q))))) :
  crop_loop local_mask upw na_val wl_min wl_max db work = Ok (db', out) ->
  length out = length work /\ marks hsi_na db db'.
Proof.
  revert db db' out. induction work as [|[row f] work IH]; intros db db' out H; simpl in H.
  - injection H as <- <-. split; [reflexivity|apply marks_refl].
  - apply bind_Ok in H as ([[[db1 row1] avg1] c1] & Hone & H).
    apply bind_Ok in H as ([db2 out'] & Hrest & H). injection H as <- <-.
    destruct (IH _ _ _ Hrest) as [Hl Hm]. split; [simpl; now rewrite Hl|].
    eapply marks_trans; [|exact Hm].
    destruct (crop_one_row _ _ _ _ _ _ _ _ _ _ _ _ Hone) as [[[_ ->]|[_ ->]] _].
    + apply marks_refl.
    + apply set_clouds_marks.
Qed.

Lemma _crop_hsi_2_geoms_inv (local_mask : img_file -> geometry -> result (list (list Q)))
  (sensor : string) (img_dir : string -> list img_file) (upw : bool)
  (db db' : list img_row) (gdf : list geom_row) (sr : string)
  (rows : list hsi_row) (cl : cube_list) :
  _crop_hsi_2_geoms local_mask sensor img_dir upw db gdf sr = Ok (db', rows, cl) ->
  exists files lo hi nbands na out,
    mapM (fun r => open_image sensor (g_dataTakeID r) (img_dir (g_dataTakeID r))) gdf
      = Ok files /\
    crop_loop local_mask upw na lo hi db (zip gdf files) = Ok (db', out) /\
    mapM (fun o => b ← band_series (sr_band_ix nbands) o.1.2;
                   Ok {| h_row := o.1.1; h_bands := b |}) out = Ok rows /\
    cl = cube_list_of (map snd out).
Proof.
  unfold _crop_hsi_2_geoms. intros H. apply bind_Ok in H as (files & Hfiles & H).
  apply bind_Ok in H as (f0 & _ & H).
  apply bind_Ok in H as ([[lo hi] nbands] & _ & H).
  apply bind_Ok in H as (na & _ & H).
  apply bind_Ok in H as ([db1 out] & Hloop & H).
  apply bind_Ok in H as (rows' & Hrows & H). injection H as <- <- <-.
  exists files, lo, hi, nbands, na, out. auto.
Qed.

(** X9. Whenever [_crop_hsi_2_geoms] returns, the frame has one record per
    input row, in order; a record is its input row, or that row with the
    annotation "hsi_na"; a row annotated "icos_na" comes back unchanged
    with every band column at -9999, in reflectance mode too; and every
    inventory row is unchanged or has its annotation set to "hsi_na". *)
Theorem crop_frame (local_mask : img_file -> geometry -> result (list (list Q)))
  (sensor : string) (img_dir : string -> list img_file) (upw : bool)
  (db db' : list img_row) (gdf : list geom_row) (sr : string)
  (rows : list hsi_row) (cl : cube_list) :
  _crop_hsi_2_geoms local_mask sensor img_dir upw db gdf sr = Ok (db', rows, cl) ->
  length rows = length gdf /\ marks hsi_na db db' /\
  forall i row, gdf !! i = Some row ->
    exists r, rows !! i = Some r /\
      (h_row r = row \/ h_row r = with_clouds hsi_na row) /\
      (g_clouds row = icos_na ->
         h_row r = row /\
         exists nbands, h_bands r = map (fun n => (n, Some sentinel)) (sr_band_ix nbands)).
Proof.
  intros H.
  apply _crop_hsi_2_geoms_inv in H
    as (files & lo & hi & nbands & na & out & Hfiles & Hloop & Hrows & _).
  destruct (crop_loop_inv _ _ _ _ _ _ _ _ _ Hloop) as [Hlen Hm].
  pose proof (mapM_Ok_length _ _ _ Hfiles) as Hlf.
  rewrite length_zip_with in Hlen.
  split; [|split; [exact Hm|]].
  - apply mapM_Ok_length in Hrows. lia.
  - intros i row Hi.
    destruct (mapM_Ok_lookup _ _ _ _ _ Hfiles Hi) as (f & Hf & _).
    assert (Hz : zip gdf files !! i = Some (row, f)).
    { apply lookup_zip_with_Some. eauto. }
    destruct (crop_loop_lookup _ _ _ _ _ _ _ _ _ _ _ _ Hloop Hz)
      as (dbi & dbi' & row' & avg & c & Hone & Ho).
    destruct (mapM_Ok_lookup _ _ _ _ _ Hrows Ho) as (r & Hr & Hb).
    simpl in Hb. apply bind_Ok in Hb as (b & Hbs & Hb). injection Hb as <-.
    destruct (crop_one_row _ _ _ _ _ _ _ _ _ _ _ _ Hone) as [Hrow Hna].
    eexists. split; [exact Hr|]. simpl. split; [tauto|].
    intros Hc. destruct (Hna Hc) as (-> & -> & _). split; [reflexivity|].
    simpl in Hbs. injection Hbs as <-. eauto.
Qed.

Lemma crop_frame_witness :
  exists db' rows cl,
    _crop_hsi_2_geoms mask_buffer_only "PRISMA" dir2 true db2 gdf_upw "vis"
      = Ok (db', rows, cl) /\
    length rows = 2%nat /\ marks hsi_na db2 db'.
Proof.
  destruct (_crop_hsi_2_geoms mask_buffer_only "PRISMA" dir2 true db2 gdf_upw "vis")
    as [[[db' rows] cl]|e] eqn:E; [|vm_compute in E; discriminate].
  exists db', rows, cl. split; [reflexivity|].
  destruct (crop_frame _ _ _ _ _ _ _ _ _ _ E) as (H1 & H2 & _). auto.
Defined.

(** X10. If the cropped image of some row of the frame is missing from the
    image directory, or is there more than once, [_crop_hsi_2_geoms] fails
    with a [ValueError] whatever the mask does: the images are all opened
    before any of them is cropped. *)
Theorem missing_image_rejected
  (local_mask : img_file -> geometry -> result (list (list Q)))
  (sensor : string) (img_dir : string -> list img_file) (upw : bool)
  (db : list img_row) (gdf : list geom_row) (sr : string) (row : geom_row) :
  row ∈ gdf -> length (img_dir (g_dataTakeID row)) <> 1%nat ->
  exists msg,
    _crop_hsi_2_geoms local_mask sensor img_dir upw db gdf sr = Raise (ValueError msg) /\
    forall mask',
      _crop_hsi_2_geoms mask' sensor img_dir upw db gdf sr = Raise (ValueError msg).
Proof.
  intros Hin Hlen.
  set (open := fun r => open_image sensor (g_dataTakeID r) (img_dir (g_dataTakeID r))).
  assert (Hrow : exists m, open row = Raise (ValueError m)).
  { unfold open, open_image. destruct (img_dir (g_dataTakeID row)) as [|a [|b t]];
      [eauto|simpl in Hlen; congruence|eauto]. }
  destruct Hrow as [m Hrow].
  destruct (mapM open gdf) as [files|e] eqn:E.
  - exfalso. eapply mapM_raises; [exact Hin|exact Hrow|]. now exists files.
  - apply mapM_Raise_inv in E as Hx. destruct Hx as (x & _ & Hx).
    assert (He : exists msg, e = ValueError msg).
    { unfold open, open_image in Hx. destruct (img_dir (g_dataTakeID x)) as [|a [|b t]];
        try discriminate; injection Hx as <-; eauto. }
    destruct He as [msg ->]. exists msg.
    unfold _crop_hsi_2_geoms. fold open. rewrite E. split; reflexivity.
Qed.

Lemma missing_image_rejected_witness :
  (grow "20190101000000" d_2019_03_01 (Buffer 0 0 30) fluxes_ok
     ∈ [grow "20190101000000" d_2019_03_01 (Buffer 0 0 30) fluxes_ok]) /\
  length (dir2 "20190101000000") <> 1%nat /\
  exists msg,
    _crop_hsi_2_geoms mask_whole "PRISMA" dir2 false db2
      [grow "20190101000000" d_2019_03_01 (Buffer 0 0 30) fluxes_ok] "vis"
    = Raise (ValueError msg).
Proof.
  assert (H1 : grow "20190101000000" d_2019_03_01 (Buffer 0 0 30) fluxes_ok
                 ∈ [grow "20190101000000" d_2019_03_01 (Buffer 0 0 30) fluxes_ok])
    by left.
  assert (H2 : length (dir2 "20190101000000") <> 1%nat) by discriminate.
  split; [exact H1|]. split; [exact H2|].
  destruct (missing_image_rejected mask_whole "PRISMA" dir2 false db2 _ "vis" _ H1 H2)
    as (msg & Hm & _).
  exists msg. exact Hm.
Defined.

(** ** [_crop_hsi_2_geoms]: the band means *)

Lemma Qsum_nonneg (l : list Q) : (forall x, x ∈ l -> (0 <= x)%Q) -> (0 <= Qsum l)%Q.
Proof.
  induction l as [|a l IH]; intros H; simpl; [apply Qle_refl|].
  assert (0 <= a)%Q by (apply H; left).
  assert (0 <= Qsum l)%Q by (apply IH; intros x Hx; apply H; now right).
  lra.
Qed.

Lemma Qmean_nonneg (l : list Q) : (forall x, x ∈ l -> (0 <= x)%Q) -> (0 <= Qmean l)%Q.
Proof.
  intros H. unfold Qmean, Qdiv. apply Qmult_le_0_compat; [now apply Qsum_nonneg|].
  apply Qinv_le_0_compat. change 0%Q with (inject_Z 0). rewrite <- Zle_Qle. lia.
Qed.

Lemma nanmean_nonneg (na_val : Q) (band : list Q) (v : Q) :
  nanmean (map (to_nan na_val) band) = Some v -> (0 <= v)%Q.
Proof.
  unfold nanmean. destruct (omap id (map (to_nan na_val) band)) as [|a vs] eqn:E;
    [discriminate|].
  intros H. injection H as <-. apply Qmean_nonneg. rewrite <- E.
  intros x Hx. apply list_elem_of_omap in Hx as (o & Ho & Hid). simpl in Hid. subst o.
  change (map ?f ?l) with (f <$> l) in Ho.
  apply list_elem_of_fmap in Ho as (y & Hy & _). unfold to_nan in Hy.
  destruct (Qeq_bool y na_val || Qltb y 0) eqn:Ec; [discriminate|].
  injection Hy as ->. apply orb_false_iff in Ec as [_ Ec]. now apply Qltb_ge in Ec.
Qed.

Lemma py_slice_subseteq {A : Type} (l : list A) (a b : nat) : py_slice l a b ⊆ l.
Proof. unfold py_slice. etransitivity; [apply subseteq_take|apply subseteq_drop]. Qed.

(** X11. In reflectance mode no band mean of the returned frame is
    negative, except the -9999 of rows annotated "icos_na": no-data and
    negative pixels are turned into NaN before the mean is taken. *)
Theorem reflectance_means_nonnegative
  (local_mask : img_file -> geometry -> result (list (list Q)))
  (sensor : string) (img_dir : string -> list img_file)
  (db db' : list img_row) (gdf : list geom_row) (sr : string)
  (rows : list hsi_row) (cl : cube_list) (i : nat) (row : geom_row) (r : hsi_row) :
  _crop_hsi_2_geoms local_mask sensor img_dir false db gdf sr = Ok (db', rows, cl) ->
  gdf !! i = Some row -> g_clouds row <> icos_na -> rows !! i = Some r ->
  forall n v, (n, Some v) ∈ h_bands r -> (0 <= v)%Q.
Proof.
  intros H Hi Hc Hr n v Hnv.
  apply _crop_hsi_2_geoms_inv in H
    as (files & lo & hi & nbands & na & out & Hfiles & Hloop & Hrows & _).
  destruct (mapM_Ok_lookup _ _ _ _ _ Hfiles Hi) as (f & Hf & _).
  assert (Hz : zip gdf files !! i = Some (row, f)).
  { apply lookup_zip_with_Some. eauto. }
  destruct (crop_loop_lookup _ _ _ _ _ _ _ _ _ _ _ _ Hloop Hz)
    as (dbi & dbi' & row' & avg & c & Hone & Ho).
  destruct (mapM_Ok_lookup _ _ _ _ _ Hrows Ho) as (r' & Hr' & Hb).
  rewrite Hr in Hr'. injection Hr' as <-.
  simpl in Hb. apply bind_Ok in Hb as (b & Hbs & Hb). injection Hb as <-. simpl in Hnv.
  unfold crop_one in Hone. apply String.eqb_neq in Hc. rewrite Hc in Hone.
  apply bind_Ok in Hone as (skip & Hskip & Hone).
  apply bind_Ok in Hskip as (par & _ & Hskip). simpl in Hskip. injection Hskip as <-.
  apply bind_Ok in Hone as (lam & _ & Hone). apply bind_Ok in Hone as (gc & _ & Hone).
  rewrite bind_Ok_l in Hone.
  assert (Havg : avg = Means (map nanmean (py_slice (map (map (to_nan na)) gc) lo hi))).
  { destruct (forallb isnan _); now injection Hone as _ _ <- _. }
  subst avg. simpl in Hbs.
  destruct (_ =? _)%nat; [|discriminate]. injection Hbs as <-.
  apply elem_of_zip_r in Hnv. change (map nanmean ?l) with (nanmean <$> l) in Hnv.
  apply list_elem_of_fmap in Hnv as (band & Hband & Hin).
  apply py_slice_subseteq in Hin. change (map ?g gc) with (g <$> gc) in Hin.
  apply list_elem_of_fmap in Hin as (raw & -> & _).
  eapply nanmean_nonneg. symmetry. exact Hband.
Qed.

Lemma reflectance_means_nonnegative_witness :
  exists db' rows cl row r,
    _crop_hsi_2_geoms mask_whole "PRISMA" dir2 false db2 gdf_ok "vis" = Ok (db', rows, cl) /\
    gdf_ok !! 0%nat = Some row /\ g_clouds row <> icos_na /\ rows !! 0%nat = Some r /\
    forall n v, (n, Some v) ∈ h_bands r -> (0 <= v)%Q.
Proof.
  destruct (_crop_hsi_2_geoms mask_whole "PRISMA" dir2 false db2 gdf_ok "vis")
    as [[[db' rows] cl]|e] eqn:E; [|vm_compute in E; discriminate].
  destruct (rows !! 0%nat) as [r|] eqn:Er.
  2:{ vm_compute in E. injection E as _ <- _. discriminate. }
  exists db', rows, cl. eexists _, r. split; [reflexivity|]. split; [reflexivity|].
  assert (Hc : g_clouds (grow "20200615104112" d_2020_06_15
                 (Buffer (loc_x site_rus) (loc_y site_rus) 30) fluxes_ok) <> icos_na)
    by discriminate.
  split; [exact Hc|]. split; [exact Er|].
  exact (reflectance_means_nonnegative _ _ _ _ _ _ _ _ _ 0%nat _ r E eq_refl Hc Er).
Defined.

(** ** [_crop_hsi_2_geoms]: upwelling radiance *)

Lemma Qsum_scale (par : Q) (l : list Q) :
  (Qsum (map (fun v => v * par) l) == Qsum l * par)%Q.
Proof.
  induction l as [|a l IH]; [reflexivity|].
  change (a * par + Qsum (map (fun v => v * par) l) == (a + Qsum l) * par)%Q.
  rewrite IH. ring.
Qed.

Lemma omap_id_scale (par : Q) (band : list (option Q)) :
  omap id (map (fmap (fun v => v * par)%Q) band) = map (fun v => v * par)%Q (omap id band).
Proof.
  induction band as [|[x|] band IH]; csimpl; [reflexivity| |exact IH].
  f_equal. exact IH.
Qed.

Lemma nanmean_scale (par : Q) (band : list (option Q)) :
  scaled par (nanmean band) (nanmean (map (fmap (fun v => v * par)%Q) band)).
Proof.
  unfold nanmean. rewrite omap_id_scale.
  destruct (omap id band) as [|a vs]; simpl; [exact I|].
  change (Qmean (map (fun v => v * par) (a :: vs)) == Qmean (a :: vs) * par)%Q.
  unfold Qmean. rewrite Qsum_scale, length_map.
  unfold Qdiv. ring.
Qed.

Lemma scaled_isnan (par : Q) (a b : option Q) : scaled par a b -> isnan b = isnan a.
Proof. destruct a, b; simpl; tauto. Qed.

(** X12. For an image with flux data and a PAR value other than -9999, the
    upwelling mode crops the same pixels as the reflectance mode, leaves
    the same annotations, and each of its band means is the reflectance
    band mean multiplied by PAR; a band without valid pixels stays NaN. *)
Theorem upwelling_scales_reflectance
  (local_mask : img_file -> geometry -> result (list (list Q)))
  (na_val : Q) (wl_min wl_max : nat) (db db1 : list img_row) (row row1 : geom_row)
  (f : img_file) (par : Q) (m : list (option Q)) (c : option (list (list (option Q)))) :
  g_clouds row <> icos_na ->
  (list_to_map (g_flux row) : gmap string Q) !! "PAR" = Some par ->
  is_sentinel par = false ->
  crop_one local_mask false na_val wl_min wl_max db row f = Ok (db1, row1, Means m, c) ->
  exists m' c',
    crop_one local_mask true na_val wl_min wl_max db row f = Ok (db1, row1, Means m', c') /\
    Forall2 (scaled par) m m'.
Proof.
  intros Hc Hpar Hs H. unfold crop_one in *. apply String.eqb_neq in Hc. rewrite Hc in *.
  rewrite Hpar in *. simpl in *. rewrite Hs.
  destruct (g_geometry row) as [g|]; [|discriminate]. simpl in *.
  destruct (local_mask f g) as [gc|e]; [|discriminate]. simpl in *.
  set (cube := py_slice (map (map (to_nan na_val)) gc) wl_min wl_max) in *.
  set (cube' := map (map (fmap (fun v => (v * par)%Q))) cube).
  assert (HF : Forall2 (scaled par) (map nanmean cube) (map nanmean cube')).
  { unfold cube'. rewrite map_map. apply Forall2_fmap, Forall_Forall2_diag, Forall_forall.
    intros band _. apply nanmean_scale. }
  assert (Hn : forallb isnan (map nanmean cube') = forallb isnan (map nanmean cube)).
  { clear H. induction HF as [|a b la lb Hab _ IH]; simpl; [reflexivity|].
    now rewrite IH, (scaled_isnan _ _ _ Hab). }
  rewrite Hn.
  destruct (forallb isnan (map nanmean cube)); injection H as <- <- <- <-; eauto.
Qed.

Lemma upwelling_scales_reflectance_witness :
  let row := grow "20200615104112" d_2020_06_15
               (Buffer (loc_x site_rus) (loc_y site_rus) 30) fluxes_ok in
  g_clouds row <> icos_na /\
  (list_to_map (g_flux row) : gmap string Q) !! "PAR" = Some 381.9%Q /\
  is_sentinel 381.9 = false /\
  exists db1 row1 m c m' c',
    crop_one mask_whole false (-9999) 0 3 db2 row file4 = Ok (db1, row1, Means m, c) /\
    crop_one mask_whole true (-9999) 0 3 db2 row file4 = Ok (db1, row1, Means m', c') /\
    Forall2 (scaled 381.9) m m'.
Proof.
  intros row.
  assert (Hc : g_clouds row <> icos_na) by discriminate.
  assert (Hp : (list_to_map (g_flux row) : gmap string Q) !! "PAR" = Some 381.9%Q)
    by reflexivity.
  assert (Hs : is_sentinel 381.9 = false) by reflexivity.
  split; [exact Hc|]. split; [exact Hp|]. split; [exact Hs|].
  destruct (crop_one mask_whole false (-9999) 0 3 db2 row file4)
    as [[[[db1 row1] [v|m]] c]|e] eqn:E; try (vm_compute in E; discriminate).
  destruct (upwelling_scales_reflectance _ _ _ _ _ _ _ _ _ _ _ _ Hc Hp Hs E)
    as (m' & c' & H1 & H2).
  exists db1, row1, m, c, m', c'. auto.
Defined.

(** ** [_crop_hsi_2_geoms]: images without valid pixels *)

Lemma crop_loop_lookup_marks
  (local_mask : img_file -> geometry -> result (list (list Q)))
  (upw : bool) (na_val : Q) (wl_min wl_max : nat)
  (work : list (geom_row * img_file)) (db db' : list img_row)
  (out : list (geom_row * px_avg * option (list (list (option Q)))))
  (i : nat) (row : geom_row) (f : img_file) :
  crop_loop local_mask upw na_val wl_min wl_max db work = Ok (db', out) ->
  work !! i = Some (row, f) ->
  exists dbi dbi' row' avg c,
    crop_one local_mask upw na_val wl_min wl_max dbi row f = Ok (dbi', row', avg, c) /\
    marks hsi_na dbi' db' /\ out !! i = Some (row', avg, c).
Proof.
  revert db db' out i. induction work as [|[row0 f0] work IH]; intros db db' out i H Hi;
    [discriminate|].
  simpl in H. apply bind_Ok in H as ([[[db1 row1] avg1] c1] & Hone & H).
  apply bind_Ok in H as ([db2 out'] & Hrest & H). injection H as <- <-.
  destruct i as [|i]; simpl in Hi.
  - injection Hi as -> ->. exists db, db1, row1, avg1, c1.
    split; [exact Hone|]. split; [|reflexivity].
    now destruct (crop_loop_inv _ _ _ _ _ _ _ _ _ Hrest).
  - destruct (IH _ _ _ _ Hrest Hi) as (dbi & dbi' & row' & avg & c & H1 & H2 & H3).
    exists dbi, dbi', row', avg, c. auto.
Qed.

Lemma marked_hsi_na_keeps (r1 r2 : img_row) :
  marked hsi_na r1 r2 ->
  dataTakeID r2 = dataTakeID r1 /\ (clouds r1 = hsi_na -> clouds r2 = hsi_na).
Proof. intros [-> | ->]; simpl; auto. Qed.

Lemma set_clouds_lookup (dt flag : string) (db : list img_row) (j : nat) (q : img_row) :
  set_clouds dt flag db !! j = Some q -> dataTakeID q = dt -> clouds q = flag.
Proof.
  unfold set_clouds. change (map ?g db) with (g <$> db). rewrite list_lookup_fmap.
  destruct (db !! j) as [r|]; [|discriminate]. simpl. intros H Hdt. injection H as <-.
  destruct (String.eqb (dataTakeID r) dt) eqn:E; [reflexivity|].
  apply String.eqb_neq in E. contradiction.
Qed.

(** X13. For an image that is cropped (flux data present and, in upwelling
    mode, a PAR value): when every band mean is NaN the record is annotated
    "hsi_na" and so is every inventory row of its data-take in the
    inventory that is returned; when some band has a mean the record is
    left as it was. *)
Theorem all_nan_crop_flagged
  (local_mask : img_file -> geometry -> result (list (list Q)))
  (sensor : string) (img_dir : string -> list img_file) (upw : bool)
  (db db' : list img_row) (gdf : list geom_row) (sr : string)
  (rows : list hsi_row) (cl : cube_list) (i : nat) (row : geom_row) (r : hsi_row)
  (par : Q) :
  _crop_hsi_2_geoms local_mask sensor img_dir upw db gdf sr = Ok (db', rows, cl) ->
  gdf !! i = Some row -> rows !! i = Some r -> g_clouds row <> icos_na ->
  (list_to_map (g_flux row) : gmap string Q) !! "PAR" = Some par ->
  upw && is_sentinel par = false ->
  ((forall b, b ∈ h_bands r -> b.2 = None) ->
     h_row r = with_clouds hsi_na row /\
     forall j q, db' !! j = Some q -> dataTakeID q = g_dataTakeID row ->
       clouds q = hsi_na) /\
  ((exists n v, (n, Some v) ∈ h_bands r) -> h_row r = row).
Proof.
  intros H Hi Hr Hc Hpar Hskip.
  apply _crop_hsi_2_geoms_inv in H
    as (files & lo & hi & nbands & na & out & Hfiles & Hloop & Hrows & _).
  destruct (mapM_Ok_lookup _ _ _ _ _ Hfiles Hi) as (f & Hf & _).
  assert (Hz : zip gdf files !! i = Some (row, f)).
  { apply lookup_zip_with_Some. eauto. }
  destruct (crop_loop_lookup_marks _ _ _ _ _ _ _ _ _ _ _ _ Hloop Hz)
    as (dbi & dbi' & row' & avg & c & Hone & Hmarks & Ho).
  destruct (mapM_Ok_lookup _ _ _ _ _ Hrows Ho) as (r' & Hr' & Hb).
  rewrite Hr in Hr'. injection Hr' as <-.
  simpl in Hb. apply bind_Ok in Hb as (b & Hbs & Hb). injection Hb as <-. simpl.
  unfold crop_one in Hone. apply String.eqb_neq in Hc. rewrite Hc, Hpar in Hone.
  simpl in Hone. rewrite Hskip in Hone.
  apply bind_Ok in Hone as (lam & _ & Hone). apply bind_Ok in Hone as (gc & _ & Hone).
  apply bind_Ok in Hone as (cube & _ & Hone).
  set (avgs := map nanmean cube) in *.
  assert (Hb : b = zip (sr_band_ix nbands) avgs /\ length avgs = length (sr_band_ix nbands)).
  { destruct (forallb isnan avgs); injection Hone as _ _ <- _; simpl in Hbs;
      destruct (_ =? _)%nat eqn:El; try discriminate; injection Hbs as <-;
      apply Nat.eqb_eq in El; auto. }
  destruct Hb as [-> Hlen].
  destruct (forallb isnan avgs) eqn:Ea; injection Hone as <- <- _ _.
  - split.
    + intros _. split; [reflexivity|]. intros j q Hj Hdt.
      destruct (marks_lookup _ _ _ _ _ Hmarks Hj) as (r1 & Hr1 & Hm).
      destruct (marked_hsi_na_keeps _ _ Hm) as [Hdt' Hcl].
      apply Hcl. eapply set_clouds_lookup; [exact Hr1|congruence].
    + intros (n & v & Hin). apply elem_of_zip_r in Hin.
      rewrite forallb_forall in Ea. apply list_elem_of_In, Ea in Hin. discriminate.
  - split; [|reflexivity]. intros Hall. exfalso.
    assert (Hf' : forallb isnan avgs = true).
    { apply forallb_forall. intros x Hx. apply list_elem_of_In in Hx.
      apply list_elem_of_lookup in Hx as [k Hk].
      destruct (lookup_lt_is_Some_2 (sr_band_ix nbands) k) as [nm Hnm].
      { rewrite <- Hlen. eapply lookup_lt_Some; eauto. }
      assert (Hin : (nm, x) ∈ zip (sr_band_ix nbands) avgs).
      { eapply list_elem_of_lookup_2. apply lookup_zip_with_Some. eauto. }
      apply Hall in Hin. simpl in Hin. now subst x. }
    congruence.
Qed.

Lemma all_nan_crop_flagged_witness :
  exists db' rows cl row r,
    _crop_hsi_2_geoms mask_whole "PRISMA" dir_void false db2 gdf_ok "vis" = Ok (db', rows, cl) /\
    gdf_ok !! 0%nat = Some row /\ rows !! 0%nat = Some r /\ g_clouds row <> icos_na /\
    (list_to_map (g_flux row) : gmap string Q) !! "PAR" = Some 381.9%Q /\
    false && is_sentinel 381.9 = false /\
    (forall b, b ∈ h_bands r -> b.2 = None) /\
    h_row r = with_clouds hsi_na row /\
    forall j q, db' !! j = Some q -> dataTakeID q = g_dataTakeID row -> clouds q = hsi_na.
Proof.
  destruct (_crop_hsi_2_geoms mask_whole "PRISMA" dir_void false db2 gdf_ok "vis")
    as [[[db' rows] cl]|e] eqn:E; [|vm_compute in E; discriminate].
  destruct (rows !! 0%nat) as [r|] eqn:Er.
  2:{ vm_compute in E. injection E as _ <- _. discriminate. }
  set (row := grow "20200615104112" d_2020_06_15
                (Buffer (loc_x site_rus) (loc_y site_rus) 30) fluxes_ok).
  assert (Hc : g_clouds row <> icos_na) by discriminate.
  assert (Hp : (list_to_map (g_flux row) : gmap string Q) !! "PAR" = Some 381.9%Q)
    by reflexivity.
  assert (Hall : forall b, b ∈ h_bands r -> b.2 = None).
  { vm_compute in E. injection E as _ <- _. injection Er as <-. simpl.
    intros b Hb. rewrite !elem_of_cons, elem_of_nil in Hb.
    destruct Hb as [-> | [-> | [-> | []]]]; reflexivity. }
  destruct (all_nan_crop_flagged _ _ _ _ _ _ _ _ _ _ 0%nat row r 381.9%Q E eq_refl Er Hc Hp
              eq_refl) as [Hflag _].
  destruct (Hflag Hall) as [H1 H2].
  exists db', rows, cl, row, r. repeat (split; [first [reflexivity | assumption]|]).
  exact H2.
Defined.

(** ** [hsi_geom_crop] and [load_cropped_db]: what is returned and saved *)







(** ** [crs_and_cropping]: what the band-length gate lets through *)

Lemma remove_dups_short {A : Type} `{EqDecision A} (l : list A) (a b : A) :
  (length (remove_dups l) <= 1)%nat -> a ∈ l -> b ∈ l -> a = b.
Proof.
  intros Hl Ha Hb. apply elem_of_remove_dups in Ha, Hb.
  destruct (remove_dups l) as [|x [|y t]]; simpl in Hl; [ | | lia].
  - now apply elem_of_nil in Ha.
  - apply list_elem_of_singleton in Ha, Hb. congruence.
Qed.

Lemma mapM_Ok_lookup_r {A B : Type} (f : A -> result B) (l : list A) (l' : list B)
  (i : nat) (y : B) :
  mapM f l = Ok l' -> l' !! i = Some y -> exists x, l !! i = Some x /\ f x = Ok y.
Proof.
  intros H Hi. destruct (lookup_lt_is_Some_2 l i) as [x Hx].
  { rewrite <- (mapM_Ok_length _ _ _ H). eapply lookup_lt_Some; eauto. }
  destruct (mapM_Ok_lookup _ _ _ _ _ H Hx) as (y' & Hy' & Hf). exists x. split; congruence.
Qed.

(** X16. When a station passes the band-length gate of [crs_and_cropping],
    the band counts it collected are all equal, they are exactly the
    lengths of the wavelength lists of the images decoded in this call
    (crop missing or overwrite requested, one raw file), and no image that
    had to be decoded matched more than one raw file. *)
Theorem crs_gate_accepts_uniform (overwrite : bool) (site : string) (scenes : list scene)
  (blength : list nat) :
  crs_and_cropping_site overwrite (site, scenes) = Ok blength ->
  (forall a b, a ∈ blength -> b ∈ blength -> a = b) /\
  (forall n, n ∈ blength <->
     exists s wls, s ∈ scenes /\ decoded overwrite s wls /\ n = length wls) /\
  (forall s, s ∈ scenes -> crop_exists s && negb overwrite = false ->
     (length (sources s) <= 1)%nat).
Proof.
  unfold crs_and_cropping_site. simpl. intros H.
  destruct (forallb crop_exists scenes && negb overwrite) eqn:Eall.
  - injection H as <-. apply andb_true_iff in Eall as [Hall How].
    assert (Hno : forall s, s ∈ scenes -> crop_exists s && negb overwrite = true).
    { intros s Hs. rewrite forallb_forall in Hall. apply list_elem_of_In, Hall in Hs.
      now rewrite Hs, How. }
    split; [intros a b Ha; now apply elem_of_nil in Ha|]. split.
    + intros n. split; [intros Hn; now apply elem_of_nil in Hn|].
      intros (s & w & Hs & [Hd _] & _). rewrite (Hno s Hs) in Hd. discriminate.
    + intros s Hs Hd. rewrite (Hno s Hs) in Hd. discriminate.
  - apply bind_Ok in H as (l & Hl & H).
    destruct (1 <? length (remove_dups (omap id l)))%nat eqn:Eg; [discriminate|].
    injection H as <-. apply Nat.ltb_ge in Eg.
    split; [intros a b; now apply remove_dups_short|]. split.
    + intros n. rewrite list_elem_of_omap. split.
      * intros (o & Ho & Hid). simpl in Hid. subst o.
        apply list_elem_of_lookup in Ho as [i Hi].
        destruct (mapM_Ok_lookup_r _ _ _ _ _ Hl Hi) as (s & Hs & Hf).
        unfold scene_blength in Hf.
        destruct (crop_exists s && negb overwrite) eqn:Ed; [discriminate|].
        destruct (sources s) as [|w [|w' t]] eqn:Es; try discriminate.
        injection Hf as <-. exists s, w. split; [eapply list_elem_of_lookup_2; eauto|].
        split; [split; assumption|reflexivity].
      * intros (s & w & Hs & [Hd Hsrc] & ->). exists (Some (length w)).
        split; [|reflexivity]. apply list_elem_of_lookup in Hs as [i Hi].
        destruct (mapM_Ok_lookup _ _ _ _ _ Hl Hi) as (y & Hy & Hf).
        unfold scene_blength in Hf. rewrite Hd, Hsrc in Hf. injection Hf as <-.
        eapply list_elem_of_lookup_2; eauto.
    + intros s Hs Hd. apply list_elem_of_lookup in Hs as [i Hi].
      destruct (mapM_Ok_lookup _ _ _ _ _ Hl Hi) as (y & _ & Hf).
      unfold scene_blength in Hf. rewrite Hd in Hf.
      destruct (sources s) as [|w [|w' t]]; simpl; try lia. discriminate.
Qed.

Lemma crs_gate_accepts_uniform_witness :
  exists blength,
    crs_and_cropping_site false ("DE-RuS", [scene_new4; scene_done4]) = Ok blength /\
    (forall a b, a ∈ blength -> b ∈ blength -> a = b) /\
    (4%nat ∈ blength).
Proof.
  destruct (crs_and_cropping_site false ("DE-RuS", [scene_new4; scene_done4]))
    as [bl|e] eqn:E; [|vm_compute in E; discriminate].
  destruct (crs_gate_accepts_uniform _ _ _ _ E) as (H1 & H2 & _).
  exists bl. split; [reflexivity|]. split; [exact H1|].
  apply H2. exists scene_new4, wls4. split; [left|]. split; [split; reflexivity|reflexivity].
Defined.

(** ** The spectral window: bounds and ascending wavelengths *)

Lemma _fnv_lt (values : list Q) (target : Q) (i : nat) :
  _fnv values target = Ok i -> (i < length values)%nat.
Proof.
  intros H. destruct values as [|v vs] eqn:E; [discriminate|].
  destruct (_fnv_nearest (v :: vs) target) as (j & Hj & [Hlt _] & _); [discriminate|].
  rewrite H in Hj. injection Hj as ->. exact Hlt.
Qed.

(** X17. [band_window] fails with a [ValueError] on an empty wavelength
    list and with an [UnboundLocalError] on a range code other than 'vis',
    'vnir' and 'vswir'; otherwise it returns.  The window it returns lies
    within the list: the lower index is a position of the list, the upper
    bound is at least 1 and at most the length, and the band count is
    their difference (0 when the upper bound is not above the lower
    index). *)
Theorem band_window_bounds (wls : list Q) (sr : string) :
  (wls = [] -> exists msg, band_window wls sr = Raise (ValueError msg)) /\
  (wls <> [] -> sr ∉ ["vis"; "vnir"; "vswir"] ->
     band_window wls sr = Raise (UnboundLocalError "nm_max")) /\
  (wls <> [] -> sr ∈ ["vis"; "vnir"; "vswir"] -> is_ok (band_window wls sr)) /\
  forall lo hi nbands, band_window wls sr = Ok (lo, hi, nbands) ->
    (lo < length wls)%nat /\ (0 < hi <= length wls)%nat /\
    nbands = (hi - lo)%nat /\ length (retained wls lo hi) = nbands.
Proof.
  split; [intros ->; eexists; reflexivity|]. split; [|split].
  - intros Hne Hsr. unfold band_window.
    destruct (_fnv_nearest wls nm_min Hne) as (i & -> & _). simpl.
    assert (E : nm_max_of sr = Raise (UnboundLocalError "nm_max")).
    { unfold nm_max_of.
      destruct (String.eqb sr "vis") eqn:E1;
        [apply String.eqb_eq in E1; subst; exfalso; apply Hsr; left|].
      destruct (String.eqb sr "vnir") eqn:E2;
        [apply String.eqb_eq in E2; subst; exfalso; apply Hsr; right; left|].
      destruct (String.eqb sr "vswir") eqn:E3;
        [apply String.eqb_eq in E3; subst; exfalso; apply Hsr; right; right; left|].
      reflexivity. }
    now rewrite E.
  - intros Hne Hsr. unfold band_window.
    destruct (_fnv_nearest wls nm_min Hne) as (i & -> & _). simpl.
    assert (E : exists m, nm_max_of sr = Ok m).
    { rewrite !elem_of_cons, elem_of_nil in Hsr.
      destruct Hsr as [-> | [-> | [-> | []]]]; eexists; reflexivity. }
    destruct E as [m ->]. simpl.
    destruct (_fnv_nearest wls m Hne) as (j & -> & _). simpl. eexists. reflexivity.
  - intros lo hi nbands H. unfold band_window in H.
    apply bind_Ok in H as (i & Hi & H). apply bind_Ok in H as (m & _ & H).
    apply bind_Ok in H as (j & Hj & H). injection H as <- <- <-.
    apply _fnv_lt in Hi, Hj. rewrite <- py_slice_length_retained.
    unfold py_slice. rewrite length_take, length_drop. lia.
Qed.

Lemma sorted_nth (l : list Q) (i j : nat) :
  StronglySorted Qle l -> (i <= j)%nat -> (j < length l)%nat ->
  (nth i l 0 <= nth j l 0)%Q.
Proof.
  intros Hs. revert i j. induction Hs as [|a l Hs IH Ha]; intros i j Hij Hj;
    [simpl in Hj; lia|].
  destruct i as [|i], j as [|j]; simpl in *; try lia.
  - apply Qle_refl.
  - rewrite Forall_forall in Ha. apply Ha, list_elem_of_In, nth_In. lia.
  - apply IH; lia.
Qed.

Lemma Qabs_cases (x : Q) : (x <= 0 /\ Qabs x == - x)%Q \/ (0 <= x /\ Qabs x == x)%Q.
Proof.
  destruct (Qlt_le_dec x 0) as [H|H].
  - left. split; [now apply Qlt_le_weak|]. apply Qabs_neg. now apply Qlt_le_weak.
  - right. split; [exact H|]. now apply Qabs_pos.
Qed.

Lemma _fnv_monotone (wls : list Q) (t1 t2 : Q) (i1 i2 : nat) :
  StronglySorted Qle wls -> (t1 <= t2)%Q ->
  _fnv wls t1 = Ok i1 -> _fnv wls t2 = Ok i2 -> (i1 <= i2)%nat.
Proof.
  intros Hs Ht H1 H2.
  assert (Hne : wls <> []) by (intros ->; discriminate).
  destruct (_fnv_nearest wls t1 Hne) as (j1 & Hj1 & [Hl1 _] & Hfirst).
  destruct (_fnv_nearest wls t2 Hne) as (j2 & Hj2 & [Hl2 Hmin] & _).
  rewrite H1 in Hj1. rewrite H2 in Hj2. injection Hj1 as <-. injection Hj2 as <-.
  destruct (le_lt_dec i1 i2) as [|Hlt]; [assumption|exfalso].
  specialize (Hfirst i2 Hlt). specialize (Hmin i1 Hl1).
  pose proof (sorted_nth wls i2 i1 Hs ltac:(lia) Hl1) as Hab.
  set (a := nth i2 wls 0%Q) in *. set (b := nth i1 wls 0%Q) in *.
  destruct (Qabs_cases (b - t1)) as [[? E1]|[? E1]];
  destruct (Qabs_cases (a - t1)) as [[? E2]|[? E2]];
  destruct (Qabs_cases (a - t2)) as [[? E3]|[? E3]];
  destruct (Qabs_cases (b - t2)) as [[? E4]|[? E4]];
  rewrite E1, E2 in Hfirst; rewrite E3, E4 in Hmin; lra.
Qed.

(** X18. For wavelengths in ascending order the index nearest to the
    lower bound is not above the index nearest to the upper bound, so the
    window holds at least one band, and its wavelengths lie between the
    wavelength nearest to 400 nm and the one nearest to the upper bound. *)
Theorem ascending_window_nonempty (wls : list Q) (sr : string) (lo hi nbands : nat) :
  StronglySorted Qle wls -> band_window wls sr = Ok (lo, hi, nbands) ->
  (lo < hi)%nat /\ (0 < nbands)%nat /\
  forall k, (k < nbands)%nat -> exists w,
    wls !! (lo + k)%nat = Some w /\
    (nth lo wls 0 <= w)%Q /\ (w <= nth (hi - 1) wls 0)%Q.
Proof.
  intros Hs H. unfold band_window in H.
  apply bind_Ok in H as (i & Hi & H). apply bind_Ok in H as (m & Hm & H).
  apply bind_Ok in H as (j & Hj & H). injection H as <- <- <-.
  assert (Hle : (nm_min <= m)%Q).
  { unfold nm_max_of in Hm. unfold nm_min.
    destruct (String.eqb sr "vis"); [injection Hm as <-; lra|].
    destruct (String.eqb sr "vnir"); [injection Hm as <-; lra|].
    destruct (String.eqb sr "vswir"); [injection Hm as <-; lra|discriminate]. }
  pose proof (_fnv_monotone wls nm_min m i j Hs Hle Hi Hj) as Hij.
  pose proof (_fnv_lt _ _ _ Hj) as Hjl.
  assert (Hn : length (py_slice wls i (j + 1)) = (j + 1 - i)%nat).
  { unfold py_slice. rewrite length_take, length_drop. lia. }
  rewrite Hn. split; [lia|]. split; [lia|]. intros k Hk.
  destruct (lookup_lt_is_Some_2 wls (i + k)) as [w Hw]; [lia|].
  exists w. split; [exact Hw|].
  assert (Hnth : nth (i + k) wls 0%Q = w) by (apply nth_lookup_Some with (d := 0%Q) in Hw; exact Hw).
  rewrite <- Hnth. split; apply sorted_nth; try assumption; lia.
Qed.

Lemma wls4_sorted : StronglySorted Qle wls4.
Proof.
  unfold wls4.
  repeat constructor; unfold Qle; simpl; lia.
Qed.

Lemma ascending_window_nonempty_witness :
  StronglySorted Qle wls4 /\
  exists lo hi nbands,
    band_window wls4 "vis" = Ok (lo, hi, nbands) /\ (lo < hi)%nat /\ (0 < nbands)%nat.
Proof.
  split; [exact wls4_sorted|].
  destruct (band_window wls4 "vis") as [[[lo hi] nbands]|e] eqn:E;
    [|vm_compute in E; discriminate].
  destruct (ascending_window_nonempty wls4 "vis" lo hi nbands wls4_sorted E)
    as (H1 & H2 & _).
  exists lo, hi, nbands. auto.
Defined.

(** ** [_crs_calc]: the UTM zone of a station *)

Lemma Qfloor_unique (q : Q) (k : Z) :
  (inject_Z k <= q)%Q -> (q < inject_Z (k + 1))%Q -> Qfloor q = k.
Proof.
  intros H1 H2. pose proof (Qfloor_le q) as H3. pose proof (Qlt_floor q) as H4.
  assert (Hk : (k < Qfloor q + 1)%Z).
  { rewrite Zlt_Qlt. eapply Qle_lt_trans; eauto. }
  assert (Hf : (Qfloor q < k + 1)%Z).
  { rewrite Zlt_Qlt. eapply Qle_lt_trans; eauto. }
  lia.
Qed.

Lemma utm_zone_band (lon : Q) (k : Z) :
  (inject_Z k * 6 - 180 <= lon)%Q -> (lon < inject_Z k * 6 - 174)%Q ->
  utm_zone lon = (k + 1)%Z.
Proof.
  intros H1 H2. unfold utm_zone. f_equal. apply Qfloor_unique.
  - apply Qle_shift_div_l; [reflexivity|]. lra.
  - apply Qlt_shift_div_r; [reflexivity|].
    rewrite inject_Z_plus. change (inject_Z 1) with 1%Q. lra.
Qed.

Lemma Qle_bool_false (a b : Q) : (b < a)%Q -> Qle_bool a b = false.
Proof.
  intros H. apply not_true_is_false. intros E. apply Qle_bool_iff in E.
  exact (Qlt_not_le _ _ H E).
Qed.

Ltac decide_bounds :=
  repeat match goal with
         | |- context [Qle_bool ?a ?b] =>
             first [rewrite (proj2 (Qle_bool_iff a b)) by lra
                   |rewrite (Qle_bool_false a b) by lra]
         | |- context [Qltb ?a ?b] =>
             first [rewrite (proj2 (Qltb_lt a b)) by lra
                   |rewrite (proj2 (Qltb_ge a b)) by lra]
         end; simpl.

Lemma _crs_calc_out_of_range (icos_db : list station) (site : string) (r : station) :
  filter (fun r => String.eqb (st_name r) site) icos_db = [r] ->
  (st_lon r < -12)%Q \/ (30 <= st_lon r)%Q ->
  exists msg, _crs_calc icos_db site = Raise (ValueError msg).
Proof.
  intros Hr H. unfold _crs_calc. rewrite Hr. simpl.
  destruct H as [H|H]; decide_bounds; eauto.
Qed.

(** X19. [_crs_calc] reads the longitude of the one row the station has in
    the station table.  From -12 up to, but not including, 30 degrees it
    returns the EPSG code 32600 plus the number of the UTM zone that holds
    the longitude, floor((lon + 180) / 6) + 1, which is one of the zones
    29 to 35; outside this range it raises a [ValueError]. *)
Theorem crs_is_utm_zone (icos_db : list station) (site : string) (r : station) :
  filter (fun r => String.eqb (st_name r) site) icos_db = [r] ->
  ((-12 <= st_lon r)%Q -> (st_lon r < 30)%Q ->
     _crs_calc icos_db site = Ok (32600 + utm_zone (st_lon r))%Z /\
     (29 <= utm_zone (st_lon r) <= 35)%Z) /\
  ((st_lon r < -12)%Q \/ (30 <= st_lon r)%Q ->
     exists msg, _crs_calc icos_db site = Raise (ValueError msg)).
Proof.
  intros Hr. unfold _crs_calc. rewrite Hr. simpl. set (lon := st_lon r). split.
  - intros Hlo Hhi.
    destruct (Qlt_le_dec lon (-6)) as [H1|H1].
    { decide_bounds. rewrite (utm_zone_band lon 28) by (unfold inject_Z; lra).
      split; [reflexivity|lia]. }
    destruct (Qlt_le_dec lon 0) as [H2|H2].
    { decide_bounds. rewrite (utm_zone_band lon 29) by (unfold inject_Z; lra).
      split; [reflexivity|lia]. }
    destruct (Qlt_le_dec lon 6) as [H3|H3].
    { decide_bounds. rewrite (utm_zone_band lon 30) by (unfold inject_Z; lra).
      split; [reflexivity|lia]. }
    destruct (Qlt_le_dec lon 12) as [H4|H4].
    { decide_bounds. rewrite (utm_zone_band lon 31) by (unfold inject_Z; lra).
      split; [reflexivity|lia]. }
    destruct (Qlt_le_dec lon 18) as [H5|H5].
    { decide_bounds. rewrite (utm_zone_band lon 32) by (unfold inject_Z; lra).
      split; [reflexivity|lia]. }
    destruct (Qlt_le_dec lon 24) as [H6|H6].
    { decide_bounds. rewrite (utm_zone_band lon 33) by (unfold inject_Z; lra).
      split; [reflexivity|lia]. }
    decide_bounds. rewrite (utm_zone_band lon 34) by (unfold inject_Z; lra).
    split; [reflexivity|lia].
  - intros [H|H]; decide_bounds; eauto.
Qed.

Lemma crs_is_utm_zone_witness :
  exists r,
    filter (fun r => String.eqb (st_name r) "DE-RuS") _build_icos_meta = [r] /\
    (-12 <= st_lon r)%Q /\ (st_lon r < 30)%Q /\
    _crs_calc _build_icos_meta "DE-RuS" = Ok 32632%Z.
Proof.
  exists (mk_station "DE-RuS" "CRO" 50.86591 6.44715).
  assert (Hf : filter (fun r => String.eqb (st_name r) "DE-RuS") _build_icos_meta
               = [mk_station "DE-RuS" "CRO" 50.86591 6.44715]) by (vm_compute; reflexivity).
  assert (H1 : (-12 <= st_lon (mk_station "DE-RuS" "CRO" 50.86591 6.44715))%Q)
    by (simpl; lra).
  assert (H2 : (st_lon (mk_station "DE-RuS" "CRO" 50.86591 6.44715) < 30)%Q)
    by (simpl; lra).
  split; [exact Hf|]. split; [exact H1|]. split; [exact H2|].
  destruct (proj1 (crs_is_utm_zone _ _ _ Hf) H1 H2) as [H _].
  rewrite H. reflexivity.
Defined.

(** ** [_ppfd_check]: stations without radiation columns *)

Lemma ppfd_loop_spec (icos_dir : string -> station_files) (site_list p0 r0 p r : list string) :
  ppfd_loop icos_dir site_list p0 r0 = inr (p, r) ->
  (forall s, s ∈ site_list -> exists c, fluxnet_frame s (icos_dir s) = inr c) /\
  p = p0 ++ filter (fun s => negb (frame_has icos_dir "PPFD_IN" s)) site_list /\
  r = r0 ++ filter (fun s => frame_has icos_dir "PPFD_IN" s &&
                             negb (frame_has icos_dir "SW_IN_F" s)) site_list.
Proof.
  revert p0 r0. induction site_list as [|s l IH]; intros p0 r0 H; simpl in H.
  - injection H as <- <-. rewrite !app_nil_r. split; [|auto].
    intros s Hs. now apply elem_of_nil in Hs.
  - destruct (fluxnet_frame s (icos_dir s)) as [e|c] eqn:Ef; [discriminate|].
    unfold isin_all in H. simpl in H. rewrite !andb_true_r in H.
    assert (Hp : frame_has icos_dir "PPFD_IN" s = bool_decide ("PPFD_IN" ∈ c))
      by (unfold frame_has; now rewrite Ef).
    assert (Hw : frame_has icos_dir "SW_IN_F" s = bool_decide ("SW_IN_F" ∈ c))
      by (unfold frame_has; now rewrite Ef).
    rewrite !filter_cons, Hp, Hw.
    destruct (bool_decide ("PPFD_IN" ∈ c)) eqn:E1; simpl in H |- *;
      [destruct (bool_decide ("SW_IN_F" ∈ c)) eqn:E2; simpl in H |- *|];
      apply IH in H as (Hall & -> & ->); (split; [|split]);
      try (intros s' Hs'; apply elem_of_cons in Hs' as [-> | Hs']; eauto);
      rewrite <- ?app_assoc; reflexivity.
Qed.

(** X20. When [_ppfd_check] returns, [no_ppfd] holds exactly the listed
    stations whose FLUXNET header has no PPFD_IN column, with or without
    SW_IN_F, and [no_rad] exactly those with PPFD_IN but without SW_IN_F.
    A station that lacks both columns is therefore in [no_ppfd] and never
    in [no_rad]; the two lists are disjoint and keep the order of the
    station list. *)
Theorem ppfd_check_classes (icos_dir : string -> station_files)
  (site_list no_ppfd no_rad : list string) :
  _ppfd_check icos_dir site_list = inr (no_ppfd, no_rad) ->
  (forall s, s ∈ no_ppfd <->
     s ∈ site_list /\ exists c, fluxnet_frame s (icos_dir s) = inr c /\ "PPFD_IN" ∉ c) /\
  (forall s, s ∈ no_rad <->
     s ∈ site_list /\ exists c, fluxnet_frame s (icos_dir s) = inr c /\
       "PPFD_IN" ∈ c /\ "SW_IN_F" ∉ c) /\
  (forall s, s ∈ no_ppfd -> s ∉ no_rad) /\
  no_ppfd `sublist_of` site_list /\ no_rad `sublist_of` site_list.
Proof.
  intros H. apply ppfd_loop_spec in H as (Hall & -> & ->). simpl.
  assert (H1 : forall s,
            s ∈ filter (fun s => negb (frame_has icos_dir "PPFD_IN" s)) site_list <->
            s ∈ site_list /\
            exists c, fluxnet_frame s (icos_dir s) = inr c /\ "PPFD_IN" ∉ c).
  { intros s. rewrite list_elem_of_filter. unfold frame_has. split.
    - intros [Hp Hs]. split; [exact Hs|]. destruct (Hall s Hs) as [c Hc].
      rewrite Hc in Hp. exists c. split; [exact Hc|].
      apply negb_prop_elim in Hp. now rewrite bool_decide_spec in Hp.
    - intros (Hs & c & Hc & Hn). split; [|exact Hs]. rewrite Hc.
      apply negb_prop_intro. now rewrite bool_decide_spec. }
  assert (H2 : forall s,
            s ∈ filter (fun s => frame_has icos_dir "PPFD_IN" s &&
                                 negb (frame_has icos_dir "SW_IN_F" s)) site_list <->
            s ∈ site_list /\
            exists c, fluxnet_frame s (icos_dir s) = inr c /\
              "PPFD_IN" ∈ c /\ "SW_IN_F" ∉ c).
  { intros s. rewrite list_elem_of_filter. unfold frame_has. split.
    - intros [Hp Hs]. split; [exact Hs|]. destruct (Hall s Hs) as [c Hc].
      rewrite Hc in Hp. exists c. split; [exact Hc|].
      apply andb_prop_elim in Hp as [Ha Hb]. apply negb_prop_elim in Hb.
      rewrite bool_decide_spec in Ha, Hb. auto.
    - intros (Hs & c & Hc & Hp & Hn). split; [|exact Hs]. rewrite Hc.
      apply andb_prop_intro. split; [now rewrite bool_decide_spec|].
      apply negb_prop_intro. now rewrite bool_decide_spec. }
  split; [exact H1|]. split; [exact H2|]. split.
  - intros s Hp Hr. apply H1 in Hp as (_ & c & Hc & Hn).
    apply H2 in Hr as (_ & c' & Hc' & Hp & _). congruence.
  - split; apply sublist_filter.
Qed.

Lemma ppfd_check_classes_witness :
  exists no_ppfd no_rad,
    _ppfd_check icos_dir4 ["DE-RuS"; "DE-HoH"; "FR-Bil"] = inr (no_ppfd, no_rad) /\
    "FR-Bil" ∈ no_ppfd /\ ("FR-Bil" ∉ no_rad).
Proof.
  destruct (_ppfd_check icos_dir4 ["DE-RuS"; "DE-HoH"; "FR-Bil"]) as [e|[no_ppfd no_rad]] eqn:E;
    [vm_compute in E; discriminate|].
  destruct (ppfd_check_classes _ _ _ _ E) as (H1 & _ & H3 & _).
  assert (Hin : "FR-Bil" ∈ no_ppfd).
  { apply H1. split; [right; right; left|].
    exists ["TIMESTAMP_START"; "TIMESTAMP_END"]. split; [reflexivity|].
    rewrite !elem_of_cons, elem_of_nil. intros [H|[H|[]]]; discriminate. }
  exists no_ppfd, no_rad. split; [reflexivity|]. split; [exact Hin|exact (H3 _ Hin)].
Defined.

(** X21. If a listed station has neither of the two ICOS FLUXNET files nor a
    FLX_ export, [_ppfd_check] raises the [RuntimeError] "No FLUXNET csv
    found" for a station of the list (the first one without a file), and
    returns no lists. *)
Theorem ppfd_check_missing_file (icos_dir : string -> station_files)
  (site_list : list string) (s : string) :
  s ∈ site_list ->
  fluxnet_interim (icos_dir s) = None -> fluxnet_l2 (icos_dir s) = None ->
  flx_fluxnet (icos_dir s) = [] ->
  exists s', s' ∈ site_list /\
    _ppfd_check icos_dir site_list = inl (RuntimeError (s' +:+ ": No FLUXNET csv found.")).
Proof.
  intros Hs H1 H2 H3. unfold _ppfd_check. generalize (@nil string) at 1 as p0.
  generalize (@nil string) as r0.
  induction site_list as [|a l IH]; intros r0 p0; [now apply elem_of_nil in Hs|].
  simpl. destruct (fluxnet_frame a (icos_dir a)) as [e|c] eqn:Ef.
  - exists a. split; [left|]. unfold fluxnet_frame in Ef.
    destruct (fluxnet_interim (icos_dir a)); [discriminate|].
    destruct (fluxnet_l2 (icos_dir a)); [discriminate|].
    destruct (flx_fluxnet (icos_dir a)); [|discriminate]. now injection Ef as <-.
  - assert (Hl : s ∈ l).
    { apply elem_of_cons in Hs as [-> | Hs]; [|exact Hs]. unfold fluxnet_frame in Ef.
      rewrite H1, H2, H3 in Ef. discriminate. }
    repeat match goal with
           | |- context [if ?b then _ else _] => destruct b
           end;
      match goal with
      | |- context [ppfd_loop icos_dir l ?p ?r] =>
          destruct (IH Hl r p) as (s' & Hs' & ->); exists s'; split;
          [now right|reflexivity]
      end.
Qed.

Lemma ppfd_check_missing_file_witness :
  ("IT-Tor" ∈ ["DE-RuS"; "IT-Tor"]) /\
  fluxnet_interim (icos_dir4 "IT-Tor") = None /\ fluxnet_l2 (icos_dir4 "IT-Tor") = None /\
  flx_fluxnet (icos_dir4 "IT-Tor") = [] /\
  exists s', _ppfd_check icos_dir4 ["DE-RuS"; "IT-Tor"]
             = inl (RuntimeError (s' +:+ ": No FLUXNET csv found.")).
Proof.
  assert (Hin : "IT-Tor" ∈ ["DE-RuS"; "IT-Tor"]) by (right; left).
  split; [exact Hin|]. split; [reflexivity|]. split; [reflexivity|]. split; [reflexivity|].
  destruct (ppfd_check_missing_file icos_dir4 _ "IT-Tor" Hin eq_refl eq_refl eq_refl)
    as (s' & _ & H). exists s'. exact H.
Defined.

(** ** [var_check]: stations that need the ERA5 boundary-layer height *)

Lemma var_counts_spec (icos_dir : string -> station_files) (site_list : list string)
  (counts : list nat) :
  var_counts icos_dir site_list = inr counts ->
  Forall2 (fun s n => exists c, fluxes_frame s (icos_dir s) = inr c /\ n = l2_var_count c)
    site_list counts.
Proof.
  revert counts. induction site_list as [|s l IH]; intros counts H; simpl in H.
  - injection H as <-. constructor.
  - destruct (fluxes_frame s (icos_dir s)) as [e|c] eqn:Ef; [discriminate|].
    destruct (var_counts icos_dir l) as [e|k]; [discriminate|]. injection H as <-.
    constructor; eauto.
Qed.

Lemma l2_var_count_3 (columns : list string) :
  l2_var_count columns = 3%nat <->
  "USTAR" ∈ drop 2 columns /\ "V_SIGMA" ∈ drop 2 columns /\
  "MO_LENGTH" ∈ drop 2 columns /\ "PBLH" ∉ drop 2 columns.
Proof.
  unfold l2_var_count, isin_all. simpl. set (c := drop 2 columns).
  rewrite !andb_true_r.
  destruct (bool_decide ("USTAR" ∈ c)) eqn:E1;
  destruct (bool_decide ("V_SIGMA" ∈ c)) eqn:E2;
  destruct (bool_decide ("MO_LENGTH" ∈ c)) eqn:E3;
  destruct (bool_decide ("PBLH" ∈ c)) eqn:E4;
  destruct (bool_decide ("WS" ∈ c)) eqn:E5;
  destruct (bool_decide ("WD" ∈ c)) eqn:E6; simpl;
  try apply bool_decide_eq_true in E1; try apply bool_decide_eq_false in E1;
  try apply bool_decide_eq_true in E2; try apply bool_decide_eq_false in E2;
  try apply bool_decide_eq_true in E3; try apply bool_decide_eq_false in E3;
  try apply bool_decide_eq_true in E4; try apply bool_decide_eq_false in E4;
  (split; [try discriminate; auto|intros (? & ? & ? & ?); try reflexivity; tauto]).
Qed.

(** X22. The stations [var_check] returns are exactly the listed stations
    whose FLUXES header, after its first two columns, has USTAR, V_SIGMA
    and MO_LENGTH but no PBLH, and which are not stations of the inventory
    whose [usable] marks sum to 0.  A station that has PBLH is never
    returned, whether or not WS and WD are missing. *)
Theorem var_check_era_sites (icos_dir : string -> station_files)
  (usable : list (string * Z)) (site_list miss : list string) :
  var_check icos_dir usable site_list = inr miss ->
  forall s, s ∈ miss <->
    s ∈ site_list /\ no_usable usable s = false /\
    exists c, fluxes_frame s (icos_dir s) = inr c /\
      "USTAR" ∈ drop 2 c /\ "V_SIGMA" ∈ drop 2 c /\ "MO_LENGTH" ∈ drop 2 c /\
      "PBLH" ∉ drop 2 c.
Proof.
  unfold var_check. intros H.
  destruct (icos_sites_check icos_dir site_list) as [e|[]]; [discriminate|].
  destruct (var_counts icos_dir site_list) as [e|counts] eqn:Ec; [discriminate|].
  injection H as <-. apply var_counts_spec in Ec. intros s.
  rewrite list_elem_of_filter.
  change (map fst ?l) with (fst <$> l). rewrite list_elem_of_fmap. split.
  - intros [Hn ([s' n] & -> & Hin)]. simpl in *.
    apply list_elem_of_filter in Hin as [H3 Hin]. simpl in H3.
    apply Is_true_true, Nat.eqb_eq in H3. subst n.
    apply list_elem_of_lookup in Hin as [i Hi].
    apply lookup_zip_with_Some in Hi as (x & y & Hxy & Hx & Hy). injection Hxy as <- <-.
    destruct (Forall2_lookup_lr _ _ _ _ _ _ Ec Hx Hy) as (c & Hc & H3).
    split; [eapply list_elem_of_lookup_2; eauto|].
    split; [now apply negb_prop_elim, Is_true_false in Hn|].
    exists c. split; [exact Hc|]. now apply l2_var_count_3.
  - intros (Hs & Hn & c & Hc & Hcols). split; [rewrite Hn; exact I|].
    apply list_elem_of_lookup in Hs as [i Hi].
    destruct (Forall2_lookup_l _ _ _ _ _ Ec Hi) as (n & Hn' & c' & Hc' & ->).
    assert (c' = c) by congruence. subst c'.
    exists (s, l2_var_count c). split; [reflexivity|].
    apply list_elem_of_filter. split.
    + simpl. apply Is_true_true, Nat.eqb_eq. now apply l2_var_count_3.
    + eapply list_elem_of_lookup_2. apply lookup_zip_with_Some. eauto.
Qed.

Lemma var_check_era_sites_witness :
  exists miss,
    var_check icos_dir4 usable4 ["DE-RuS"; "DE-HoH"; "FR-Bil"] = inr miss /\
    "DE-HoH" ∈ miss /\ ("DE-RuS" ∉ miss) /\ ("FR-Bil" ∉ miss).
Proof.
  destruct (var_check icos_dir4 usable4 ["DE-RuS"; "DE-HoH"; "FR-Bil"]) as [e|miss] eqn:E;
    [vm_compute in E; discriminate|].
  pose proof (var_check_era_sites _ _ _ _ E) as H.
  exists miss. split; [reflexivity|]. split; [|split].
  - apply H. split; [right; left|]. split; [reflexivity|].
    eexists. split; [reflexivity|]. simpl.
    rewrite !elem_of_cons, !elem_of_nil.
    repeat split; auto. intros Hp. repeat destruct Hp as [Hp|Hp]; try discriminate.
    exact Hp.
  - intros Hm. apply H in Hm as (_ & _ & c & Hc & _ & _ & _ & Hp).
    injection Hc as <-. apply Hp. simpl. right; right; right; left.
  - intros Hm. apply H in Hm as (_ & Hu & _). discriminate.
Defined.

Lemma icos_sites_check_spec (icos_dir : string -> station_files) (site_list : list string) :
  match icos_sites_check icos_dir site_list with
  | inl e => (exists msg, e = RuntimeError msg) /\
             exists s, s ∈ site_list /\ fluxes_interim (icos_dir s) = None /\
               fluxes_l2 (icos_dir s) = None /\ flx_fluxnet (icos_dir s) <> []
  | inr _ => forall s, s ∈ site_list -> fluxes_interim (icos_dir s) = None ->
               fluxes_l2 (icos_dir s) = None -> flx_fluxnet (icos_dir s) = []
  end.
Proof.
  induction site_list as [|a l IH]; simpl.
  - intros s Hs. now apply elem_of_nil in Hs.
  - unfold icos_site_check.
    destruct (fluxes_interim (icos_dir a)) eqn:E1; [|destruct (fluxes_l2 (icos_dir a)) eqn:E2;
      [|destruct (flx_fluxnet (icos_dir a)) eqn:E3]].
    4:{ split; [eauto|]. exists a. rewrite E1, E2, E3. repeat split; [left|discriminate]. }
    all: destruct (icos_sites_check icos_dir l) as [e|u];
      [destruct IH as (Hm & s & Hs & Hrest); split; [exact Hm|];
       exists s; split; [now right|exact Hrest]
      |intros s Hs Hi Hl; apply elem_of_cons in Hs as [-> | Hs]; [congruence|eauto]].
Qed.

Lemma var_counts_error (icos_dir : string -> station_files) (site_list : list string)
  (s : string) :
  s ∈ site_list -> fluxes_interim (icos_dir s) = None -> fluxes_l2 (icos_dir s) = None ->
  exists file, var_counts icos_dir site_list = inl (FileNotFoundError file).
Proof.
  intros Hs H1 H2. induction site_list as [|a l IH]; [now apply elem_of_nil in Hs|].
  simpl. destruct (fluxes_frame a (icos_dir a)) as [e|c] eqn:Ef.
  - unfold fluxes_frame in Ef. destruct (fluxes_interim (icos_dir a)); [discriminate|].
    destruct (fluxes_l2 (icos_dir a)); [discriminate|]. injection Ef as <-. eauto.
  - apply elem_of_cons in Hs as [-> | Hs].
    + unfold fluxes_frame in Ef. rewrite H1, H2 in Ef. discriminate.
    + destruct (IH Hs) as [file ->]. eauto.
Qed.

(** X23. If a listed station has neither FLUXES file, [var_check] never
    returns a list.  It raises the [RuntimeError] "NOT an ICOS site" exactly
    when some listed station without FLUXES files has a FLX_ export;
    otherwise the exception built for a station without any file is not
    raised, and the call fails with [FileNotFoundError] when the header is
    read. *)
Theorem var_check_unknown_site (icos_dir : string -> station_files)
  (usable : list (string * Z)) (site_list : list string) (s : string) :
  s ∈ site_list -> fluxes_interim (icos_dir s) = None -> fluxes_l2 (icos_dir s) = None ->
  exists e, var_check icos_dir usable site_list = inl e /\
    ((exists msg, e = RuntimeError msg) <->
     exists s', s' ∈ site_list /\ fluxes_interim (icos_dir s') = None /\
       fluxes_l2 (icos_dir s') = None /\ flx_fluxnet (icos_dir s') <> []).
Proof.
  intros Hs H1 H2. unfold var_check.
  pose proof (icos_sites_check_spec icos_dir site_list) as Hc.
  destruct (icos_sites_check icos_dir site_list) as [e|u].
  - exists e. split; [reflexivity|]. tauto.
  - destruct (var_counts_error icos_dir site_list s Hs H1 H2) as [file ->].
    eexists. split; [reflexivity|]. split; [intros [msg Hm]; discriminate|].
    intros (s' & Hs' & Hi & Hl & Hne). exfalso. apply Hne. eauto.
Qed.

Lemma var_check_unknown_site_witness :
  ("IT-Tor" ∈ ["DE-RuS"; "IT-Tor"]) /\
  fluxes_interim (icos_dir4 "IT-Tor") = None /\ fluxes_l2 (icos_dir4 "IT-Tor") = None /\
  exists file, var_check icos_dir4 usable4 ["DE-RuS"; "IT-Tor"] = inl (FileNotFoundError file).
Proof.
  assert (Hin : "IT-Tor" ∈ ["DE-RuS"; "IT-Tor"]) by (right; left).
  split; [exact Hin|]. split; [reflexivity|]. split; [reflexivity|].
  destruct (var_check_unknown_site icos_dir4 usable4 _ "IT-Tor" Hin eq_refl eq_refl)
    as (e & He & _).
  destruct e as [msg|file]; [vm_compute in He; discriminate|]. exists file. exact He.
Defined.

(** ** [prisma_crop]: bands and wavelengths stay aligned *)

Lemma filter_range_zip {A : Type} (a b s : nat) (l : list A) :
  (a <= b)%nat ->
  filter (fun iv : nat * A => negb (bool_decide (iv.1 ∈ seq a (b - a))))
    (zip (seq s (length l)) l)
  = take (a - s) (zip (seq s (length l)) l) ++ drop (b - s) (zip (seq s (length l)) l).
Proof.
  intros Hab. revert s. induction l as [|x l IH]; intros s; simpl.
  - now rewrite take_nil, drop_nil.
  - rewrite filter_cons. simpl.
    destruct (decide (s ∈ seq a (b - a))) as [Hin|Hout].
    + rewrite bool_decide_eq_true_2 by exact Hin. simpl.
      apply elem_of_seq in Hin. rewrite IH.
      replace (a - s)%nat with 0%nat by lia. replace (a - S s)%nat with 0%nat by lia.
      replace (b - s)%nat with (S (b - S s)) by lia. reflexivity.
    + rewrite bool_decide_eq_false_2 by exact Hout. simpl.
      rewrite elem_of_seq in Hout. rewrite IH.
      destruct (le_lt_dec a s) as [Has|Has].
      * replace (a - s)%nat with 0%nat by lia. replace (a - S s)%nat with 0%nat by lia.
        replace (b - s)%nat with 0%nat by lia. replace (b - S s)%nat with 0%nat by lia.
        reflexivity.
      * replace (a - s)%nat with (S (a - S s)) by lia.
        replace (b - s)%nat with (S (b - S s)) by lia. reflexivity.
Qed.

Lemma flip_drop_spec (cw : list Q) (a b : nat) :
  (a <= b)%nat -> (b <= length cw)%nat ->
  exists lv, flip_drop cw a b = Ok lv /\
    lv.*2 = kept_flipped a b cw /\
    lv.*1 = take a (seq 0 (length cw)) ++ drop b (seq 0 (length cw)).
Proof.
  intros Hab Hb. unfold flip_drop.
  assert (Hall : forallb (fun i => (i <? length cw)%nat) (seq a (b - a)) = true).
  { apply forallb_forall. intros i Hi. apply list_elem_of_In, elem_of_seq in Hi.
    apply Nat.ltb_lt. lia. }
  rewrite Hall. eexists. split; [reflexivity|]. unfold enumerate.
  rewrite filter_range_zip by exact Hab. rewrite !Nat.sub_0_r, !fmap_app.
  rewrite !fmap_take, !fmap_drop, snd_zip, fst_zip by (rewrite length_seq; lia).
  rewrite length_rev. split; reflexivity.
Qed.

Lemma mapM_app {A B : Type} (f : A -> result B) (l1 l2 : list A) (r1 r2 : list B) :
  mapM f l1 = Ok r1 -> mapM f l2 = Ok r2 -> mapM f (l1 ++ l2) = Ok (r1 ++ r2).
Proof.
  revert r1. induction l1 as [|x l1 IH]; intros r1 H1 H2; simpl in *.
  - injection H1 as <-. exact H2.
  - apply bind_Ok in H1 as (y & Hy & H1). apply bind_Ok in H1 as (k & Hk & H1).
    injection H1 as <-. rewrite Hy. simpl. rewrite (IH _ Hk H2). reflexivity.
Qed.

Lemma take_bands_seq (refl : list (list Q)) (s k : nat) :
  (s + k <= length refl)%nat ->
  take_bands refl (seq s k) = Ok (take k (drop s refl)).
Proof.
  unfold take_bands. revert s. induction k as [|k IH]; intros s Hs; simpl.
  - now rewrite take_0.
  - destruct (lookup_lt_is_Some_2 refl s) as [x Hx]; [lia|]. rewrite Hx. simpl.
    rewrite IH by lia. simpl. f_equal.
    rewrite (drop_S _ _ _ Hx). reflexivity.
Qed.

Lemma take_bands_kept (refl : list (list Q)) (a b n : nat) :
  (a <= b)%nat -> (b <= n)%nat -> length refl = n ->
  take_bands refl (take a (seq 0 n) ++ drop b (seq 0 n))
  = Ok (take a refl ++ drop b refl).
Proof.
  intros Hab Hb Hn. rewrite take_seq, drop_seq. simpl.
  apply mapM_app.
  - fold (take_bands refl (seq 0 (a `min` n))). rewrite take_bands_seq by lia.
    rewrite drop_0. f_equal. f_equal. lia.
  - fold (take_bands refl (seq b (n - b))). rewrite take_bands_seq by lia.
    f_equal. apply take_ge. rewrite length_drop. lia.
Qed.

Lemma reflectance_length (smin smax : Q) (cube : raster) :
  length (reflectance smin smax cube) = length (r_bands cube).
Proof. unfold reflectance. now rewrite length_map, length_rev. Qed.

Lemma reflectance_kept (smin smax : Q) (cube : raster) (a b : nat) :
  take a (reflectance smin smax cube) ++ drop b (reflectance smin smax cube)
  = map (map (fun dn => (smin + dn * (smax - smin)) / 65535)%Q)
      (kept_flipped a b (r_bands cube)).
Proof.
  unfold reflectance, kept_flipped.
  change (map ?f ?l) with (f <$> l). now rewrite fmap_app, fmap_take, fmap_drop.
Qed.

(** X24. With fewer than 66 VNIR centre wavelengths [prisma_crop] raises a
    [KeyError].  With at least 66 VNIR and 6 SWIR centre wavelengths, as
    many bands as wavelengths in each cube and cubes of one spatial shape,
    the import with [swir] returns: both the wavelength lists and the
    cubes are read backwards, positions 63 to 65 of the flipped VNIR part
    and 0 to 5 of the flipped SWIR part are dropped from both alike, VNIR
    precedes SWIR, and the digital numbers are scaled to
    (min + DN * (max - min)) / 65535.  So every band keeps its centre
    wavelength, and there is one wavelength per band. *)
Theorem prisma_bands_keep_their_wavelengths (h5 : prisma_h5) :
  ((length (List_Cw_Vnir h5) < 66)%nat ->
     forall swir, exists msg, prisma_cube h5 swir = Raise (KeyError msg)) /\
  ((66 <= length (List_Cw_Vnir h5))%nat ->
   length (r_bands (VNIR_Cube h5)) = length (List_Cw_Vnir h5) ->
   (6 <= length (List_Cw_Swir h5))%nat ->
   length (r_bands (SWIR_Cube h5)) = length (List_Cw_Swir h5) ->
   r_rows (VNIR_Cube h5) = r_rows (SWIR_Cube h5) ->
   r_cols (VNIR_Cube h5) = r_cols (SWIR_Cube h5) ->
   exists cube wls,
     prisma_cube h5 true = Ok (cube, wls) /\
     wls = kept_flipped 63 66 (List_Cw_Vnir h5) ++ kept_flipped 0 6 (List_Cw_Swir h5) /\
     r_bands cube
     = map (map (fun dn => (L2ScaleVnirMin h5 + dn * (L2ScaleVnirMax h5 - L2ScaleVnirMin h5))
                            / 65535)%Q)
         (kept_flipped 63 66 (r_bands (VNIR_Cube h5)))
       ++ map (map (fun dn => (L2ScaleSwirMin h5 + dn * (L2ScaleSwirMax h5 - L2ScaleSwirMin h5))
                              / 65535)%Q)
            (kept_flipped 0 6 (r_bands (SWIR_Cube h5))) /\
     length (r_bands cube) = length wls).
Proof.
  split.
  - intros Hlt swir. unfold prisma_cube, flip_drop.
    assert (Hall : forallb (fun i => (i <? length (List_Cw_Vnir h5))%nat) (seq 63 (66 - 63))
                   = false).
    { apply not_true_is_false. intros H. rewrite forallb_forall in H.
      specialize (H 65%nat). rewrite Nat.ltb_lt in H.
      assert (65 < length (List_Cw_Vnir h5))%nat; [|lia].
      apply H. simpl. auto. }
    rewrite Hall. simpl. eauto.
  - intros Hv Hvc Hs Hsc Hrows Hcols. unfold prisma_cube.
    destruct (flip_drop_spec (List_Cw_Vnir h5) 63 66) as (lv & -> & Hv2 & Hv1); [lia|lia|].
    destruct (flip_drop_spec (List_Cw_Swir h5) 0 6) as (ls & -> & Hs2 & Hs1); [lia|lia|].
    simpl. rewrite Hv1, Hs1.
    rewrite take_bands_kept by (rewrite ?reflectance_length; lia). simpl.
    rewrite take_bands_kept by (rewrite ?reflectance_length; lia). simpl.
    rewrite Hrows, Hcols, !Nat.eqb_refl. simpl.
    eexists _, _. split; [reflexivity|]. simpl. rewrite Hv2, Hs2, <- !reflectance_kept.
    split; [reflexivity|]. split; [reflexivity|].
    unfold kept_flipped. rewrite !length_app, !length_take, !length_drop.
    rewrite !reflectance_length, !length_rev. lia.
Qed.

Lemma prisma_bands_keep_their_wavelengths_witness :
  exists cube wls,
    prisma_cube h5_239 true = Ok (cube, wls) /\
    length wls = 230%nat /\ length (r_bands cube) = 230%nat /\
    wls !! 0%nat = Some (inject_Z 415) /\ wls !! 63%nat = Some (inject_Z 1006).
Proof.
  assert (H1 : (66 <= length (List_Cw_Vnir h5_239))%nat) by (vm_compute; lia).
  assert (H2 : (6 <= length (List_Cw_Swir h5_239))%nat) by (vm_compute; lia).
  destruct (proj2 (prisma_bands_keep_their_wavelengths h5_239) H1 eq_refl H2 eq_refl
              eq_refl eq_refl) as (cube & wls & H & Hw & Hb & Hl).
  exists cube, wls. split; [exact H|]. subst wls. rewrite Hl.
  repeat split; reflexivity.
Defined.

(** ** [hsi_add_spei_ppi] and [load_spei_ppi_db]: the covariates file *)

Lemma append_inj_l (s a b : string) : s +:+ a = s +:+ b -> a = b.
Proof. induction s as [|c s IH]; simpl; [auto|]. intros H. injection H as H. auto. Qed.

Lemma covars_fname_mask (sensor sr aggr : string) (zonal upw : bool) :
  covars_fname sensor (mk_ptype sr zonal upw aggr)
  <> covars_fname sensor (mk_ptype sr (negb zonal) upw aggr).
Proof.
  unfold covars_fname, mk_ptype, mask, p_sr. intros H.
  do 5 apply append_inj_l in H. destruct zonal; discriminate.
Qed.

Lemma load_spei_ppi_db_lookup (sensor : string) (out_dir : gmap string (list hsi_row))
  (sr : string) (zonal upw : bool) (aggr : string) :
  load_spei_ppi_db sensor out_dir sr zonal upw aggr
  = (let p := mk_ptype (reset_sr upw sr) zonal upw aggr in
     gdf ← of_option (FileNotFound (covars_fname sensor p))
             (out_dir !! covars_fname sensor p);
     Ok (p, gdf)).
Proof. reflexivity. Qed.

(** X25. After [load_cropped_db] has set the processing type, the file
    [hsi_add_spei_ppi] saves under is not the file that was loaded, it is
    the file [load_spei_ppi_db] reads when called with the same arguments,
    and it is not the file [load_spei_ppi_db] asks for with the other
    mask: in a folder that does not hold that other file the call fails
    with [FileNotFound]. *)
Theorem covariates_follow_last_load (sensor : string)
  (out_dir : gmap string (list hsi_row)) (sr : string) (zonal upw : bool) (aggr : string)
  (p : ptype) (gdf g : list hsi_row) :
  load_cropped_db sensor out_dir sr zonal upw aggr = Ok (p, gdf) ->
  covars_fname sensor p <> fname sensor p /\
  (forall dir, dir !! covars_fname sensor p = Some g ->
     load_spei_ppi_db sensor dir sr zonal upw aggr = Ok (p, g)) /\
  (forall dir file,
     file = covars_fname sensor (mk_ptype (reset_sr upw sr) (negb zonal) upw aggr) ->
     dir !! file = None ->
     load_spei_ppi_db sensor (<[covars_fname sensor p := g]> dir) sr (negb zonal) upw aggr
     = Raise (FileNotFound file)).
Proof.
  unfold load_cropped_db. intros H. apply bind_Ok in H as (gdf' & _ & H).
  injection H as <- <-. split; [|split].
  - unfold covars_fname, fname. intros H.
    do 10 apply append_inj_l in H. discriminate.
  - intros dir Hd. rewrite load_spei_ppi_db_lookup. simpl. rewrite Hd. reflexivity.
  - intros dir file -> Hd. rewrite load_spei_ppi_db_lookup. simpl.
    rewrite lookup_insert_ne by apply covars_fname_mask. rewrite Hd. reflexivity.
Qed.

Lemma covariates_follow_last_load_witness :
  let dir : gmap string (list hsi_row) := {[ "all_sites_PRISMA_vnir_zst_ref_na.gpkg" := [] ]} in
  exists p gdf,
    load_cropped_db "PRISMA" dir "vnir" true false "na" = Ok (p, gdf) /\
    load_spei_ppi_db "PRISMA" (<[covars_fname "PRISMA" p := gdf]> dir) "vnir" false false "na"
    = Raise (FileNotFound "all_sites_PRISMA_vnir_ffp_ref_na_covars.gpkg").
Proof.
  intros dir.
  destruct (load_cropped_db "PRISMA" dir "vnir" true false "na") as [[p gdf]|e] eqn:E;
    [|vm_compute in E; discriminate].
  destruct (covariates_follow_last_load _ _ _ _ _ _ _ _ gdf E) as (_ & _ & H).
  exists p, gdf. split; [reflexivity|].
  apply (H dir _ eq_refl). reflexivity.
Defined.

(** ** The stations of [_build_icos_meta] *)

(** X26. The table [_build_icos_meta] returns has 77 rows in strictly
    ascending order of their names.  For every station of the table the
    ecosystem class has a zonal radius and is covered by the canopy-height
    rules of [_load_icos_subset]; [_crs_calc] raises a [ValueError] for
    the two stations RU-Fy2 and RU-Fyo, which lie east of 30 degrees, and
    returns the UTM zone of the longitude for every other station. *)
Theorem table_stations_supported :
  length _build_icos_meta = 77%nat /\
  Sorted (fun a b => String.ltb a b = true) (st_name <$> _build_icos_meta) /\
  forall r, r ∈ _build_icos_meta ->
    is_ok (zonal_radius (st_ecosystem r)) /\
    (st_ecosystem r ∈ forest_classes ++ low_classes ++ ["WET"]) /\
    (st_name r ∈ ["RU-Fy2"; "RU-Fyo"] ->
       exists msg, _crs_calc _build_icos_meta (st_name r) = Raise (ValueError msg)) /\
    (st_name r ∉ ["RU-Fy2"; "RU-Fyo"] ->
       _crs_calc _build_icos_meta (st_name r) = Ok (32600 + utm_zone (st_lon r))%Z).
Proof.
  split; [reflexivity|]. split.
  { unfold _build_icos_meta, icos_meta_rows. simpl.
    repeat (constructor; try reflexivity). }
  intros r Hr.
  assert (Hchk : forallb (fun r =>
             match zonal_radius (st_ecosystem r) with Ok _ => true | Raise _ => false end
             && bool_decide (st_ecosystem r ∈ forest_classes ++ low_classes ++ ["WET"])
             && match _crs_calc _build_icos_meta (st_name r) with
                | Ok z => negb (bool_decide (st_name r ∈ ["RU-Fy2"; "RU-Fyo"]))
                          && (z =? 32600 + utm_zone (st_lon r))%Z
                | Raise (ValueError _) => bool_decide (st_name r ∈ ["RU-Fy2"; "RU-Fyo"])
                | Raise _ => false
                end)
            _build_icos_meta = true) by (vm_compute; reflexivity).
  rewrite forallb_forall in Hchk. apply list_elem_of_In, Hchk in Hr.
  apply andb_true_iff in Hr as [Hr Hcrs]. apply andb_true_iff in Hr as [Hz He].
  split; [|split; [|split]].
  - destruct (zonal_radius (st_ecosystem r)); [eexists; reflexivity|discriminate].
  - now apply bool_decide_eq_true in He.
  - intros Hru. destruct (_crs_calc _build_icos_meta (st_name r)) as [z|[]]; try discriminate.
    + apply andb_true_iff in Hcrs as [Hcrs _].
      apply negb_true_iff, bool_decide_eq_false in Hcrs. contradiction.
    + eauto.
  - intros Hru. destruct (_crs_calc _build_icos_meta (st_name r)) as [z|[]]; try discriminate.
    + apply andb_true_iff in Hcrs as [_ Hcrs]. apply Z.eqb_eq in Hcrs. now subst z.
    + apply bool_decide_eq_true in Hcrs. contradiction.
Qed.

(** ** [hsi_qc]: which image a status belongs to *)

Lemma datelist_of_elem (db : list img_row) (site : string) (date : option Z)
  (ix : nat) (d : Z) :
  (ix, d) ∈ datelist_of db site date ->
  exists r, db !! ix = Some r /\ name r = site.
Proof.
  unfold datelist_of. intros H. apply list_elem_of_omap in H as ([i r] & Hin & H).
  simpl in H. destruct (String.eqb (name r) site) eqn:En; [|discriminate].
  destruct (match date with Some d0 => _ | None => true end); [|discriminate].
  simpl in H. injection H as <- <-. exists r. split; [|now apply String.eqb_eq].
  unfold enumerate in Hin. apply list_elem_of_lookup in Hin as [k Hk].
  apply lookup_zip_with_Some in Hk as (x & y & Hxy & Hx & Hy). injection Hxy as <- <-.
  apply lookup_seq in Hx as [-> _]. exact Hy.
Qed.

Section QCProps.
Context (sensor : string) (flx_loc : option (list (string * Z))).
Context (site_geom : string -> Z -> result unit).
Context (files : string -> string -> qc_files).
Context (db : list img_row) (date : option Z) (overwrite save : bool).

(** The status [st] was found for the image at position [ix]. *)
Let status_of (ix : nat) (st : qc_status) : Prop :=
  exists r, db !! ix = Some r /\
    (st = missing \/
     qc_one sensor overwrite save (files (name r) (dataTakeID r)) = Ok st).

Lemma qc_site_statuses (site : string) (sts : list qc_status) :
  qc_site sensor flx_loc site_geom files db date overwrite save site = Ok sts ->
  Forall2 status_of (datelist_of db site date).*1 sts.
Proof.
  unfold qc_site. intros H. apply bind_Ok in H as (dtakes & Hdt & H).
  set (datelist := datelist_of db site date) in *.
  assert (Hrows : Forall2 (fun d dt => exists r, db !! d.1 = Some r /\ name r = site /\
                                         dt = dataTakeID r) datelist dtakes).
  { apply Forall2_same_length_lookup. split.
    - symmetry. eapply mapM_Ok_length; eauto.
    - intros i [ix d] dt Hi Hdti.
      destruct (mapM_Ok_lookup _ _ _ _ _ Hdt Hi) as (dt' & Hdt' & Hf).
      rewrite Hdti in Hdt'. injection Hdt' as <-. simpl in Hf.
      apply list_elem_of_lookup_2 in Hi. apply datelist_of_elem in Hi as (r & Hr & Hn).
      rewrite Hr in Hf. simpl in Hf. injection Hf as <-. eauto. }
  destruct (forallb _ dtakes).
  - injection H as <-. apply Forall2_same_length_lookup. split.
    + now rewrite length_fmap, length_replicate.
    + intros i ix st Hi Hst. apply lookup_replicate in Hst as [-> _].
      rewrite list_lookup_fmap in Hi. destruct (datelist !! i) as [[ix' d]|] eqn:Hd;
        [|discriminate]. simpl in Hi. injection Hi as <-.
      apply list_elem_of_lookup_2, datelist_of_elem in Hd as (r & Hr & _).
      exists r. auto.
  - apply bind_Ok in H as (fl & _ & H). apply bind_Ok in H as (x & _ & H).
    apply bind_Ok in H as (u & _ & H).
    apply Forall2_same_length_lookup. split.
    + rewrite length_fmap, (mapM_Ok_length _ _ _ H). eapply Forall2_length; eauto.
    + intros i ix st Hi Hst. rewrite list_lookup_fmap in Hi.
      destruct (datelist !! i) as [[ix' d]|] eqn:Hd; [|discriminate].
      simpl in Hi. injection Hi as <-.
      destruct (Forall2_lookup_l _ _ _ _ _ Hrows Hd) as (dt & Hdti & r & Hr & Hn & ->).
      destruct (mapM_Ok_lookup _ _ _ _ _ H Hdti) as (st' & Hst' & Hone).
      rewrite Hst in Hst'. injection Hst' as <-.
      exists r. split; [exact Hr|]. right. simpl in Hn. now rewrite Hn.
Qed.

Lemma qc_sites_statuses (icos_list : list string) (l : list (list qc_status)) :
  mapM (qc_site sensor flx_loc site_geom files db date overwrite save) icos_list = Ok l ->
  Forall2 status_of (qc_positions db date icos_list) (concat l).
Proof.
  unfold qc_positions. revert l. induction icos_list as [|s rest IH]; intros l H; simpl in H.
  - injection H as <-. constructor.
  - apply bind_Ok in H as (sts & Hs & H). apply bind_Ok in H as (l' & Hl & H).
    injection H as <-. simpl. apply Forall2_app; [now apply qc_site_statuses|auto].
Qed.

Lemma qc_one_without_save (f : qc_files) (st : qc_status) :
  save = false -> qc_one sensor overwrite save f = Ok st -> st <> nodata_warn.
Proof.
  intros -> H. unfold qc_one in H.
  repeat match type of H with
         | (if ?b then _ else _) = _ => destruct b
         end; try discriminate; try (injection H as <-; discriminate).
  destruct (qc_try f) as [u|e].
  - apply bind_Ok in H as (na & _ & H). simpl in H. injection H as <-. discriminate.
  - destruct e; try discriminate.
    destruct (String.eqb _ _); [injection H as <-|]; discriminate.
Qed.

(** X27. When [hsi_qc] returns, the frame has as many rows as the longer of
    the inventory and the list of checked images.  Row [k] carries the
    name and data-take of inventory row [k] and the status of the [k]-th
    image checked, the images being taken station by station in the order
    of the station list: a status found for that image, or "missing" when
    no image of its station is on disk.  Name and status belong to the
    same image when the [k]-th image checked is inventory row [k].
    Without [save] no status is "nodata_warn". *)
Theorem qc_status_by_position (icos_list : list string)
  (frame : list (option (string * string) * option qc_status)) :
  hsi_qc sensor flx_loc site_geom files db date overwrite save icos_list = Ok frame ->
  let positions := qc_positions db date icos_list in
  length frame = (length db `max` length positions)%nat /\
  forall k row, frame !! k = Some row ->
    row.1 = (fun r => (name r, dataTakeID r)) <$> db !! k /\
    match positions !! k with
    | None => row.2 = None
    | Some ix =>
        exists r st, db !! ix = Some r /\ row.2 = Some st /\
          (st = missing \/
           qc_one sensor overwrite save (files (name r) (dataTakeID r)) = Ok st) /\
          (save = false -> st <> nodata_warn)
    end.
Proof.
  intros H positions. unfold hsi_qc in H. apply bind_Ok in H as (l & Hl & H).
  injection H as <-. apply qc_sites_statuses in Hl. fold positions in Hl.
  pose proof (Forall2_length _ _ _ Hl) as Hlen.
  unfold concat_axis1. rewrite length_map, length_seq, length_map, <- Hlen.
  split; [reflexivity|]. intros k row Hk.
  change (map ?g ?x) with (g <$> x) in Hk. rewrite list_lookup_fmap in Hk.
  destruct (seq 0 _ !! k) as [k'|] eqn:Hs; [|discriminate].
  apply lookup_seq in Hs as [-> _]. simpl in Hk. injection Hk as <-. simpl.
  split; [now rewrite list_lookup_fmap|].
  destruct (positions !! k) as [ix|] eqn:Hp.
  - destruct (Forall2_lookup_l _ _ _ _ _ Hl Hp) as (st & Hst & r & Hr & Hone).
    exists r, st. split; [exact Hr|]. split; [exact Hst|]. split; [exact Hone|].
    intros Hsave. destruct Hone as [-> | Hone]; [discriminate|].
    eapply qc_one_without_save; eauto.
  - apply lookup_ge_None in Hp. apply lookup_ge_None. lia.
Qed.
End QCProps.

Lemma qc_status_by_position_witness :
  exists frame,
    hsi_qc "PRISMA" (Some flx_loc3) (fun _ _ => Ok tt) qc_dir3 db3 None false true
      ["DE-Hte"; "DE-RuS"] = Ok frame /\
    qc_positions db3 None ["DE-Hte"; "DE-RuS"] = [2; 0; 1]%nat /\
    length frame = 3%nat /\
    frame !! 0%nat = Some (Some ("DE-RuS", "20200615104112"), Some missing) /\
    frame !! 2%nat = Some (Some ("DE-Hte", "20200615105003"), Some good).
Proof.
  destruct (hsi_qc "PRISMA" (Some flx_loc3) (fun _ _ => Ok tt) qc_dir3 db3 None false true
              ["DE-Hte"; "DE-RuS"]) as [frame|e] eqn:E; [|vm_compute in E; discriminate].
  destruct (qc_status_by_position _ _ _ _ _ _ _ _ _ _ E) as [Hlen _].
  exists frame. split; [reflexivity|]. split; [reflexivity|]. split; [exact Hlen|].
  vm_compute in E. injection E as <-. split; reflexivity.
Defined.

(** ** [icos_cds_get]: the range check before a request *)

(** X28. The range check of [icos_cds_get] accepts a station exactly when
    its latitude lies strictly between 30 and 70 and its longitude strictly
    between -15 and 45 degrees.  A station with such a latitude for which
    [_crs_calc] returns a zone is accepted, the longitudes of the UTM
    zones 29 to 35 being within that range; and every station of the
    table [_build_icos_meta] is accepted, the two east of 30 degrees
    included. *)
Theorem cds_range_wider_than_utm_range :
  (forall icos_db site r,
     filter (fun r => String.eqb (st_name r) site) icos_db = [r] ->
     (cds_range_check icos_db site = Ok tt <->
      (30 < st_lat r)%Q /\ (st_lat r < 70)%Q /\ (-15 < st_lon r)%Q /\ (st_lon r < 45)%Q) /\
     (is_ok (_crs_calc icos_db site) -> (30 < st_lat r)%Q -> (st_lat r < 70)%Q ->
      cds_range_check icos_db site = Ok tt)) /\
  (forall r, r ∈ _build_icos_meta -> cds_range_check _build_icos_meta (st_name r) = Ok tt).
Proof.
  split.
  - intros icos_db site r Hr. split.
    + unfold cds_range_check. rewrite Hr. simpl.
      destruct (Qltb 30 (st_lat r)) eqn:E1; destruct (Qltb (st_lat r) 70) eqn:E2;
      destruct (Qltb (-15) (st_lon r)) eqn:E3; destruct (Qltb (st_lon r) 45) eqn:E4; simpl;
      try apply Qltb_lt in E1; try apply Qltb_ge in E1;
      try apply Qltb_lt in E2; try apply Qltb_ge in E2;
      try apply Qltb_lt in E3; try apply Qltb_ge in E3;
      try apply Qltb_lt in E4; try apply Qltb_ge in E4;
      (split; [intros H; try discriminate; auto|intros (? & ? & ? & ?); try reflexivity; lra]).
    + intros [z Hz] H1 H2.
      assert (Hlon : (-12 <= st_lon r)%Q /\ (st_lon r < 30)%Q).
      { destruct (Qlt_le_dec (st_lon r) (-12)) as [Ha|Ha];
          [destruct (_crs_calc_out_of_range _ _ _ Hr (or_introl Ha)) as [msg Hm]; congruence|].
        destruct (Qlt_le_dec (st_lon r) 30) as [Hb|Hb]; [auto|].
        destruct (_crs_calc_out_of_range _ _ _ Hr (or_intror Hb)) as [msg Hm]; congruence. }
      destruct Hlon as [H3 H4]. unfold cds_range_check. rewrite Hr. simpl.
      rewrite (proj2 (Qltb_lt 30 _) H1), (proj2 (Qltb_lt _ 70) H2).
      rewrite (proj2 (Qltb_lt (-15) (st_lon r))) by lra.
      rewrite (proj2 (Qltb_lt (st_lon r) 45)) by lra. reflexivity.
  - intros r Hr.
    assert (Hchk : forallb (fun r => match cds_range_check _build_icos_meta (st_name r) with
                                     | Ok _ => true
                                     | Raise _ => false
                                     end) _build_icos_meta = true) by (vm_compute; reflexivity).
    rewrite forallb_forall in Hchk. apply list_elem_of_In, Hchk in Hr.
    destruct (cds_range_check _build_icos_meta (st_name r)) as [[]|]; [reflexivity|discriminate].
Qed.

(** ** [crs_and_cropping]: the sensor CRS of a station *)

(** X29. For a station with one row in the station table, the sensor CRS
    that [crs_and_cropping] records is: the UTM zone of the station's
    longitude ([_crs_calc], which may raise) when the inventory has no
    image of the station; the CRS of the first image's crop when every
    crop is on disk and nothing is overwritten, whatever the raw files
    say; and, when some image is decoded with a CRS and all decoded images
    agree on it, that CRS, the crops on disk being ignored. *)
Theorem site_crs_sources (icos_db : list station) (crop_crs : scene -> option Z)
  (src_crs : scene -> Z) (idxmax : list Z -> Z) (overwrite : bool) (site : string)
  (scenes : list scene) (r : station) :
  filter (fun r => String.eqb (st_name r) site) icos_db = [r] ->
  (forall l, l <> [] -> idxmax l ∈ l) ->
  (scenes = [] ->
     site_crs icos_db crop_crs src_crs idxmax overwrite (site, scenes)
     = (z ← _crs_calc icos_db site; Ok (Some z))) /\
  (forall sc rest, scenes = sc :: rest -> forallb crop_exists scenes = true ->
     overwrite = false ->
     site_crs icos_db crop_crs src_crs idxmax overwrite (site, scenes) = Ok (crop_crs sc)) /\
  (forall c c',
     site_crs icos_db crop_crs src_crs idxmax overwrite (site, scenes) = Ok c' ->
     (exists sc, sc ∈ scenes /\ is_decoded overwrite sc = true /\ src_crs sc <> 0%Z) ->
     (forall sc, sc ∈ scenes -> is_decoded overwrite sc = true ->
        src_crs sc = 0%Z \/ src_crs sc = c) ->
     c' = Some c).
Proof.
  intros Hr Hmax. unfold site_crs. simpl. rewrite Hr. simpl. split; [|split].
  - intros ->. simpl. destruct overwrite; reflexivity.
  - intros sc rest -> Hall ->. rewrite Hall. simpl. unfold import_crs.
    simpl in Hall. apply andb_true_iff in Hall as [Hsc _].
    rewrite filter_cons. rewrite Hsc. reflexivity.
  - intros c c' H (sc & Hin & Hdec & Hne) Hsame.
    assert (Hgate : forallb crop_exists scenes && negb overwrite = false).
    { apply not_true_is_false. intros E. apply andb_true_iff in E as [Ha Ho].
      rewrite forallb_forall in Ha. apply list_elem_of_In, Ha in Hin.
      unfold is_decoded in Hdec. rewrite Hin, Ho in Hdec. discriminate. }
    rewrite Hgate in H. apply bind_Ok in H as (bl & _ & H).
    set (img_crss := filter (fun x => negb (x =? 0)%Z)
                       (map src_crs (filter (is_decoded overwrite) scenes))) in *.
    assert (Hmem : src_crs sc ∈ img_crss).
    { unfold img_crss. apply list_elem_of_filter. split.
      - apply negb_prop_intro. intros E. apply Is_true_true, Z.eqb_eq in E. contradiction.
      - change (map ?g ?l) with (g <$> l). apply list_elem_of_fmap. exists sc.
        split; [reflexivity|]. apply list_elem_of_filter. split; [now rewrite Hdec|exact Hin]. }
    assert (Hall : forall x, x ∈ img_crss -> x = c).
    { intros x Hx. unfold img_crss in Hx. apply list_elem_of_filter in Hx as [Hx0 Hx].
      change (map ?g ?l) with (g <$> l) in Hx.
      apply list_elem_of_fmap in Hx as (sc' & -> & Hsc').
      apply list_elem_of_filter in Hsc' as [Hd' Hin'].
      destruct (Hsame sc' Hin' (Is_true_true_1 _ Hd')) as [H0|Hc]; [|exact Hc].
      rewrite H0 in Hx0. simpl in Hx0. contradiction. }
    destruct img_crss as [|x l] eqn:El; [now apply elem_of_nil in Hmem|].
    injection H as <-. f_equal. apply Hall. apply Hmax. discriminate.
Qed.

Lemma site_crs_sources_witness :
  exists r,
    filter (fun r => String.eqb (st_name r) "DE-RuS") _build_icos_meta = [r] /\
    (forall l, l <> [] -> default 0%Z (head l) ∈ l) /\
    site_crs _build_icos_meta (fun _ => Some 32632%Z) (fun _ => 32632%Z)
      (fun l => default 0%Z (head l)) false ("DE-RuS", []) = Ok (Some 32632%Z) /\
    site_crs _build_icos_meta (fun _ => Some 32631%Z) (fun _ => 32632%Z)
      (fun l => default 0%Z (head l)) false ("DE-RuS", [scene_new4; scene_done4])
    = Ok (Some 32632%Z).
Proof.
  exists (mk_station "DE-RuS" "CRO" 50.86591 6.44715).
  assert (Hf : filter (fun r => String.eqb (st_name r) "DE-RuS") _build_icos_meta
               = [mk_station "DE-RuS" "CRO" 50.86591 6.44715]) by (vm_compute; reflexivity).
  assert (Hmax : forall l : list Z, l <> [] -> default 0%Z (head l) ∈ l).
  { intros [|x l] Hl; [congruence|left]. }
  split; [exact Hf|]. split; [exact Hmax|].
  destruct (site_crs_sources _build_icos_meta (fun _ => Some 32632%Z) (fun _ => 32632%Z)
              (fun l => default 0%Z (head l)) false "DE-RuS" [] _ Hf Hmax) as (H1 & _ & _).
  split; [rewrite (H1 eq_refl); vm_compute; reflexivity|].
  vm_compute. reflexivity.
Defined.

(** ** [_icos_era5_pblh]: the boundary-layer height of an image *)

Lemma omap_id_no_nan (l : list (option Q)) :
  existsb isnan l = false -> Some <$> omap id l = l.
Proof.
  induction l as [|[x|] l IH]; simpl; [reflexivity| |discriminate].
  intros H. csimpl. f_equal. exact (IH H).
Qed.

(** X30. When [_icos_era5_pblh] returns, there is one value per image of
    the station, in the order of the inventory.  The value of an image is
    the boundary-layer height of the ERA5 time slice nearest to the
    image's start time rounded to the hour, the first such slice of the
    file when two are equally near; with an [expver] dimension it is the
    value of the first version, or that of the second when the first is
    NaN.  No value that is returned is NaN. *)
Theorem era5_pblh_nearest_slice (round_1h : Z -> Z) (era5 : era5_file)
  (db : list img_row) (icos_site : string) (pblh : list Q) :
  _icos_era5_pblh round_1h era5 db icos_site = Ok pblh ->
  let img_db_site := filter (fun r => String.eqb (name r) icos_site) db in
  length pblh = length img_db_site /\
  forall i r, img_db_site !! i = Some r ->
    exists ts l1 l2 v,
      era5_times era5 = l1 ++ ts :: l2 /\
      (forall t, t ∈ era5_times era5 ->
         (Z.abs (ts - round_1h (startdate r)) <= Z.abs (t - round_1h (startdate r)))%Z) /\
      (forall t, t ∈ l1 ->
         (Z.abs (ts - round_1h (startdate r)) < Z.abs (t - round_1h (startdate r)))%Z) /\
      pblh !! i = Some v /\
      (era5_blh era5 ts 0 = Ok (Some v) \/
       era5_expver era5 = true /\ era5_blh era5 ts 0 = Ok None /\
       era5_blh era5 ts 1 = Ok (Some v)).
Proof.
  intros H img_db_site. unfold _icos_era5_pblh in H. fold img_db_site in H.
  apply bind_Ok in H as (vals & Hvals & H).
  destruct (existsb isnan vals) eqn:En; [discriminate|]. injection H as <-.
  pose proof (omap_id_no_nan vals En) as Hsome.
  split.
  { apply (f_equal length) in Hsome as Hl. rewrite length_fmap in Hl. rewrite Hl.
    eapply mapM_Ok_length; eauto. }
  intros i r Hi.
  destruct (mapM_Ok_lookup _ _ _ _ _ Hvals Hi) as (o & Ho & Hv).
  assert (Hov : exists v, o = Some v /\ omap id vals !! i = Some v).
  { rewrite <- Hsome in Ho. rewrite list_lookup_fmap in Ho.
    destruct (omap id vals !! i) as [v|]; [|discriminate]. injection Ho as <-. eauto. }
  destruct Hov as (v & -> & Hpi).
  unfold era5_value in Hv. apply bind_Ok in Hv as (ts & Hts & Hv).
  set (idate := round_1h (startdate r)) in *.
  assert (Hne : era5_times era5 <> []).
  { intros E. unfold nearest in Hts. rewrite E in Hts. discriminate. }
  destruct (py_min_split Qltb (fun x : Z => distance x idate) Qltb_trans Qltb_below
              (era5_times era5) Hne) as (m & l1 & l2 & Hm & Heq & H1 & H2).
  unfold nearest in Hts. rewrite Hm in Hts. injection Hts as ->.
  rewrite Forall_forall in H1, H2.
  exists ts, l1, l2, v. split; [exact Heq|]. split; [|split; [|split; [exact Hpi|]]].
  - intros t Ht. apply Z_distance_le. rewrite Heq in Ht.
    apply elem_of_app in Ht as [Ht|Ht].
    + apply H1, Qltb_lt in Ht. now apply Qlt_le_weak.
    + apply elem_of_cons in Ht as [-> | Ht]; [apply Qle_refl|].
      now apply H2, Qltb_ge in Ht.
  - intros t Ht. apply H1, Qltb_lt in Ht. unfold distance, Z_distance in Ht.
    now rewrite <- Zlt_Qlt in Ht.
  - destruct (era5_expver era5); [|now left].
    apply bind_Ok in Hv as (val & Hval & Hv). destruct val as [x|]; simpl in Hv.
    + injection Hv as ->. now left.
    + right. auto.
Qed.

Lemma era5_pblh_nearest_slice_witness :
  exists pblh,
    _icos_era5_pblh round_hour era5_rus [img_at "20200615104112" d_2020_06_15] "DE-RuS"
    = Ok pblh /\ pblh = [1180%Q].
Proof.
  destruct (_icos_era5_pblh round_hour era5_rus [img_at "20200615104112" d_2020_06_15]
              "DE-RuS") as [pblh|e] eqn:E; [|vm_compute in E; discriminate].
  destruct (era5_pblh_nearest_slice _ _ _ _ _ E) as [Hlen _].
  exists pblh. split; [reflexivity|].
  vm_compute in E. injection E as <-. reflexivity.
Defined.
